(** * volumebot: the decision engine, shallowly embedded

    The Python sources embedded here are [constants.py], [price_strategy.py],
    [market_data.py], [order_manager.py], [config_validator.py], and of
    [main.py] the class [VolumeGenerationStrategy] and one pass of the loop
    of [StandaloneVolumeBot.run_volume_generation].

    Conventions of the embedding.
    - Python floats are exact rationals ([Q]): the statements proved over
      them are those that read the same on binary64 (comparisons, [min],
      [max], clamping, what is sent and stored).  Where rounding decides,
      the computation is also embedded on binary64 floats (module
      [Binary64]); the numbers of a configuration dict may be infinite or
      NaN ([Number]).
    - A [datetime] is its number of microseconds (the resolution of the
      Python type) since the epoch, a [Z].
    - Every method runs in one state-and-exception monad over a [World] that
      holds the mutable attributes of the three objects together with the
      environment the code consults: the exchange client, the pseudo-random
      generator and the wall clock.  An exception keeps the mutations made
      before it was raised, as in Python.
    - [np.random.random()] pops the next draw of the generator;
      [np.random.uniform(a, b)] is [a + (b - a) * u] for the next draw [u],
      which is how numpy computes it. *)

From Stdlib Require Import QArith ZArith List String Ascii Bool Lia Lqa.
From Stdlib Require Import DecimalString DecimalZ DecimalPos.
From Stdlib Require PrimFloat.
Import ListNotations.

Open Scope Q_scope.

(** ** constants.py *)

Module constants.
Definition MAX_BALANCE_USAGE_RATIO : Q := 0.1.
Definition ORDER_SIDE_ALTERNATE_PROBABILITY : Q := 0.8.
Definition BASE_PRICE_STEP_RATIO : Q := 0.001.
Definition PRICE_RANDOMIZATION_FACTOR : Q := 0.5.
Definition LIQUIDITY_USAGE_RATIO : Q := 0.5.
Definition PRICE_ADJUSTMENT_PROBABILITY : Q := 0.7.
Definition BURST_MODE_INTERVAL_MULTIPLIER : Q := 0.3.
Definition QUIET_MODE_INTERVAL_MULTIPLIER : Q := 3.0.
Definition COMPLETED_ORDER_STATUSES : list string :=
  ["closed"; "filled"; "canceled"]%string.
Definition PRICE_WALK_DIRECTIONS : list string :=
  ["up"; "down"; "sideways"; "random"]%string.
End constants.
Import constants.

(** ** Python built-ins used by the sources *)

Module Py.

(** [x < y] on floats. *)
Definition Qlt_bool (x y : Q) : bool := negb (Qle_bool y x).

(** [min(a, b)] returns [a] unless [b < a]; [max(a, b)] returns [a] unless
    [b > a]. *)
Definition min (a b : Q) : Q := if Qlt_bool b a then b else a.
Definition max (a b : Q) : Q := if Qlt_bool a b then b else a.

(** [np.clip(x, lo, hi)] is [np.minimum(hi, np.maximum(x, lo))]. *)
Definition np_clip (x lo hi : Q) : Q := min (max x lo) hi.

(** [str.lower()], on the ASCII letters. *)
Definition lower_ascii (c : ascii) : ascii :=
  let n := nat_of_ascii c in
  if ((65 <=? n) && (n <=? 90))%nat then ascii_of_nat (n + 32) else c.

Fixpoint lower (s : string) : string :=
  match s with
  | EmptyString => EmptyString
  | String c rest => String (lower_ascii c) (lower rest)
  end.

(** [needle in hay] on strings. *)
Fixpoint contains (needle hay : string) : bool :=
  String.prefix needle hay
  || match hay with
     | EmptyString => false
     | String _ rest => contains needle rest
     end.

(** [x in xs] on a list of strings. *)
Definition mem (x : string) (xs : list string) : bool :=
  existsb (String.eqb x) xs.

(** [xs.remove(x)] guarded by [if x in xs]: the first occurrence goes. *)
Fixpoint remove_first (x : string) (xs : list string) : list string :=
  match xs with
  | [] => []
  | y :: rest => if String.eqb x y then rest else y :: remove_first x rest
  end.

(** [timedelta.total_seconds()] of a difference in microseconds. *)
Definition total_seconds (micros : Z) : Q := inject_Z micros / 1000000.

(** [datetime.hour]. *)
Definition hour (t : Z) : Z := (t / 3600000000) mod 24.

(** The digits after the decimal point in [repr] of a timestamp: six
    microsecond digits without their trailing zeros, one digit at least. *)
Fixpoint strip_zeros (fuel : nat) (digits : Z) : Z * nat :=
  match fuel with
  | O => (digits, O)
  | S n =>
      if (digits mod 10 =? 0)%Z then strip_zeros n (digits / 10)
      else (digits, fuel)
  end.

(** The character of a decimal digit. *)
Definition digit_char (d : Z) : ascii := ascii_of_nat (48 + Z.to_nat d).

(** The [width] decimal digits of [n], most significant first. *)
Fixpoint fixed_digits (width : nat) (n : Z) : string :=
  match width with
  | O => EmptyString
  | S k =>
      String (digit_char (n / 10 ^ Z.of_nat k))
             (fixed_digits k (n mod 10 ^ Z.of_nat k))
  end.

(** [str(datetime.timestamp())] of a reading of the clock: the seconds, a
    point, and the microseconds without their trailing zeros.  The
    timestamp is a binary64 float and [str] prints its shortest decimal:
    that is this text for readings from 1 s to below 2^33 s after the epoch
    (the year 2242), where neighbouring floats are less than a microsecond
    apart; from 2^33 s on the float merges neighbouring microseconds, and
    before 1 s [str] may switch to an exponent or a sign. *)
Definition timestamp_str (t : Z) : string :=
  let '(digits, width) := strip_zeros 5 (t mod 1000000) in
  (NilZero.string_of_int (Z.to_int (t / 1000000)) ++ "."
   ++ fixed_digits (S width) digits)%string.

Definition index_error : string := "list index out of range".
Definition none_compare_error : string :=
  "'<=' not supported between instances of 'NoneType' and 'int'".
Definition none_format_error : string :=
  "unsupported format string passed to NoneType.__format__".

End Py.

(** ** Values exchanged with the outside *)

Inductive Side := buy | sell.

Definition Side_eqb (a b : Side) : bool :=
  match a, b with
  | buy, buy | sell, sell => true
  | _, _ => false
  end.

(** What a call returns: a value, or an exception carrying [str(e)]. *)
Inductive Result (A : Type) : Type :=
| Ok (a : A)
| Raise (msg : string).
Arguments Ok {A} a.
Arguments Raise {A} msg.

(** A value that is a float or [None]. *)
Inductive PyVal := PyNone | PyFloat (x : Q).

(** One level of an order book is a list [[price, size, ...]]. *)
Definition Level := list Q.

(** [orderbook.get('bids')] is [None] when the key is absent. *)
Record OrderBook := mkOrderBook {
  bids : option (list Level);
  asks : option (list Level)
}.

(** [ticker.get('last', 0)]: the key may be absent, or hold [None]. *)
Record Ticker := mkTicker { last : option PyVal }.

(** A non-empty market-data dict; [None] and [{}] are the absent snapshot. *)
Record MarketData := mkMarketData {
  ticker : option Ticker;
  orderbook : option OrderBook
}.

(** The order dict an exchange returns; [eo_status = None] stands for a
    missing or [None] status (neither is a completed status, and the
    [KeyError] of a missing key does not read as "not found"). *)
Record ExchangeOrder := mkExchangeOrder {
  eo_id : option string;
  eo_status : option string
}.

(** The ccxt exchange client: each call answers and moves the exchange on. *)
Class ExchangeClient (E : Type) := {
  create_limit_order :
    string -> Side -> Q -> Q -> E -> Result ExchangeOrder * E;
  create_market_order :
    string -> Side -> Q -> E -> Result ExchangeOrder * E;
  cancel_order : string -> string -> E -> Result unit * E;
  fetch_order : string -> string -> E -> Result ExchangeOrder * E
}.

(** The requests sent to the exchange, oldest first. *)
Inductive Request :=
| ReqLimitOrder (symbol : string) (side : Side) (amount price : Q)
| ReqMarketOrder (symbol : string) (side : Side) (amount : Q)
| ReqCancel (order_id symbol : string)
| ReqFetch (order_id symbol : string).

(** The configuration dict of [VolumeGenerationStrategy.__init__]. *)
Record Config := mkConfig {
  symbol : string;
  target_volume_usdt_per_hour : Q;
  price_walk_direction : string;
  max_price_deviation : Q;
  order_frequency : Q;
  min_order_ratio : Q;
  max_order_ratio : Q;
  size_randomization : Q;
  timing_randomization : Q;
  burst_probability : Q;
  quiet_probability : Q;
  min_order_value_usdt : Q;
  max_spread_threshold : Q;
  cancel_previous_orders : bool
}.

(** The mutable attributes and the environment. *)
Record World (E : Type) := mkWorld {
  (* VolumeGenerationStrategy *)
  last_order_time : option Z;
  volume_generated_today_usdt : Q;
  order_count : Z;
  (* PriceStrategy *)
  price_walk_step : Q;
  last_order_side : option Side;
  (* OrderManager *)
  open_orders : list string;
  (* environment *)
  exchange : E;
  requests : list Request;
  rng : nat -> Q;
  clock : nat -> Z
}.
Arguments mkWorld {E}.
Arguments last_order_time {E}.
Arguments volume_generated_today_usdt {E}.
Arguments order_count {E}.
Arguments price_walk_step {E}.
Arguments last_order_side {E}.
Arguments open_orders {E}.
Arguments exchange {E}.
Arguments requests {E}.
Arguments rng {E}.
Arguments clock {E}.

Section Setters.
Context {E : Type}.

Definition set_last_order_time (v : option Z) (w : World E) : World E :=
  mkWorld v (volume_generated_today_usdt w) (order_count w)
    (price_walk_step w) (last_order_side w) (open_orders w) (exchange w)
    (requests w) (rng w) (clock w).
Definition set_volume_generated_today_usdt (v : Q) (w : World E) : World E :=
  mkWorld (last_order_time w) v (order_count w)
    (price_walk_step w) (last_order_side w) (open_orders w) (exchange w)
    (requests w) (rng w) (clock w).
Definition set_order_count (v : Z) (w : World E) : World E :=
  mkWorld (last_order_time w) (volume_generated_today_usdt w) v
    (price_walk_step w) (last_order_side w) (open_orders w) (exchange w)
    (requests w) (rng w) (clock w).
Definition set_price_walk_step (v : Q) (w : World E) : World E :=
  mkWorld (last_order_time w) (volume_generated_today_usdt w) (order_count w)
    v (last_order_side w) (open_orders w) (exchange w)
    (requests w) (rng w) (clock w).
Definition set_last_order_side (v : option Side) (w : World E) : World E :=
  mkWorld (last_order_time w) (volume_generated_today_usdt w) (order_count w)
    (price_walk_step w) v (open_orders w) (exchange w)
    (requests w) (rng w) (clock w).
Definition set_open_orders (v : list string) (w : World E) : World E :=
  mkWorld (last_order_time w) (volume_generated_today_usdt w) (order_count w)
    (price_walk_step w) (last_order_side w) v (exchange w)
    (requests w) (rng w) (clock w).
Definition set_exchange (v : E) (rs : list Request) (w : World E) : World E :=
  mkWorld (last_order_time w) (volume_generated_today_usdt w) (order_count w)
    (price_walk_step w) (last_order_side w) (open_orders w) v
    rs (rng w) (clock w).
Definition set_rng (v : nat -> Q) (w : World E) : World E :=
  mkWorld (last_order_time w) (volume_generated_today_usdt w) (order_count w)
    (price_walk_step w) (last_order_side w) (open_orders w) (exchange w)
    (requests w) v (clock w).
Definition set_clock (v : nat -> Z) (w : World E) : World E :=
  mkWorld (last_order_time w) (volume_generated_today_usdt w) (order_count w)
    (price_walk_step w) (last_order_side w) (open_orders w) (exchange w)
    (requests w) (rng w) v.
End Setters.

(** ** The monad of methods *)

Definition M (E A : Type) : Type := World E -> Result A * World E.

Section Monad.
Context {E : Type}.

Definition ret {A} (a : A) : M E A := fun w => (Ok a, w).

Definition raise {A} (msg : string) : M E A := fun w => (Raise msg, w).

Definition bind {A B} (m : M E A) (k : A -> M E B) : M E B :=
  fun w =>
    match m w with
    | (Ok a, w') => k a w'
    | (Raise msg, w') => (Raise msg, w')
    end.

(** [try: m  except Exception as e: handler(str(e))]. *)
Definition try_except {A} (m : M E A) (handler : string -> M E A) : M E A :=
  fun w =>
    match m w with
    | (Ok a, w') => (Ok a, w')
    | (Raise msg, w') => handler msg w'
    end.

(** A pure computation that may raise. *)
Definition lift {A} (r : Result A) : M E A := fun w => (r, w).

Definition gets {A} (f : World E -> A) : M E A := fun w => (Ok (f w), w).

Definition modify (f : World E -> World E) : M E unit :=
  fun w => (Ok tt, f w).
End Monad.

Declare Scope method_scope.
Delimit Scope method_scope with method.
Notation "x <- m ;; k" := (bind m (fun x => k))
  (at level 100, m at next level, right associativity) : method_scope.
Notation "m ;;; k" := (bind m (fun _ => k))
  (at level 100, right associativity) : method_scope.
Open Scope method_scope.

Section Environment.
Context {E : Type} {client : ExchangeClient E}.

(** [np.random.random()]. *)
Definition np_random_random : M E Q :=
  fun w => (Ok (rng w O), set_rng (fun n => rng w (S n)) w).

(** [np.random.uniform(low, high)]. *)
Definition np_random_uniform (low high : Q) : M E Q :=
  u <- np_random_random ;;
  ret (low + (high - low) * u).

(** [np.random.choice([x, y])]: one draw picks the element. *)
Definition np_random_choice {A} (x y : A) : M E A :=
  u <- np_random_random ;;
  ret (if Py.Qlt_bool u (1 # 2) then x else y).

(** [datetime.now()]. *)
Definition datetime_now : M E Z :=
  fun w => (Ok (clock w O), set_clock (fun n => clock w (S n)) w).

(** [await self.exchange.cancel_order(order_id, self.symbol)]. *)
Definition exchange_cancel_order (order_id sym : string) : M E unit :=
  fun w =>
    let '(r, ex) := cancel_order order_id sym (exchange w) in
    (r, set_exchange ex (requests w ++ [ReqCancel order_id sym]) w).

(** [await self.exchange.fetch_order(order_id, self.symbol)]. *)
Definition exchange_fetch_order (order_id sym : string)
  : M E ExchangeOrder :=
  fun w =>
    let '(r, ex) := fetch_order order_id sym (exchange w) in
    (r, set_exchange ex (requests w ++ [ReqFetch order_id sym]) w).

Definition exchange_create_limit_order
  (sym : string) (side : Side) (amount price : Q) : M E ExchangeOrder :=
  fun w =>
    let '(r, ex) := create_limit_order sym side amount price (exchange w) in
    (r, set_exchange ex
          (requests w ++ [ReqLimitOrder sym side amount price]) w).

Definition exchange_create_market_order
  (sym : string) (side : Side) (amount : Q) : M E ExchangeOrder :=
  fun w =>
    let '(r, ex) := create_market_order sym side amount (exchange w) in
    (r, set_exchange ex (requests w ++ [ReqMarketOrder sym side amount]) w).
End Environment.

(** ** price_strategy.py *)

Module PriceStrategy.
Section Methods.
Context {E : Type}.
Variable np_sin : Q -> Q.
Variable cfg : Config.

(** The [try] block of [calculate_next_price_target]. *)
Definition price_target_try (current_price : Q) : M E Q :=
  let base_step := current_price * BASE_PRICE_STEP_RATIO in
  u <- np_random_uniform
         (- PRICE_RANDOMIZATION_FACTOR) PRICE_RANDOMIZATION_FACTOR ;;
  let randomization := u * base_step in
  target_price <-
    (if String.eqb (price_walk_direction cfg) "up" then
       v <- np_random_uniform 0 1 ;;
       let step := base_step * (1 + v) + randomization in
       ret (current_price + step)
     else if String.eqb (price_walk_direction cfg) "down" then
       v <- np_random_uniform 0 1 ;;
       let step := base_step * (1 + v) + randomization in
       ret (current_price - step)
     else if String.eqb (price_walk_direction cfg) "sideways" then
       let amplitude := base_step * 2 in
       d <- np_random_uniform 0.1 0.3 ;;
       modify (fun w => set_price_walk_step (price_walk_step w + d) w) ;;;
       phase <- gets price_walk_step ;;
       let oscillation := amplitude * np_sin phase + randomization in
       ret (current_price + oscillation)
     else
       direction <- np_random_choice (- (1)) 1 ;;
       v <- np_random_uniform 0.5 2.0 ;;
       let step := base_step * v * direction + randomization in
       ret (current_price + step)) ;;
  let max_price := current_price * (1 + max_price_deviation cfg) in
  let min_price := current_price * (1 - max_price_deviation cfg) in
  ret (Py.np_clip target_price min_price max_price).

(** The [except] block: log, and return the current price. *)
Definition price_target_except (current_price : Q) (msg : string) : M E Q :=
  ret current_price.

Definition calculate_next_price_target (current_price : Q) : M E Q :=
  try_except (price_target_try current_price)
             (price_target_except current_price).

Definition determine_order_side (current_price target_price : Q)
  : M E Side :=
  previous <- gets last_order_side ;;
  side <-
    match previous with
    | None => np_random_choice buy sell
    | Some prev =>
        u <- np_random_random ;;
        if Py.Qlt_bool u ORDER_SIDE_ALTERNATE_PROBABILITY
        then ret (if Side_eqb prev buy then sell else buy)
        else ret prev
    end ;;
  side <-
    (if Py.Qlt_bool current_price target_price && Side_eqb side sell then
       u <- np_random_random ;;
       ret (if Py.Qlt_bool u PRICE_ADJUSTMENT_PROBABILITY
            then buy else side)
     else if Py.Qlt_bool target_price current_price && Side_eqb side buy then
       u <- np_random_random ;;
       ret (if Py.Qlt_bool u PRICE_ADJUSTMENT_PROBABILITY
            then sell else side)
     else ret side) ;;
  modify (set_last_order_side (Some side)) ;;;
  ret side.
End Methods.
End PriceStrategy.

(** ** market_data.py *)

Module MarketDataProvider.

(** [not orderbook.get(key)]: the key is absent or the list is empty. *)
Definition falsy (levels : option (list Level)) : bool :=
  match levels with
  | None | Some [] => true
  | Some (_ :: _) => false
  end.

(** [orderbook[key][0][i]]. *)
Definition top_entry (levels : option (list Level)) (i : nat) : Result Q :=
  match levels with
  | Some (level :: _) =>
      match nth_error level i with
      | Some x => Ok x
      | None => Raise Py.index_error
      end
  | _ => Raise Py.index_error
  end.

Definition calculate_spread (book : OrderBook) : Result Q :=
  if falsy (bids book) || falsy (asks book) then Ok 0
  else
    match top_entry (bids book) 0 with
    | Raise msg => Raise msg
    | Ok bid =>
        match top_entry (asks book) 0 with
        | Raise msg => Raise msg
        | Ok ask => Ok (if Py.Qlt_bool 0 bid then (ask - bid) / bid else 0)
        end
    end.

(** The returned dict, as the pair [(bid_volume, ask_volume)]. *)
Definition get_available_liquidity (book : OrderBook) : Result (Q * Q) :=
  if falsy (bids book) || falsy (asks book) then Ok (0, 0)
  else
    match (if falsy (bids book) then Ok 0 else top_entry (bids book) 1) with
    | Raise msg => Raise msg
    | Ok bid_volume =>
        match (if falsy (asks book) then Ok 0
               else top_entry (asks book) 1) with
        | Raise msg => Raise msg
        | Ok ask_volume => Ok (bid_volume, ask_volume)
        end
    end.

(** [market_data.get('orderbook', {})]. *)
Definition orderbook_of (market_data : MarketData) : OrderBook :=
  match orderbook market_data with
  | Some book => book
  | None => mkOrderBook None None
  end.

(** [market_data.get('ticker', {}).get('last', 0)]. *)
Definition last_price_of (market_data : MarketData) : PyVal :=
  match ticker market_data with
  | Some t =>
      match last t with
      | Some v => v
      | None => PyFloat 0
      end
  | None => PyFloat 0
  end.

End MarketDataProvider.

(** ** order_manager.py *)

(** The dict [place_order] builds in dry-run mode. *)
Record DryRunOrder := mkDryRunOrder {
  dr_id : string;
  dr_symbol : string;
  dr_side : Side;
  dr_amount : Q;
  dr_price : option Q;
  dr_value_usdt : Q;
  dr_status : string;
  dr_dry_run : bool
}.

(** What [place_order] returns. *)
Inductive Placement :=
| Simulated (order : DryRunOrder)
| Submitted (order : ExchangeOrder)
| Failed (error : string).

Module OrderManager.
Section Methods.
Context {E : Type} {client : ExchangeClient E}.
Variable cfg : Config.

(** [if price] on [price: float = None]. *)
Definition truthy (price : option Q) : bool :=
  match price with
  | Some p => negb (Qeq_bool p 0)
  | None => false
  end.

(** Formatting [{price:.8f}] in a log line. *)
Definition format_price (price : option Q) : M E unit :=
  match price with
  | Some _ => ret tt
  | None => raise Py.none_format_error
  end.

(** [if order.get('id')]. *)
Definition tracked_id (order : ExchangeOrder) : option string :=
  match eo_id order with
  | Some id => if String.eqb id "" then None else Some id
  | None => None
  end.

Definition place_order_try
  (side : Side) (amount : Q) (price : option Q) (dry_run : bool)
  : M E Placement :=
  let order_value_usdt :=
    match price with
    | Some p => if truthy price then amount * p else 0
    | None => 0
    end in
  if dry_run then
    format_price price ;;;
    now <- datetime_now ;;
    ret (Simulated
           (mkDryRunOrder ("dry_run_" ++ Py.timestamp_str now) (symbol cfg)
              side amount price order_value_usdt "closed" true))
  else
    order <-
      match price with
      | Some p =>
          if truthy price
          then exchange_create_limit_order (symbol cfg) side amount p
          else exchange_create_market_order (symbol cfg) side amount
      | None => exchange_create_market_order (symbol cfg) side amount
      end ;;
    match tracked_id order with
    | Some id => modify (fun w => set_open_orders (open_orders w ++ [id]) w)
    | None => ret tt
    end ;;;
    format_price price ;;;
    ret (Submitted order).

Definition place_order
  (side : Side) (amount : Q) (price : option Q) (dry_run : bool)
  : M E Placement :=
  try_except (place_order_try side amount price dry_run)
             (fun msg => ret (Failed msg)).

(** The test of the [except] branch of [cancel_open_orders]. *)
Definition already_gone (msg : string) : bool :=
  Py.contains "not found" (Py.lower msg)
  || Py.contains "already" (Py.lower msg).

(** The body of [for order_id in self.open_orders[:]] of
    [cancel_open_orders], on the pair
    [(cancelled_count, orders_to_remove)]. *)
Definition cancel_one (order_id : string) (acc : Z * list string)
  : M E (Z * list string) :=
  try_except
    (exchange_cancel_order order_id (symbol cfg) ;;;
     ret ((fst acc + 1)%Z, snd acc ++ [order_id]))
    (fun msg =>
       if already_gone msg then ret (fst acc, snd acc ++ [order_id])
       else ret acc).

Fixpoint cancel_each (ids : list string) (acc : Z * list string)
  : M E (Z * list string) :=
  match ids with
  | [] => ret acc
  | order_id :: rest =>
      acc' <- cancel_one order_id acc ;;
      cancel_each rest acc'
  end.

(** [for order_id in orders_to_remove: if order_id in self.open_orders:
    self.open_orders.remove(order_id)]. *)
Definition forget (orders_to_remove : list string) : M E unit :=
  modify (fun w =>
    set_open_orders
      (fold_left
         (fun tracked order_id =>
            if Py.mem order_id tracked
            then Py.remove_first order_id tracked else tracked)
         orders_to_remove (open_orders w))
      w).

Definition cancel_open_orders : M E Z :=
  tracked <- gets open_orders ;;
  match tracked with
  | [] => ret 0%Z
  | _ :: _ =>
      acc <- cancel_each tracked (0%Z, []) ;;
      forget (snd acc) ;;;
      ret (fst acc)
  end.

(** The body of the loop of [cleanup_completed_orders], on the pair
    [(completed_count, orders_to_remove)]. *)
Definition cleanup_one (order_id : string) (acc : Z * list string)
  : M E (Z * list string) :=
  try_except
    (order_status <- exchange_fetch_order order_id (symbol cfg) ;;
     match eo_status order_status with
     | Some status =>
         if Py.mem status COMPLETED_ORDER_STATUSES
         then ret ((fst acc + 1)%Z, snd acc ++ [order_id])
         else ret acc
     | None => ret acc
     end)
    (fun msg =>
       if Py.contains "not found" (Py.lower msg)
       then ret ((fst acc + 1)%Z, snd acc ++ [order_id])
       else ret acc).

Fixpoint cleanup_each (ids : list string) (acc : Z * list string)
  : M E (Z * list string) :=
  match ids with
  | [] => ret acc
  | order_id :: rest =>
      acc' <- cleanup_one order_id acc ;;
      cleanup_each rest acc'
  end.

Definition cleanup_completed_orders : M E Z :=
  tracked <- gets open_orders ;;
  match tracked with
  | [] => ret 0%Z
  | _ :: _ =>
      acc <- cleanup_each tracked (0%Z, []) ;;
      forget (snd acc) ;;;
      ret (fst acc)
  end.

Definition get_open_order_count : M E Z :=
  tracked <- gets open_orders ;;
  ret (Z.of_nat (List.length tracked)).
End Methods.
End OrderManager.

(** ** main.py: VolumeGenerationStrategy *)

(** The [analysis_data] dict of an evaluated decision. *)
Record Analysis := mkAnalysis {
  current_price : Q;
  target_price : Q;
  order_side : Side;
  order_size : Q;
  order_value_usdt : Q;
  spread : Q;
  spread_ok : bool;
  volume_rate_usdt : Q;
  behind_target : bool
}.

(** The third component of what [should_trade] returns. *)
Inductive Diagnostics :=
| Error (msg : string)
| WaitingForTiming
| Analysed (analysis_data : Analysis).

(** [(should_place, confidence, analysis_data)]. *)
Definition Decision : Type := bool * Q * Diagnostics.

Definition should_place_of (d : Decision) : bool := fst (fst d).
Definition confidence_of (d : Decision) : Q := snd (fst d).
Definition diagnostics_of (d : Decision) : Diagnostics := snd d.

Module VolumeGenerationStrategy.
Section Methods.
Context {E : Type} {client : ExchangeClient E}.
Variable np_sin : Q -> Q.
Variable cfg : Config.

Definition calculate_next_price_target (price : Q) : M E Q :=
  PriceStrategy.calculate_next_price_target np_sin cfg price.

Definition determine_order_side (price target : Q) : M E Side :=
  PriceStrategy.determine_order_side price target.

Definition cancel_open_orders : M E Z :=
  OrderManager.cancel_open_orders cfg.

Definition cleanup_completed_orders : M E Z :=
  OrderManager.cleanup_completed_orders cfg.

(** [calculate_order_size].  The floor [min_order_value_usdt / p] is the
    exact quotient here; what its rounding on floats does to the notional
    is read off [Binary64.calculate_order_size]. *)
Definition calculate_order_size
  (available_balance : Q) (market_data : MarketData) (price : option Q)
  : M E Q :=
  base_ratio <- np_random_uniform (min_order_ratio cfg)
                                  (max_order_ratio cfg) ;;
  let base_size := available_balance * base_ratio in
  r <- np_random_uniform (- size_randomization cfg)
                         (size_randomization cfg) ;;
  let randomization_factor := 1 + r in
  let size := base_size * randomization_factor in
  let book := MarketDataProvider.orderbook_of market_data in
  liquidity <- lift (MarketDataProvider.get_available_liquidity book) ;;
  let max_liquidity_size :=
    Py.min (fst liquidity) (snd liquidity) * LIQUIDITY_USAGE_RATIO in
  let size :=
    if Py.Qlt_bool 0 max_liquidity_size
    then Py.min size max_liquidity_size else size in
  match price with
  | Some p =>
      if negb (Qeq_bool p 0) && Py.Qlt_bool 0 p then
        let min_size_for_usdt := min_order_value_usdt cfg / p in
        ret (Py.max size min_size_for_usdt)
      else ret (Py.max size 1)
  | None => ret (Py.max size 1)
  end.

(** The interval of [should_place_order]: the randomized interval and the
    regime adjustment applied to it. *)
Definition randomized_interval : M E Q :=
  let base_interval := order_frequency cfg in
  u <- np_random_uniform (- timing_randomization cfg)
                         (timing_randomization cfg) ;;
  let interval := base_interval * (1 + u) in
  burst <- np_random_random ;;
  if Py.Qlt_bool burst (burst_probability cfg) then
    ret (interval * BURST_MODE_INTERVAL_MULTIPLIER)
  else
    quiet <- np_random_random ;;
    if Py.Qlt_bool quiet (quiet_probability cfg) then
      ret (interval * QUIET_MODE_INTERVAL_MULTIPLIER)
    else ret interval.

Definition should_place_order : M E bool :=
  previous <- gets last_order_time ;;
  match previous with
  | None => ret true
  | Some t =>
      now <- datetime_now ;;
      let elapsed := Py.total_seconds (now - t) in
      interval <- randomized_interval ;;
      ret (Qle_bool interval elapsed)
  end.

(** The operand of [current_price <= 0]: comparing [None] with [0]
    raises a [TypeError]. *)
Definition compared_price (v : PyVal) : M E Q :=
  match v with
  | PyFloat p => ret p
  | PyNone => raise Py.none_compare_error
  end.

(** The [try] block of [should_trade], below the test of the price. *)
Definition evaluate_trade
  (market_data : MarketData) (available_balance price : Q) : M E Decision :=
  target <- calculate_next_price_target price ;;
  side <- determine_order_side price target ;;
  size <- calculate_order_size available_balance market_data (Some price) ;;
  let book := MarketDataProvider.orderbook_of market_data in
  spread_now <- lift (MarketDataProvider.calculate_spread book) ;;
  let ok := Qle_bool spread_now (max_spread_threshold cfg) in
  let confidence := if ok then 0.7 else 0.3 in
  let should_place := Py.Qlt_bool 0.5 confidence && ok in
  volume <- gets volume_generated_today_usdt ;;
  now <- datetime_now ;;
  let rate := volume / inject_Z (Z.max 1 (Py.hour now + 1)) in
  let behind :=
    Py.Qlt_bool rate (target_volume_usdt_per_hour cfg * 0.8) in
  let confidence := if behind then confidence + 0.2 else confidence in
  let analysis_data :=
    mkAnalysis price target side size (size * price) spread_now ok rate
      behind in
  (if should_place then
     placed_at <- datetime_now ;;
     modify (set_last_order_time (Some placed_at)) ;;;
     modify (fun w => set_order_count (order_count w + 1)%Z w) ;;;
     modify (fun w =>
       set_volume_generated_today_usdt
         (volume_generated_today_usdt w + size * price) w)
   else ret tt) ;;;
  ret (should_place, confidence, Analysed analysis_data).

(** The [try] block of [should_trade]. *)
Definition should_trade_try
  (market_data : option MarketData) (available_balance : Q)
  : M E Decision :=
  match market_data with
  | None => ret (false, 0, Error "No market data")
  | Some data =>
      due <- should_place_order ;;
      if negb due then ret (false, 0, WaitingForTiming)
      else
        (if cancel_previous_orders cfg then cancel_open_orders ;;; ret tt
         else ret tt) ;;;
        price <- compared_price (MarketDataProvider.last_price_of data) ;;
        if Qle_bool price 0
        then ret (false, 0, Error "Invalid current price")
        else evaluate_trade data available_balance price
  end.

(** [should_trade]: the [except] block turns any exception into a
    decision, so the method returns a decision and a world, never an
    exception. *)
Definition should_trade
  (market_data : option MarketData) (available_balance : Q) (w : World E)
  : Decision * World E :=
  match should_trade_try market_data available_balance w with
  | (Ok decision, w') => (decision, w')
  | (Raise msg, w') => ((false, 0, Error msg), w')
  end.
End Methods.
End VolumeGenerationStrategy.


(** ** Vocabulary of the statements *)

(** The band [current_price * (1 -+ max_price_deviation)]. *)
Definition within_deviation (cfg : Config) (price target : Q) : Prop :=
  price * (1 - max_price_deviation cfg) <= target
  /\ target <= price * (1 + max_price_deviation cfg).

(** Every level of both sides of the book is a [[price, size, ...]] list. *)
Definition well_formed_levels (levels : option (list Level)) : Prop :=
  match levels with
  | Some ls => Forall (fun level => (2 <= List.length level)%nat) ls
  | None => True
  end.

Definition well_formed_book (market_data : MarketData) : Prop :=
  well_formed_levels (bids (MarketDataProvider.orderbook_of market_data))
  /\ well_formed_levels (asks (MarketDataProvider.orderbook_of market_data)).

(** The "not found" / "already completed" test in the words of the
    specification, for comparison with [OrderManager.already_gone]. *)
Definition described_as_gone (msg : string) : bool :=
  Py.contains "not found" (Py.lower msg)
  || Py.contains "already completed" (Py.lower msg).

(** The text holds no decimal point. *)
Fixpoint dotless (s : string) : Prop :=
  match s with
  | EmptyString => True
  | String c rest => c <> "."%char /\ dotless rest
  end.

(** The clock readings whose timestamp prints as [Py.timestamp_str] has
    it: from 1 s to below 2^33 s after the epoch. *)
Definition timestamp_exact (t : Z) : Prop :=
  (1000000 <= t < 2 ^ 33 * 1000000)%Z.

(** The id of a simulated placement. *)
Definition simulated_id (r : Result Placement) : option string :=
  match r with
  | Ok (Simulated order) => Some (dr_id order)
  | _ => None
  end.

Section Observations.
Context {E : Type} {client : ExchangeClient E}.

(** The attributes of the strategy object, and those of the price walk. *)
Definition engine_state (w : World E) : option Z * Q * Z :=
  (last_order_time w, volume_generated_today_usdt w, order_count w).

Definition walk_state (w : World E) : Q * option Side :=
  (price_walk_step w, last_order_side w).

(** What the exchange and the tracker hold. *)
Definition exchange_state (w : World E) : E * list Request * list string :=
  (exchange w, requests w, open_orders w).

(** What the exchange answers when the ids are cancelled in order. *)
Fixpoint cancel_replies (sym : string) (ids : list string) (ex : E)
  : list (string * Result unit) :=
  match ids with
  | [] => []
  | order_id :: rest =>
      let '(reply, ex') := cancel_order order_id sym ex in
      (order_id, reply) :: cancel_replies sym rest ex'
  end.

(** What the exchange answers when the ids are queried in order. *)
Fixpoint fetch_replies (sym : string) (ids : list string) (ex : E)
  : list (string * Result ExchangeOrder) :=
  match ids with
  | [] => []
  | order_id :: rest =>
      let '(reply, ex') := fetch_order order_id sym ex in
      (order_id, reply) :: fetch_replies sym rest ex'
  end.

(** The method leaves the observation [f] of the world as it was. *)
Definition keeps {X A} (f : World E -> X) (m : M E A) : Prop :=
  forall w, f (snd (m w)) = f w.

(** The same, for the runs whose outcome satisfies [C]. *)
Definition keeps_when {X A}
  (C : Result A -> Prop) (f : World E -> X) (m : M E A) : Prop :=
  forall w, C (fst (m w)) -> f (snd (m w)) = f w.

(** Every outcome of the method satisfies [P]. *)
Definition returns {A} (P : Result A -> Prop) (m : M E A) : Prop :=
  forall w, P (fst (m w)).
End Observations.

(** A cancellation went through. *)
Definition cancelled (reply : Result unit) : bool :=
  match reply with
  | Ok _ => true
  | Raise _ => false
  end.

(** [cancel_open_orders] stops tracking the order. *)
Definition forgotten_on_cancel (reply : Result unit) : bool :=
  match reply with
  | Ok _ => true
  | Raise msg => OrderManager.already_gone msg
  end.

(** The status query shows the order is over: a completed status, or a
    failure that reads "not found". *)
Definition completed (reply : Result ExchangeOrder) : bool :=
  match reply with
  | Ok order =>
      match eo_status order with
      | Some status => Py.mem status COMPLETED_ORDER_STATUSES
      | None => false
      end
  | Raise msg => Py.contains "not found" (Py.lower msg)
  end.

(** The ids whose reply passes the test, and how many there are. *)
Definition ids_where {R} (test : R -> bool) (replies : list (string * R))
  : list string :=
  map fst (filter (fun p => test (snd p)) replies).

Definition count_where {R} (test : R -> bool) (replies : list (string * R))
  : Z :=
  Z.of_nat (List.length (ids_where test replies)).

(** The outcome of a decision that did not place an order. *)
Definition not_placed (r : Result Decision) : Prop :=
  match r with
  | Ok d => should_place_of d = false
  | Raise _ => True
  end.

(** The decision reports that it waits for the timing check. *)
Definition waiting (r : Result Decision) : Prop :=
  match r with
  | Ok d => diagnostics_of d = WaitingForTiming
  | Raise _ => False
  end.

(** An evaluated decision: its flag is [spread_ok], which is the test of
    the spread against the threshold, and its confidence is the base for
    the spread plus the bonus for being behind the volume target. *)
Definition evaluated (cfg : Config) (r : Result Decision) : Prop :=
  match r with
  | Ok (placed, confidence, Analysed a) =>
      placed = spread_ok a
      /\ spread_ok a = Qle_bool (spread a) (max_spread_threshold cfg)
      /\ confidence == (if spread_ok a then 0.7 else 0.3)
                       + (if behind_target a then 0.2 else 0)
  | Ok _ => False
  | Raise _ => True
  end.

(** The price the ticker holds is a number and is not positive. *)
Definition price_rejected (market_data : MarketData) : Prop :=
  exists p, MarketDataProvider.last_price_of market_data = PyFloat p
            /\ p <= 0.

(** ** Scenarios *)

(** An exchange that answers from a script. *)
Record Script := mkScript {
  cancel_script : string -> Result unit;
  fetch_script : string -> Result ExchangeOrder
}.

#[global] Instance scripted_exchange : ExchangeClient Script := {
  create_limit_order _ _ _ _ ex :=
    (Ok (mkExchangeOrder (Some "limit-1"%string) (Some "open"%string)), ex);
  create_market_order _ _ _ ex :=
    (Ok (mkExchangeOrder (Some "market-1"%string) (Some "open"%string)), ex);
  cancel_order order_id _ ex := (cancel_script ex order_id, ex);
  fetch_order order_id _ ex := (fetch_script ex order_id, ex)
}.

(** The defaults of [constants.py], with the given walk direction. *)
Definition default_config (direction : string) : Config :=
  mkConfig "ETH/USDT" 100 direction 0.01 60 0.001 0.005 0.3 0.5 0.05 0.15
    5 0.05 true.

(** A fresh strategy over a scripted exchange; every draw is [1/2] and the
    clock advances by one second per reading. *)
Definition fresh_world (script : Script) (tracked : list string)
  : World Script :=
  mkWorld None 0 0%Z 0 None tracked script [] (fun _ => 1 # 2)
    (fun n => 1730712345123456 + 1000000 * Z.of_nat n)%Z.

Definition quiet_script : Script :=
  mkScript (fun _ => Ok tt)
           (fun _ => Ok (mkExchangeOrder None (Some "open"%string))).

(** No jitter and no regime: the timing check of this configuration is
    deterministic. *)
Definition steady_config : Config :=
  mkConfig "ETH/USDT" 100 "sideways" 0.01 60 0.001 0.005 0.3 0 0 0
    5 0.05 true.

(** A world whose last order was placed the given number of seconds before
    the next reading of the clock. *)
Definition world_after_order (script : Script) (seconds_ago : Z)
  : World Script :=
  set_last_order_time (Some (1730712345123456 - 1000000 * seconds_ago)%Z)
    (fresh_world script []).

(** A snapshot whose ticker holds [None] for the last price. *)
Definition snapshot_without_price : MarketData :=
  mkMarketData (Some (mkTicker (Some PyNone)))
    (Some (mkOrderBook (Some [[100; 2]]) (Some [[101; 3]]))).

(** Cancelling "a" succeeds; cancelling anything else fails with "order not
    found".  Querying "f" reports a closed order, "o" an open one, "n"
    fails with "Order Not Found", anything else with a timeout. *)
Definition tracker_script : Script :=
  mkScript
    (fun order_id =>
       if String.eqb order_id "a" then Ok tt else Raise "order not found")
    (fun order_id =>
       if String.eqb order_id "f"
       then Ok (mkExchangeOrder (Some "f"%string) (Some "closed"%string))
       else if String.eqb order_id "o"
       then Ok (mkExchangeOrder (Some "o"%string) (Some "open"%string))
       else if String.eqb order_id "n" then Raise "Order Not Found"
       else Raise "request timed out").

(** Every cancellation is refused because of a rate limit. *)
Definition rate_limited : string :=
  "Too many requests: rate limit already exceeded".

Definition rate_limited_script : Script :=
  mkScript (fun _ => Raise rate_limited) (fun _ => Raise rate_limited).

(** A world whose clock returns the same reading twice in a row. *)
Definition stalled_world : World Script :=
  set_clock (fun _ => 1730712345123456%Z) (fresh_world quiet_script []).

(** A snapshot with the given last price and top of book. *)
Definition snapshot (price bid ask : Q) : MarketData :=
  mkMarketData (Some (mkTicker (Some (PyFloat price))))
    (Some (mkOrderBook (Some [[bid; 2]]) (Some [[ask; 3]]))).


(** ** constants.py: defaults, waits and supported exchanges *)

Module settings.
Definition DEFAULT_TARGET_VOLUME_USDT_PER_HOUR : Q := 100.0.
Definition DEFAULT_MAX_PRICE_DEVIATION : Q := 0.01.
Definition DEFAULT_ORDER_FREQUENCY_SECONDS : Q := 60.
Definition DEFAULT_MIN_ORDER_RATIO : Q := 0.001.
Definition DEFAULT_MAX_ORDER_RATIO : Q := 0.005.
Definition DEFAULT_SIZE_RANDOMIZATION : Q := 0.3.
Definition DEFAULT_TIMING_RANDOMIZATION : Q := 0.5.
Definition DEFAULT_BURST_PROBABILITY : Q := 0.05.
Definition DEFAULT_QUIET_PROBABILITY : Q := 0.15.
Definition DEFAULT_MIN_ORDER_VALUE_USDT : Q := 5.0.
Definition DEFAULT_MAX_SPREAD_THRESHOLD : Q := 0.05.
Definition DEFAULT_PRICE_WALK_DIRECTION : string := "sideways".
Definition ORDER_PLACEMENT_CHECK_INTERVAL : Q := 5.
Definition ORDER_CLEANUP_INTERVAL : Q := 300.
Definition BALANCE_WARNING_WAIT : Q := 30.
Definition ERROR_RETRY_WAIT : Q := 30.
Definition SUPPORTED_EXCHANGES : list string := ["binance"; "gate"]%string.
End settings.
Import settings.

(** ** config_validator.py *)

(** A number of a configuration dict: a Python float, or an int in the
    range of the floats.  A finite one is the rational it denotes; a float
    may also be NaN or an infinity ([float(os.getenv(...))] reads "nan"
    and "inf"). *)
Inductive Number :=
| Finite (q : Q)
| NaN
| PosInf
| NegInf.

(** [a < b] and [a <= b] on numbers: every comparison with NaN is
    false. *)
Definition Number_lt (a b : Number) : bool :=
  match a, b with
  | NaN, _ | _, NaN => false
  | Finite x, Finite y => Py.Qlt_bool x y
  | NegInf, NegInf => false
  | NegInf, _ => true
  | _, NegInf => false
  | PosInf, _ => false
  | _, PosInf => true
  end.

Definition Number_le (a b : Number) : bool :=
  match a, b with
  | NaN, _ | _, NaN => false
  | Finite x, Finite y => Qle_bool x y
  | NegInf, _ => true
  | _, NegInf => false
  | _, PosInf => true
  | PosInf, _ => false
  end.

(** The rational a finite number denotes. *)
Definition finite (x : Number) : option Q :=
  match x with
  | Finite q => Some q
  | _ => None
  end.

(** The strategy configuration dict: a key is absent ([None]) or holds a
    value of the type [VolumeConfig] gives it. *)
Record StrategyDict := mkStrategyDict {
  d_target_volume_usdt_per_hour : option Number;
  d_price_walk_direction : option string;
  d_max_price_deviation : option Number;
  d_order_frequency : option Number;
  d_min_order_ratio : option Number;
  d_max_order_ratio : option Number;
  d_size_randomization : option Number;
  d_timing_randomization : option Number;
  d_burst_probability : option Number;
  d_quiet_probability : option Number;
  d_min_order_value_usdt : option Number;
  d_max_spread_threshold : option Number;
  d_cancel_previous_orders : option bool
}.

(** The exchange configuration dict. *)
Record ExchangeDict := mkExchangeDict {
  d_exchange : option string;
  d_trading_pair : option string;
  d_sandbox : option bool;
  d_api_key : option string;
  d_secret : option string
}.

Module ConfigValidator.

(** [config.get(key, default)]. *)
Definition get {A} (value : option A) (default : A) : A :=
  match value with
  | Some v => v
  | None => default
  end.

(** [int(x)] on a finite number: truncation toward zero. *)
Definition trunc (x : Q) : Z := Z.quot (Qnum x) (Z.pos (Qden x)).

(** [int(x)]: [ValueError] on NaN and [OverflowError] on an infinity
    (neither is a [ConfigValidationError]). *)
Definition int (x : Number) : Result Z :=
  match x with
  | Finite q => Ok (trunc q)
  | NaN => Raise "cannot convert float NaN to integer"
  | PosInf | NegInf => Raise "cannot convert float infinity to integer"
  end.

(** [if bad: raise ConfigValidationError(msg)]. *)
Definition reject_if (bad : bool) (msg : string) : Result unit :=
  if bad then Raise msg else Ok tt.

Definition and_then {A B} (r : Result A) (k : A -> Result B) : Result B :=
  match r with
  | Ok a => k a
  | Raise msg => Raise msg
  end.

(** [not (0 < x <= hi)] and [not (0 <= x <= hi)]. *)
Definition outside_open (x : Number) (hi : Q) : bool :=
  negb (Number_lt (Finite 0) x && Number_le x (Finite hi)).
Definition outside_closed (x : Number) (hi : Q) : bool :=
  negb (Number_le (Finite 0) x && Number_le x (Finite hi)).

Definition validate_strategy_config (config : StrategyDict)
  : Result StrategyDict :=
  let target_volume :=
    get (d_target_volume_usdt_per_hour config)
        (Finite DEFAULT_TARGET_VOLUME_USDT_PER_HOUR) in
  let direction :=
    get (d_price_walk_direction config) DEFAULT_PRICE_WALK_DIRECTION in
  let max_deviation :=
    get (d_max_price_deviation config)
        (Finite DEFAULT_MAX_PRICE_DEVIATION) in
  let frequency :=
    get (d_order_frequency config)
        (Finite DEFAULT_ORDER_FREQUENCY_SECONDS) in
  let min_ratio :=
    get (d_min_order_ratio config) (Finite DEFAULT_MIN_ORDER_RATIO) in
  let max_ratio :=
    get (d_max_order_ratio config) (Finite DEFAULT_MAX_ORDER_RATIO) in
  let size_rand :=
    get (d_size_randomization config) (Finite DEFAULT_SIZE_RANDOMIZATION) in
  let timing_rand :=
    get (d_timing_randomization config)
        (Finite DEFAULT_TIMING_RANDOMIZATION) in
  let burst_prob :=
    get (d_burst_probability config) (Finite DEFAULT_BURST_PROBABILITY) in
  let quiet_prob :=
    get (d_quiet_probability config) (Finite DEFAULT_QUIET_PROBABILITY) in
  let min_value :=
    get (d_min_order_value_usdt config)
        (Finite DEFAULT_MIN_ORDER_VALUE_USDT) in
  let spread_threshold :=
    get (d_max_spread_threshold config)
        (Finite DEFAULT_MAX_SPREAD_THRESHOLD) in
  and_then (reject_if (Number_le target_volume (Finite 0))
              "Target volume must be positive") (fun _ =>
  and_then (reject_if (negb (Py.mem direction PRICE_WALK_DIRECTIONS))
              ("Invalid price walk direction: " ++ direction
               ++ ". Must be one of ['up', 'down', 'sideways', 'random']"))
    (fun _ =>
  and_then (reject_if (outside_open max_deviation 0.1)
              "Max price deviation must be between 0 and 0.1 (10%)")
    (fun _ =>
  and_then (reject_if (Number_lt frequency (Finite 1))
              "Order frequency must be at least 1 second") (fun _ =>
  and_then (int frequency) (fun whole_frequency =>
  and_then (reject_if (outside_open min_ratio 1)
              "Min order ratio must be between 0 and 1") (fun _ =>
  and_then (reject_if (outside_open max_ratio 1)
              "Max order ratio must be between 0 and 1") (fun _ =>
  and_then (reject_if (Number_le max_ratio min_ratio)
              "Min order ratio must be less than max order ratio") (fun _ =>
  and_then (reject_if (outside_closed size_rand 1)
              "Size randomization must be between 0 and 1") (fun _ =>
  and_then (reject_if (outside_closed timing_rand 1)
              "Timing randomization must be between 0 and 1") (fun _ =>
  and_then (reject_if (outside_closed burst_prob 1)
              "Burst probability must be between 0 and 1") (fun _ =>
  and_then (reject_if (outside_closed quiet_prob 1)
              "Quiet probability must be between 0 and 1") (fun _ =>
  and_then (reject_if (Number_le min_value (Finite 0))
              "Minimum order value must be positive") (fun _ =>
  and_then (reject_if (outside_open spread_threshold 1)
              "Max spread threshold must be between 0 and 1") (fun _ =>
  Ok (mkStrategyDict
        (Some target_volume) (Some direction) (Some max_deviation)
        (Some (Finite (inject_Z whole_frequency)))
        (Some min_ratio) (Some max_ratio)
        (Some size_rand) (Some timing_rand) (Some burst_prob)
        (Some quiet_prob) (Some min_value) (Some spread_threshold)
        (Some (get (d_cancel_previous_orders config) true))))))))))))))))).

(** [not config.get(key)] on a string value. *)
Definition blank (value : option string) : bool :=
  match value with
  | Some s => String.eqb s ""
  | None => true
  end.

Definition validate_exchange_config (config : ExchangeDict)
  : Result ExchangeDict :=
  let exchange := Py.lower (get (d_exchange config) ""%string) in
  and_then (reject_if (String.eqb exchange "")
              "Exchange must be specified") (fun _ =>
  and_then (reject_if (negb (Py.mem exchange SUPPORTED_EXCHANGES))
              ("Unsupported exchange: " ++ exchange
               ++ ". Supported: ['binance', 'gate']")) (fun _ =>
  and_then (reject_if (blank (d_api_key config)) "API key is required")
    (fun _ =>
  and_then (reject_if (blank (d_secret config)) "API secret is required")
    (fun _ =>
  and_then (reject_if (blank (d_trading_pair config))
              "Trading pair is required") (fun _ =>
  Ok config))))).

(** [validate_environment_variables], over [os.getenv]. *)
Definition validate_environment_variables (getenv : string -> option string)
  : list string :=
  let warnings :=
    fold_left
      (fun warnings var =>
         if blank (getenv var)
         then warnings
              ++ [("Environment variable " ++ var ++ " is not set")%string]
         else warnings)
      ["API_KEY"; "API_SECRET"]%string [] in
  let api_key := get (getenv "API_KEY"%string) ""%string in
  let warnings :=
    if Py.contains "your_api_key_here" api_key
    then warnings ++ ["API_KEY appears to be a placeholder value"%string]
    else warnings in
  let api_secret := get (getenv "API_SECRET"%string) ""%string in
  if Py.contains "your_api_secret_here" api_secret
  then warnings ++ ["API_SECRET appears to be a placeholder value"%string]
  else warnings.

End ConfigValidator.

(** ** main.py: the attributes of a strategy, and the run loop *)

(** [x <- o ; k x] on options. *)
Definition and_also {A B} (o : option A) (k : A -> option B) : option B :=
  match o with
  | Some a => k a
  | None => None
  end.

(** The attributes [VolumeGenerationStrategy.__init__] reads from its
    configuration dict, each with its default: the [Config] of the
    strategy when the numbers are finite, and [None] when one of them is
    NaN or an infinity (which the strategy's exact rationals do not
    hold). *)
Definition strategy_attributes (sym : string) (config : StrategyDict)
  : option Config :=
  and_also (finite (ConfigValidator.get (d_target_volume_usdt_per_hour config)
                      (Finite DEFAULT_TARGET_VOLUME_USDT_PER_HOUR)))
    (fun target_volume =>
  and_also (finite (ConfigValidator.get (d_max_price_deviation config)
                      (Finite DEFAULT_MAX_PRICE_DEVIATION)))
    (fun max_deviation =>
  and_also (finite (ConfigValidator.get (d_order_frequency config)
                      (Finite DEFAULT_ORDER_FREQUENCY_SECONDS)))
    (fun frequency =>
  and_also (finite (ConfigValidator.get (d_min_order_ratio config)
                      (Finite DEFAULT_MIN_ORDER_RATIO)))
    (fun min_ratio =>
  and_also (finite (ConfigValidator.get (d_max_order_ratio config)
                      (Finite DEFAULT_MAX_ORDER_RATIO)))
    (fun max_ratio =>
  and_also (finite (ConfigValidator.get (d_size_randomization config)
                      (Finite DEFAULT_SIZE_RANDOMIZATION)))
    (fun size_rand =>
  and_also (finite (ConfigValidator.get (d_timing_randomization config)
                      (Finite DEFAULT_TIMING_RANDOMIZATION)))
    (fun timing_rand =>
  and_also (finite (ConfigValidator.get (d_burst_probability config)
                      (Finite DEFAULT_BURST_PROBABILITY)))
    (fun burst_prob =>
  and_also (finite (ConfigValidator.get (d_quiet_probability config)
                      (Finite DEFAULT_QUIET_PROBABILITY)))
    (fun quiet_prob =>
  and_also (finite (ConfigValidator.get (d_min_order_value_usdt config)
                      (Finite DEFAULT_MIN_ORDER_VALUE_USDT)))
    (fun min_value =>
  and_also (finite (ConfigValidator.get (d_max_spread_threshold config)
                      (Finite DEFAULT_MAX_SPREAD_THRESHOLD)))
    (fun spread_threshold =>
  Some (mkConfig sym target_volume
          (ConfigValidator.get (d_price_walk_direction config)
             DEFAULT_PRICE_WALK_DIRECTION)
          max_deviation frequency min_ratio max_ratio size_rand timing_rand
          burst_prob quiet_prob min_value spread_threshold
          (ConfigValidator.get (d_cancel_previous_orders config)
             true))))))))))))).

(** The class attributes of [VolumeConfig] the run loop reads. *)
Record VolumeConfig := mkVolumeConfig {
  DRY_RUN : bool;
  MIN_ORDER_VALUE_USDT : Q
}.

(** [StandaloneVolumeBot.stats], and the [last_cleanup] local of the loop. *)
Record Bot := mkBot {
  total_orders : Z;
  total_volume_usdt : Q;
  last_order : option Z;
  last_cleanup : Z
}.

Module StandaloneVolumeBot.
Section Methods.
Context {E : Type} {client : ExchangeClient E}.
Variable np_sin : Q -> Q.
Variable cfg : Config.
Variable vc : VolumeConfig.

(** [execute_order], with the strategy initialized. *)
Definition execute_order (side : Side) (amount : Q) (price : option Q)
  : M E Placement :=
  OrderManager.place_order cfg side amount price (DRY_RUN vc).

(** The part of one pass of the loop of [run_volume_generation] from the
    fetched market data and balance to the update of the statistics.  It
    returns the statistics, and the seconds slept before a [continue]
    ([None] when the pass goes on to the periodic cleanup).  The two
    tests on the size are exact here; on floats the second one, the final
    verification, can fail after the first has passed
    ([Binary64.loop_sizing]). *)
Definition trade_step
  (market_data : option MarketData) (balance : Q) (bot : Bot)
  : M E (Bot * option Q) :=
  match market_data with
  | None => ret (bot, Some 10)
  | Some _ =>
      if Qle_bool balance 0 then ret (bot, Some 60)
      else
        decision <-
          (fun w =>
             let '(d, w') :=
               VolumeGenerationStrategy.should_trade np_sin cfg market_data
                 balance w in
             (Ok d, w')) ;;
        if should_place_of decision then
          match diagnostics_of decision with
          | Analysed analysis =>
              let side := order_side analysis in
              let price := current_price analysis in
              let max_balance_size := balance * MAX_BALANCE_USAGE_RATIO in
              let requested_size := order_size analysis in
              let min_value := MIN_ORDER_VALUE_USDT vc in
              let min_viable_size := min_value / price in
              if Py.Qlt_bool max_balance_size min_viable_size then
                ret (bot, Some BALANCE_WARNING_WAIT)
              else
                let size :=
                  Py.min (Py.max requested_size min_viable_size)
                         max_balance_size in
                let value := size * price in
                if Py.Qlt_bool value min_value then
                  ret (bot, Some ERROR_RETRY_WAIT)
                else
                  result <- execute_order side size (Some price) ;;
                  match result with
                  | Failed _ => ret (bot, None)
                  | _ =>
                      now <- datetime_now ;;
                      ret (mkBot (total_orders bot + 1)%Z
                             (total_volume_usdt bot + value) (Some now)
                             (last_cleanup bot), None)
                  end
          | _ =>
              (* [analysis['order_side']] raises [KeyError]; the loop's
                 handler sleeps and goes on *)
              ret (bot, Some ERROR_RETRY_WAIT)
          end
        else ret (bot, None)
  end.

(** The periodic cleanup that ends a pass. *)
Definition periodic_cleanup (bot : Bot) : M E Bot :=
  now <- datetime_now ;;
  if Py.Qlt_bool ORDER_CLEANUP_INTERVAL
       (Py.total_seconds (now - last_cleanup bot))
  then
    VolumeGenerationStrategy.cleanup_completed_orders cfg ;;;
    now' <- datetime_now ;;
    ret (mkBot (total_orders bot) (total_volume_usdt bot) (last_order bot)
           now')
  else ret bot.

(** One pass of the loop, from the fetched market data and balance: the
    statistics, and the seconds slept. *)
Definition run_iteration
  (market_data : option MarketData) (balance : Q) (bot : Bot)
  : M E (Bot * Q) :=
  step <- trade_step market_data balance bot ;;
  match snd step with
  | Some seconds => ret (fst step, seconds)
  | None =>
      bot' <- periodic_cleanup (fst step) ;;
      ret (bot', ORDER_PLACEMENT_CHECK_INTERVAL)
  end.

(** The final cleanup of [run_volume_generation]. *)
Definition final_cleanup : M E Z :=
  count <- OrderManager.get_open_order_count ;;
  if (0 <? count)%Z then VolumeGenerationStrategy.cancel_open_orders cfg
  else ret 0%Z.
End Methods.
End StandaloneVolumeBot.

(** ** The sizing arithmetic on binary64 floats

    [calculate_order_size] and the sizing of the run loop once more, with
    the arithmetic of the Python [float]: the quotient
    [min_order_value_usdt / current_price] and its product with the price
    are each rounded, which the exact rationals above do not show. *)

Module Binary64.
Import PrimFloat.
#[local] Set Warnings "-inexact-float".

Definition LIQUIDITY_USAGE_RATIO : float := 0.5%float.
Definition MAX_BALANCE_USAGE_RATIO : float := 0.1%float.

(** [if x] on a float. *)
Definition truthy (x : float) : bool := negb (x =? 0)%float.

(** [min(a, b)] returns [a] unless [b < a]; [max(a, b)] returns [a] unless
    [b > a]. *)
Definition min (a b : float) : float := if (b <? a)%float then b else a.
Definition max (a b : float) : float := if (a <? b)%float then b else a.

(** [np.random.uniform(low, high)] for the draw [u]. *)
Definition uniform (low high u : float) : float :=
  (low + (high - low) * u)%float.

(** [calculate_order_size], from the four attributes it reads, the
    liquidity [get_available_liquidity] returned and the two draws. *)
Definition calculate_order_size
  (min_order_ratio max_order_ratio size_randomization
     min_order_value_usdt : float)
  (available_balance : float) (liquidity : float * float)
  (current_price : option float) (u0 u1 : float) : float :=
  let base_ratio := uniform min_order_ratio max_order_ratio u0 in
  let base_size := (available_balance * base_ratio)%float in
  let randomization_factor :=
    (1 + uniform (- size_randomization) size_randomization u1)%float in
  let order_size := (base_size * randomization_factor)%float in
  let max_liquidity_size :=
    (min (fst liquidity) (snd liquidity) * LIQUIDITY_USAGE_RATIO)%float in
  let order_size :=
    if (0 <? max_liquidity_size)%float
    then min order_size max_liquidity_size else order_size in
  match current_price with
  | Some p =>
      if truthy p && (0 <? p)%float then
        let min_size_for_usdt := (min_order_value_usdt / p)%float in
        max order_size min_size_for_usdt
      else max order_size 1%float
  | None => max order_size 1%float
  end.

(** What the run loop makes of a decision to place: it skips for a low
    balance, or for a failed final verification, or sends the size. *)
Inductive Sizing :=
| BalanceTooLow
| LogicError (order_value_usdt : float)
| Sized (size order_value_usdt : float).

(** The sizing of [run_volume_generation] between the decision and
    [execute_order]. *)
Definition loop_sizing (balance requested_size price min_value : float)
  : Sizing :=
  let max_balance_size := (balance * MAX_BALANCE_USAGE_RATIO)%float in
  let min_viable_size := (min_value / price)%float in
  if (max_balance_size <? min_viable_size)%float then BalanceTooLow
  else
    let size := min (max requested_size min_viable_size) max_balance_size in
    let order_value_usdt := (size * price)%float in
    if (order_value_usdt <? min_value)%float then LogicError order_value_usdt
    else Sized size order_value_usdt.

End Binary64.

(** ** Vocabulary of the further statements *)

(** The draws of [np.random] lie in [[0, 1)]. *)
Definition unit_draws {E} (w : World E) : Prop :=
  forall i, 0 <= rng w i /\ rng w i < 1.

(** The ranges [validate_strategy_config] accepts. *)
Definition in_range (c : Config) : Prop :=
  0 < target_volume_usdt_per_hour c
  /\ In (price_walk_direction c) PRICE_WALK_DIRECTIONS
  /\ 0 < max_price_deviation c <= 0.1
  /\ 1 <= order_frequency c
  /\ 0 < min_order_ratio c
  /\ min_order_ratio c < max_order_ratio c
  /\ max_order_ratio c <= 1
  /\ 0 <= size_randomization c <= 1
  /\ 0 <= timing_randomization c <= 1
  /\ 0 <= burst_probability c <= 1
  /\ 0 <= quiet_probability c <= 1
  /\ 0 < min_order_value_usdt c
  /\ 0 < max_spread_threshold c <= 1.

(** What passes a check [if x <= 0: raise]: a positive number, and also
    NaN, of which every comparison is false. *)
Definition passes_positive_check (x : Number) : Prop :=
  match x with
  | Finite q => 0 < q
  | NaN | PosInf => True
  | NegInf => False
  end.

(** [min(max(requested_size, min_viable_size), max_balance_size)] of the
    run loop, for the analysis of a decision. *)
Definition sent_size (vc : VolumeConfig) (balance : Q) (a : Analysis)
  : Q :=
  Py.min (Py.max (order_size a)
            (MIN_ORDER_VALUE_USDT vc / current_price a))
         (balance * MAX_BALANCE_USAGE_RATIO).

(** A request that cancels an order, and one that creates one. *)
Definition is_cancel (r : Request) : bool :=
  match r with
  | ReqCancel _ _ => true
  | _ => false
  end.

Definition is_fetch (r : Request) : bool :=
  match r with
  | ReqFetch _ _ => true
  | _ => false
  end.


(** ** Arithmetic of the Python built-ins *)

Lemma Qlt_bool_true (x y : Q) : Py.Qlt_bool x y = true <-> x < y.
Proof.
  unfold Py.Qlt_bool. rewrite negb_true_iff.
  split; intro H.
  - apply Qnot_le_lt. intro Hle. apply Qle_bool_iff in Hle. congruence.
  - destruct (Qle_bool y x) eqn:Hb; [| reflexivity].
    apply Qle_bool_iff in Hb. apply Qle_not_lt in Hb. contradiction.
Qed.

Lemma Qlt_bool_false (x y : Q) : Py.Qlt_bool x y = false <-> y <= x.
Proof.
  unfold Py.Qlt_bool. rewrite negb_false_iff. apply Qle_bool_iff.
Qed.

Lemma Qle_bool_false (x y : Q) : Qle_bool x y = false <-> y < x.
Proof.
  split; intro H.
  - apply Qnot_le_lt. intro Hle. apply Qle_bool_iff in Hle. congruence.
  - destruct (Qle_bool x y) eqn:Hb; [| reflexivity].
    apply Qle_bool_iff in Hb. apply Qle_not_lt in Hb. contradiction.
Qed.

Lemma max_lower_bounds (a b : Q) : a <= Py.max a b /\ b <= Py.max a b.
Proof.
  unfold Py.max. destruct (Py.Qlt_bool a b) eqn:Hb.
  - apply Qlt_bool_true in Hb. split; lra.
  - apply Qlt_bool_false in Hb. split; lra.
Qed.

Lemma min_upper_bounds (a b : Q) : Py.min a b <= a /\ Py.min a b <= b.
Proof.
  unfold Py.min. destruct (Py.Qlt_bool b a) eqn:Hb.
  - apply Qlt_bool_true in Hb. split; lra.
  - apply Qlt_bool_false in Hb. split; lra.
Qed.

Lemma min_greatest (a b c : Q) : c <= a -> c <= b -> c <= Py.min a b.
Proof.
  intros Ha Hb. unfold Py.min. destruct (Py.Qlt_bool b a); assumption.
Qed.

Lemma np_clip_bounds (x lo hi : Q) :
  lo <= hi -> lo <= Py.np_clip x lo hi /\ Py.np_clip x lo hi <= hi.
Proof.
  intro Hle. unfold Py.np_clip. split.
  - apply min_greatest; [apply max_lower_bounds | assumption].
  - apply min_upper_bounds.
Qed.

Lemma band_contains_price (cfg : Config) (price : Q) :
  0 < price -> 0 < max_price_deviation cfg ->
  within_deviation cfg price price.
Proof.
  intros Hp Hd. unfold within_deviation.
  assert (0 <= price * max_price_deviation cfg)
    by (apply Qmult_le_0_compat; lra).
  split; lra.
Qed.

(** ** The price walk *)

Section PriceWalk.
Context {E : Type}.
Variable np_sin : Q -> Q.
Variable cfg : Config.

Lemma price_target_try_clipped (price : Q) (w : World E) :
  exists raw w',
    PriceStrategy.price_target_try np_sin cfg price w
    = (Ok (Py.np_clip raw (price * (1 - max_price_deviation cfg))
                          (price * (1 + max_price_deviation cfg))), w').
Proof.
  unfold PriceStrategy.price_target_try.
  destruct (String.eqb (price_walk_direction cfg) "up");
    [| destruct (String.eqb (price_walk_direction cfg) "down");
       [| destruct (String.eqb (price_walk_direction cfg) "sideways")]];
    cbv [bind ret np_random_uniform np_random_random np_random_choice
         modify gets];
    eexists; eexists; reflexivity.
Qed.

(** C1.  For a positive current price and a maximum deviation in (0, 0.1],
    whatever the walk direction (the configuration is arbitrary, so "up",
    "down", "sideways" and the "random" fallback are all covered),
    [calculate_next_price_target] returns a target inside
    [current_price * (1 - max_price_deviation),
     current_price * (1 + max_price_deviation)]; and the value returned by
    the fail-soft [except] branch, the current price itself, lies in the
    same band. *)
Theorem price_target_within_deviation (price : Q) (w : World E) :
  0 < price ->
  0 < max_price_deviation cfg -> max_price_deviation cfg <= 0.1 ->
  (exists target w',
     PriceStrategy.calculate_next_price_target np_sin cfg price w
     = (Ok target, w')
     /\ within_deviation cfg price target)
  /\ (forall msg,
        PriceStrategy.price_target_except price msg w = (Ok price, w)
        /\ within_deviation cfg price price).
Proof.
  intros Hp Hd _. split.
  - destruct (price_target_try_clipped price w) as (raw & w' & Htry).
    exists (Py.np_clip raw (price * (1 - max_price_deviation cfg))
                           (price * (1 + max_price_deviation cfg))), w'.
    split.
    + unfold PriceStrategy.calculate_next_price_target, try_except.
      rewrite Htry. reflexivity.
    + apply np_clip_bounds.
      pose proof (band_contains_price cfg price Hp Hd) as [Hlo Hhi]. lra.
  - intro msg. split; [reflexivity | now apply band_contains_price].
Qed.
End PriceWalk.

(** The scenario of a walk "up" from 100 with the default deviation of
    0.01. *)
Lemma price_target_within_deviation_example :
  (0 < 100 /\ 0 < max_price_deviation (default_config "up")
   /\ max_price_deviation (default_config "up") <= 0.1)
  /\ (exists target w',
        PriceStrategy.calculate_next_price_target (fun _ => 0)
          (default_config "up") 100 (fresh_world quiet_script [])
        = (Ok target, w')
        /\ within_deviation (default_config "up") 100 target).
Proof.
  split.
  - repeat split; vm_compute; easy.
  - apply (price_target_within_deviation (fun _ => 0) (default_config "up")
             100 (fresh_world quiet_script [])); vm_compute; easy.
Defined.

(** ** Order sizing *)

Lemma top_entry_well_formed (levels : option (list Level)) (i : nat) :
  well_formed_levels levels -> MarketDataProvider.falsy levels = false ->
  (i < 2)%nat ->
  exists x, MarketDataProvider.top_entry levels i = Ok x.
Proof.
  intros Hwf Hfalsy Hi.
  destruct levels as [[| level rest] |]; try discriminate.
  simpl in Hwf. inversion Hwf as [| ? ? Hlen _]; subst.
  simpl. destruct (nth_error level i) as [x |] eqn:Hnth.
  - now exists x.
  - apply nth_error_None in Hnth. lia.
Qed.

Lemma liquidity_of_well_formed_book (market_data : MarketData) :
  well_formed_book market_data ->
  exists volumes,
    MarketDataProvider.get_available_liquidity
      (MarketDataProvider.orderbook_of market_data) = Ok volumes.
Proof.
  intros [Hbids Hasks]. unfold MarketDataProvider.get_available_liquidity.
  destruct (MarketDataProvider.falsy
              (bids (MarketDataProvider.orderbook_of market_data))) eqn:Hb;
    [now eexists |].
  destruct (MarketDataProvider.falsy
              (asks (MarketDataProvider.orderbook_of market_data))) eqn:Ha;
    [now eexists |].
  simpl.
  destruct (top_entry_well_formed _ 1 Hbids Hb) as [bv ->]; [lia |].
  destruct (top_entry_well_formed _ 1 Hasks Ha) as [av ->]; [lia |].
  now eexists.
Qed.

Lemma positive_price_test (p : Q) :
  0 < p -> negb (Qeq_bool p 0) && Py.Qlt_bool 0 p = true.
Proof.
  intro Hp. apply andb_true_iff. split.
  - apply negb_true_iff. destruct (Qeq_bool p 0) eqn:Heq; [| reflexivity].
    apply Qeq_bool_iff in Heq. lra.
  - now apply Qlt_bool_true.
Qed.

Section SizingOnBinary64.
Import PrimFloat.
#[local] Set Warnings "-inexact-float".

(** C3, evaluated on binary64.  [calculate_order_size] floors the size at
    the quotient [min_order_value_usdt / current_price], and that quotient
    times the price is rounded once more, so the notional can fall short of
    the minimum.  With the default ratios (0.001 to 0.005), size
    randomization 0.3 and minimum value 5, a balance of 10, a top of book
    holding 2 and 3 units, a price of 77 and both draws at 0.5, the
    ratio-based size is 0.03, the floor [5 / 77] is the size returned, and
    its notional [5 / 77 * 77] is 4.999999999999999, below the minimum
    of 5.  (In the example of the claim, a balance of 1000 at a price of
    0.002, the size is 2500 and its notional is not below 5.) *)
Theorem order_value_rounds_below_minimum :
  Binary64.calculate_order_size 0.001 0.005 0.3 5 10 (2, 3)%float
    (Some 77%float) 0.5 0.5
  = (5 / 77)%float
  /\ (Binary64.calculate_order_size 0.001 0.005 0.3 5 10 (2, 3)%float
        (Some 77%float) 0.5 0.5 * 77)%float
     = 4.999999999999999%float
  /\ (Binary64.calculate_order_size 0.001 0.005 0.3 5 10 (2, 3)%float
        (Some 77%float) 0.5 0.5 * 77 <? 5)%float = true
  /\ Binary64.calculate_order_size 0.001 0.005 0.3 5 1000 (2, 3)%float
       (Some 0.002%float) 0.5 0.5
     = 2500%float
  /\ (2500 * 0.002 <? 5)%float = false.
Proof. repeat split; vm_compute; reflexivity. Qed.

(** The run loop meets the same rounding: with a balance of 10 (a tenth of
    it, 1, allows the minimum viable size [5 / 77]) and the size above, its
    final verification finds 4.999999999999999 below 5 and takes the
    branch that logs a logic error; nothing is sent. *)
Lemma final_verification_can_fail :
  Binary64.loop_sizing 10 (5 / 77) 77 5
  = Binary64.LogicError 4.999999999999999%float.
Proof. vm_compute. reflexivity. Qed.
End SizingOnBinary64.

(** ** Timing *)

Section Timing.
Context {E : Type}.
Variable cfg : Config.

(** The interval drawn by one timing check, from the three draws it may
    consume. *)
Lemma randomized_interval_run (w : World E) :
  exists w',
    VolumeGenerationStrategy.randomized_interval cfg w
    = (Ok (let interval :=
             order_frequency cfg
             * (1 + (- timing_randomization cfg
                     + (timing_randomization cfg
                        - - timing_randomization cfg) * rng w 0%nat)) in
           if Py.Qlt_bool (rng w 1%nat) (burst_probability cfg)
           then interval * BURST_MODE_INTERVAL_MULTIPLIER
           else if Py.Qlt_bool (rng w 2%nat) (quiet_probability cfg)
                then interval * QUIET_MODE_INTERVAL_MULTIPLIER
                else interval), w')
    /\ engine_state w' = engine_state w /\ clock w' = clock w.
Proof.
  unfold VolumeGenerationStrategy.randomized_interval.
  cbv [bind ret np_random_uniform np_random_random].
  cbn [rng set_rng].
  destruct (Py.Qlt_bool (rng w 1%nat) (burst_probability cfg));
    cbn [rng set_rng];
    [| destruct (Py.Qlt_bool (rng w 2%nat) (quiet_probability cfg))];
    eexists; (split; [reflexivity | split; reflexivity]).
Qed.

(** C7.  In one timing check at most one regime multiplier is applied to
    the randomized interval, burst first: with [burst] and [quiet] the two
    draws that follow the jitter draw, the interval is multiplied by the
    burst multiplier (below 1) when [burst < burst_probability]; by the
    quiet multiplier (above 1) only when that test failed and
    [quiet < quiet_probability]; and is left as it is otherwise.  The two
    multipliers are never composed. *)
Theorem one_regime_multiplier_burst_first (w : World E) :
  fst (VolumeGenerationStrategy.randomized_interval cfg w)
  = Ok (let interval :=
          order_frequency cfg
          * (1 + (- timing_randomization cfg
                  + (timing_randomization cfg
                     - - timing_randomization cfg) * rng w 0%nat)) in
        if Py.Qlt_bool (rng w 1%nat) (burst_probability cfg)
        then interval * BURST_MODE_INTERVAL_MULTIPLIER
        else if Py.Qlt_bool (rng w 2%nat) (quiet_probability cfg)
             then interval * QUIET_MODE_INTERVAL_MULTIPLIER
             else interval)
  /\ BURST_MODE_INTERVAL_MULTIPLIER < 1
  /\ 1 < QUIET_MODE_INTERVAL_MULTIPLIER.
Proof.
  destruct (randomized_interval_run w) as (w' & -> & _).
  repeat split.
Qed.

(** C6.  With [timing_randomization], [burst_probability] and
    [quiet_probability] all zero (and draws that are not negative, as those
    of [np.random] are), the timing check is deterministic: it answers
    true when [last_order_time] is unset, and otherwise answers true
    exactly when the elapsed time [now - last_order_time] is at least
    [order_frequency]. *)
Theorem timing_check_deterministic (w : World E) :
  timing_randomization cfg == 0 ->
  burst_probability cfg == 0 ->
  quiet_probability cfg == 0 ->
  (forall i, 0 <= rng w i) ->
  exists due w',
    VolumeGenerationStrategy.should_place_order cfg w = (Ok due, w')
    /\ (last_order_time w = None -> due = true)
    /\ (forall t, last_order_time w = Some t ->
          (due = true
           <-> order_frequency cfg <= Py.total_seconds (clock w 0%nat - t))).
Proof.
  intros Hjitter Hburst Hquiet Hdraws.
  unfold VolumeGenerationStrategy.should_place_order.
  cbv [bind ret gets datetime_now].
  destruct (last_order_time w) as [t |] eqn:Hlast.
  - destruct (randomized_interval_run (set_clock (fun n => clock w (S n)) w))
      as (w' & Hrun & _).
    rewrite Hrun. cbn [rng set_clock].
    assert (Hb : Py.Qlt_bool (rng w 1%nat) (burst_probability cfg) = false).
    { apply Qlt_bool_false. rewrite Hburst. apply Hdraws. }
    assert (Hq : Py.Qlt_bool (rng w 2%nat) (quiet_probability cfg) = false).
    { apply Qlt_bool_false. rewrite Hquiet. apply Hdraws. }
    rewrite Hb, Hq. cbv zeta.
    eexists; eexists. split; [reflexivity |].
    split; [discriminate |].
    intros t' Ht'. injection Ht' as <-.
    rewrite Qle_bool_iff.
    assert (Heq : order_frequency cfg
                  * (1 + (- timing_randomization cfg
                          + (timing_randomization cfg
                             - - timing_randomization cfg) * rng w 0%nat))
                  == order_frequency cfg).
    { rewrite Hjitter. ring. }
    rewrite Heq. reflexivity.
  - exists true, w. split; [reflexivity |].
    split; [reflexivity | discriminate].
Qed.
End Timing.

(** An order placed exactly [order_frequency] = 60 seconds before the
    check. *)
Lemma timing_check_deterministic_example :
  (timing_randomization steady_config == 0
   /\ burst_probability steady_config == 0
   /\ quiet_probability steady_config == 0
   /\ (forall i, 0 <= rng (world_after_order quiet_script 60) i))
  /\ (exists due w',
        VolumeGenerationStrategy.should_place_order steady_config
          (world_after_order quiet_script 60) = (Ok due, w')
        /\ (last_order_time (world_after_order quiet_script 60) = None ->
            due = true)
        /\ (forall t,
              last_order_time (world_after_order quiet_script 60) = Some t ->
              (due = true
               <-> order_frequency steady_config
                   <= Py.total_seconds
                        (clock (world_after_order quiet_script 60) 0%nat
                         - t)))).
Proof.
  assert (Hdraws : forall i, 0 <= rng (world_after_order quiet_script 60) i)
    by (intro i; vm_compute; easy).
  split.
  - repeat split; try reflexivity. exact Hdraws.
  - apply (timing_check_deterministic steady_config
             (world_after_order quiet_script 60));
      try reflexivity. exact Hdraws.
Defined.

(** ** Frame and outcome rules of the monad *)

Section Rules.
Context {E : Type}.

Lemma keeps_ret {X A} (f : World E -> X) (a : A) : keeps f (ret a).
Proof. intro w. reflexivity. Qed.

Lemma keeps_raise {X A} (f : World E -> X) (msg : string) :
  keeps f (@raise E A msg).
Proof. intro w. reflexivity. Qed.

Lemma keeps_lift {X A} (f : World E -> X) (r : Result A) : keeps f (lift r).
Proof. intro w. reflexivity. Qed.

Lemma keeps_gets {X A} (f : World E -> X) (g : World E -> A) :
  keeps f (gets g).
Proof. intro w. reflexivity. Qed.

Lemma keeps_bind {X A B} (f : World E -> X) (m : M E A) (k : A -> M E B) :
  keeps f m -> (forall a, keeps f (k a)) -> keeps f (bind m k).
Proof.
  intros Hm Hk w. unfold bind. specialize (Hm w).
  destruct (m w) as [[a | msg] w1]; simpl in *.
  - rewrite (Hk a w1). exact Hm.
  - exact Hm.
Qed.

Lemma keeps_try_except {X A}
  (f : World E -> X) (m : M E A) (handler : string -> M E A) :
  keeps f m -> (forall msg, keeps f (handler msg)) ->
  keeps f (try_except m handler).
Proof.
  intros Hm Hh w. unfold try_except. specialize (Hm w).
  destruct (m w) as [[a | msg] w1]; simpl in *.
  - exact Hm.
  - rewrite (Hh msg w1). exact Hm.
Qed.

Lemma keeps_when_keeps {X A}
  (C : Result A -> Prop) (f : World E -> X) (m : M E A) :
  keeps f m -> keeps_when C f m.
Proof. intros Hm w _. apply Hm. Qed.

Lemma keeps_when_bind {X A B}
  (C : Result B -> Prop) (f : World E -> X) (m : M E A) (k : A -> M E B) :
  keeps f m -> (forall a, keeps_when C f (k a)) ->
  keeps_when C f (bind m k).
Proof.
  intros Hm Hk w. unfold bind. specialize (Hm w).
  destruct (m w) as [[a | msg] w1]; simpl in *.
  - intro HC. rewrite (Hk a w1 HC). exact Hm.
  - intros _. exact Hm.
Qed.

Lemma keeps_when_never {X A}
  (C : Result A -> Prop) (f : World E -> X) (m : M E A) :
  returns (fun r => ~ C r) m -> keeps_when C f m.
Proof. intros Hm w HC. destruct (Hm w HC). Qed.

Lemma returns_ret {A} (P : Result A -> Prop) (a : A) :
  P (Ok a) -> @returns E A P (ret a).
Proof. intros H w. exact H. Qed.

Lemma returns_bind {A B}
  (P : Result B -> Prop) (m : M E A) (k : A -> M E B) :
  (forall msg, P (Raise msg)) -> (forall a, returns P (k a)) ->
  returns P (bind m k).
Proof.
  intros Hraise Hk w. unfold bind.
  destruct (m w) as [[a | msg] w1]; simpl.
  - apply Hk.
  - apply Hraise.
Qed.

Lemma returns_weaken {A} (P P' : Result A -> Prop) (m : M E A) :
  (forall r, P r -> P' r) -> returns P m -> returns P' m.
Proof. intros Himp Hm w. apply Himp, Hm. Qed.
End Rules.

Create HintDb methods.

#[global] Hint Unfold np_random_uniform np_random_choice
  PriceStrategy.calculate_next_price_target PriceStrategy.price_target_try
  PriceStrategy.price_target_except PriceStrategy.determine_order_side
  VolumeGenerationStrategy.calculate_next_price_target
  VolumeGenerationStrategy.determine_order_side
  VolumeGenerationStrategy.calculate_order_size
  VolumeGenerationStrategy.randomized_interval
  VolumeGenerationStrategy.should_place_order
  VolumeGenerationStrategy.compared_price : methods.

(** One step of a frame proof: a rule of the monad, a case split on what
    the method branches on, or a primitive that leaves the observation
    alone by computation. *)
Ltac keeps_step :=
  first
    [ apply keeps_ret | apply keeps_raise | apply keeps_lift
    | apply keeps_gets
    | apply keeps_bind; [| intro]
    | apply keeps_try_except; [| intro]
    | progress cbv zeta
    | match goal with
      | |- keeps _ (if ?b then _ else _) => destruct b
      | |- keeps _ (match ?x with _ => _ end) => destruct x
      end
    | solve [intro; reflexivity]
    | progress autounfold with methods ].

Ltac keeps_auto := repeat keeps_step.

Section Frames.
Context {E : Type} {client : ExchangeClient E}.
Variable np_sin : Q -> Q.
Variable cfg : Config.

Lemma should_place_order_keeps_engine :
  keeps (@engine_state E)
    (VolumeGenerationStrategy.should_place_order cfg).
Proof. keeps_auto. Qed.

Lemma should_place_order_keeps_walk :
  keeps (@walk_state E) (VolumeGenerationStrategy.should_place_order cfg).
Proof. keeps_auto. Qed.

Lemma price_target_keeps_engine (price : Q) :
  keeps (@engine_state E)
    (VolumeGenerationStrategy.calculate_next_price_target np_sin cfg price).
Proof. keeps_auto. Qed.

Lemma order_side_keeps_engine (price target : Q) :
  keeps (@engine_state E)
    (VolumeGenerationStrategy.determine_order_side price target).
Proof. keeps_auto. Qed.

Lemma order_size_keeps_engine
  (balance : Q) (market_data : MarketData) (price : option Q) :
  keeps (@engine_state E)
    (VolumeGenerationStrategy.calculate_order_size cfg balance market_data
       price).
Proof. keeps_auto. Qed.

(** Cancelling touches the exchange and the tracker only. *)
Lemma cancel_each_keeps {X} (f : World E -> X) (ids : list string) :
  (forall ex rs w, f (set_exchange ex rs w) = f w) ->
  forall acc, keeps f (OrderManager.cancel_each cfg ids acc).
Proof.
  intro Hex. induction ids as [| order_id rest IH]; intro acc; simpl.
  - apply keeps_ret.
  - apply keeps_bind; [| intro; apply IH].
    unfold OrderManager.cancel_one.
    apply keeps_try_except.
    + apply keeps_bind; [| intro; apply keeps_ret].
      intro w. unfold exchange_cancel_order.
      destruct (cancel_order order_id (symbol cfg) (exchange w)).
      apply Hex.
    + intro msg. destruct (OrderManager.already_gone msg); apply keeps_ret.
Qed.

Lemma cancel_open_orders_keeps {X} (f : World E -> X) :
  (forall ex rs w, f (set_exchange ex rs w) = f w) ->
  (forall ids w, f (set_open_orders ids w) = f w) ->
  keeps f (VolumeGenerationStrategy.cancel_open_orders cfg).
Proof.
  intros Hex Hids.
  unfold VolumeGenerationStrategy.cancel_open_orders,
    OrderManager.cancel_open_orders.
  apply keeps_bind; [apply keeps_gets | intros [| order_id rest]].
  - apply keeps_ret.
  - apply keeps_bind; [now apply cancel_each_keeps | intro acc].
    apply keeps_bind; [| intro; apply keeps_ret].
    intro w. apply Hids.
Qed.

(** The prefix of [should_trade] that every rejection before the price
    walk runs through. *)
Lemma cancel_step_keeps {X} (f : World E -> X) :
  (forall ex rs w, f (set_exchange ex rs w) = f w) ->
  (forall ids w, f (set_open_orders ids w) = f w) ->
  keeps f
    (if cancel_previous_orders cfg
     then VolumeGenerationStrategy.cancel_open_orders cfg ;;; ret tt
     else ret tt).
Proof.
  intros Hex Hids. destruct (cancel_previous_orders cfg).
  - apply keeps_bind; [now apply cancel_open_orders_keeps |].
    intro. apply keeps_ret.
  - apply keeps_ret.
Qed.

Lemma evaluate_trade_evaluated
  (market_data : MarketData) (balance price : Q) :
  @returns E _ (evaluated cfg)
    (VolumeGenerationStrategy.evaluate_trade np_sin cfg market_data balance
       price).
Proof.
  unfold VolumeGenerationStrategy.evaluate_trade.
  repeat (apply returns_bind; [intro; exact I | intro]).
  apply returns_ret. cbn [evaluated spread_ok behind_target spread].
  match goal with
  | |- context [Qle_bool ?s ?t] => destruct (Qle_bool s t)
  end;
  match goal with
  | |- context [if ?b then _ + 0.2 else _] => destruct b
  end; repeat split; reflexivity.
Qed.

Lemma evaluate_trade_engine_frame
  (market_data : MarketData) (balance price : Q) :
  keeps_when not_placed (@engine_state E)
    (VolumeGenerationStrategy.evaluate_trade np_sin cfg market_data balance
       price).
Proof.
  unfold VolumeGenerationStrategy.evaluate_trade.
  apply keeps_when_bind; [apply price_target_keeps_engine | intro target].
  apply keeps_when_bind; [apply order_side_keeps_engine | intro side].
  apply keeps_when_bind; [apply order_size_keeps_engine | intro size].
  apply keeps_when_bind; [apply keeps_lift | intro spread_now].
  apply keeps_when_bind; [apply keeps_gets | intro volume].
  apply keeps_when_bind; [solve [keeps_auto] | intro now].
  cbv zeta.
  destruct (Qle_bool spread_now (max_spread_threshold cfg)).
  - intros w Hrejected. cbn in Hrejected. discriminate Hrejected.
  - apply keeps_when_keeps. keeps_auto.
Qed.

Lemma should_trade_try_engine_frame
  (market_data : option MarketData) (balance : Q) :
  keeps_when not_placed (@engine_state E)
    (VolumeGenerationStrategy.should_trade_try np_sin cfg market_data
       balance).
Proof.
  destruct market_data as [data |]; simpl.
  - apply keeps_when_bind; [apply should_place_order_keeps_engine |].
    intro due. destruct (negb due).
    + apply keeps_when_keeps, keeps_ret.
    + apply keeps_when_bind;
        [apply cancel_step_keeps; reflexivity | intros _].
      apply keeps_when_bind; [solve [keeps_auto] | intro price].
      destruct (Qle_bool price 0).
      * apply keeps_when_keeps, keeps_ret.
      * apply evaluate_trade_engine_frame.
  - apply keeps_when_keeps, keeps_ret.
Qed.

Lemma should_trade_try_waiting_frame (data : MarketData) (balance : Q) :
  keeps_when waiting (@walk_state E)
    (VolumeGenerationStrategy.should_trade_try np_sin cfg (Some data)
       balance).
Proof.
  simpl.
  apply keeps_when_bind; [apply should_place_order_keeps_walk |].
  intro due. destruct (negb due).
  - apply keeps_when_keeps, keeps_ret.
  - apply keeps_when_never.
    apply returns_bind; [intros msg [] | intros _].
    apply returns_bind; [intros msg [] | intro price].
    destruct (Qle_bool price 0).
    + apply returns_ret. intro H. discriminate H.
    + apply (returns_weaken (evaluated cfg));
        [| apply evaluate_trade_evaluated].
      intros [[[placed confidence] [msg | | a]] | msg] Hev Hw;
        simpl in *; try contradiction; discriminate.
Qed.

Lemma should_trade_try_rejected_price_frame
  (data : MarketData) (balance : Q) :
  price_rejected data ->
  keeps (@walk_state E)
    (VolumeGenerationStrategy.should_trade_try np_sin cfg (Some data)
       balance).
Proof.
  intros (p & Hprice & Hle). simpl. rewrite Hprice.
  apply keeps_bind; [apply should_place_order_keeps_walk |].
  intro due. destruct (negb due).
  - apply keeps_ret.
  - apply keeps_bind; [apply cancel_step_keeps; reflexivity | intros _].
    apply Qle_bool_iff in Hle.
    intro w. unfold VolumeGenerationStrategy.compared_price, bind, ret.
    rewrite Hle. reflexivity.
Qed.

Lemma should_trade_try_evaluated
  (market_data : option MarketData) (balance : Q) :
  returns
    (fun r =>
       forall placed confidence a,
         r = Ok (placed, confidence, Analysed a) -> evaluated cfg r)
    (VolumeGenerationStrategy.should_trade_try np_sin cfg market_data
       balance).
Proof.
  destruct market_data as [data |]; simpl.
  - apply returns_bind; [discriminate | intro due].
    destruct (negb due); [apply returns_ret; discriminate |].
    apply returns_bind; [discriminate | intros _].
    apply returns_bind; [discriminate | intro price].
    destruct (Qle_bool price 0); [apply returns_ret; discriminate |].
    apply (returns_weaken (evaluated cfg)); [| apply evaluate_trade_evaluated].
    intros r Hev placed confidence a _. exact Hev.
  - apply returns_ret. discriminate.
Qed.
End Frames.

(** ** The decision *)

Section Decision.
Context {E : Type} {client : ExchangeClient E}.
Variable np_sin : Q -> Q.
Variable cfg : Config.

(** C2, as amended.  A call of [should_trade] that returns
    [should_place = false] leaves [last_order_time],
    [volume_generated_today_usdt] and [order_count] as they were, whatever
    the reason of the rejection (internal failure included).  The state of
    the price walk, [price_walk_step] and [last_order_side], is also left
    as it was when the call is rejected before the walk runs: no market
    data, timing not due, or a current price that is a number and not
    positive. *)
Theorem rejected_decision_frame
  (market_data : option MarketData) (balance : Q) (w : World E) :
  should_place_of
    (fst (VolumeGenerationStrategy.should_trade np_sin cfg market_data
            balance w)) = false ->
  engine_state
    (snd (VolumeGenerationStrategy.should_trade np_sin cfg market_data
            balance w)) = engine_state w
  /\ (market_data = None
      \/ diagnostics_of
           (fst (VolumeGenerationStrategy.should_trade np_sin cfg
                   market_data balance w)) = WaitingForTiming
      \/ (exists data, market_data = Some data /\ price_rejected data) ->
      walk_state
        (snd (VolumeGenerationStrategy.should_trade np_sin cfg market_data
                balance w)) = walk_state w).
Proof.
  unfold VolumeGenerationStrategy.should_trade. intro Hrejected.
  pose proof (should_trade_try_engine_frame np_sin cfg market_data balance w)
    as Hengine.
  split.
  - destruct (VolumeGenerationStrategy.should_trade_try np_sin cfg
                market_data balance w) as [[d | msg] w'];
      simpl in *; apply Hengine; [exact Hrejected | exact I].
  - intros [-> | [Hwaiting | (data & -> & Hprice)]].
    + reflexivity.
    + destruct market_data as [data |]; [| reflexivity].
      pose proof (should_trade_try_waiting_frame np_sin cfg data balance w)
        as Hwalk.
      destruct (VolumeGenerationStrategy.should_trade_try np_sin cfg
                  (Some data) balance w) as [[d | msg] w'];
        simpl in *; [apply Hwalk; exact Hwaiting | discriminate Hwaiting].
    + pose proof (should_trade_try_rejected_price_frame np_sin cfg data
                    balance Hprice w) as Hwalk.
      destruct (VolumeGenerationStrategy.should_trade_try np_sin cfg
                  (Some data) balance w) as [[d | msg] w']; exact Hwalk.
Qed.

(** C5.  [should_trade] never raises: on every input it returns a decision
    (it is a total function into decisions), and when anything inside its
    [try] block raises, with message [msg], the decision is
    [(False, 0.0, {'error': msg})]; absent market data is answered in the
    same shape, without touching the world. *)
Theorem should_trade_never_raises
  (market_data : option MarketData) (balance : Q) (w : World E) :
  (exists decision w',
     VolumeGenerationStrategy.should_trade np_sin cfg market_data balance w
     = (decision, w'))
  /\ (forall msg w',
        VolumeGenerationStrategy.should_trade_try np_sin cfg market_data
          balance w = (Raise msg, w') ->
        VolumeGenerationStrategy.should_trade np_sin cfg market_data
          balance w = ((false, 0, Error msg), w'))
  /\ (market_data = None ->
      VolumeGenerationStrategy.should_trade np_sin cfg market_data balance w
      = ((false, 0, Error "No market data"), w)).
Proof.
  unfold VolumeGenerationStrategy.should_trade. repeat split.
  - destruct (VolumeGenerationStrategy.should_trade_try np_sin cfg
                market_data balance w) as [[d | msg] w'];
      eexists; eexists; reflexivity.
  - intros msg w' ->. reflexivity.
  - intros ->. reflexivity.
Qed.

(** C10.  In a call of [should_trade] that reaches the acceptance step (it
    returns the analysis dict), the flag [should_place] is exactly
    [spread_ok], the test [spread <= max_spread_threshold]: the bonus for
    being behind the volume target is added to the confidence only, which
    is 0.7 or 0.3 without it and 0.9 or 0.5 with it. *)
Theorem placement_follows_spread_only
  (market_data : option MarketData) (balance : Q) (w w' : World E)
  (placed : bool) (confidence : Q) (a : Analysis) :
  VolumeGenerationStrategy.should_trade np_sin cfg market_data balance w
  = ((placed, confidence, Analysed a), w') ->
  placed = spread_ok a
  /\ spread_ok a = Qle_bool (spread a) (max_spread_threshold cfg)
  /\ confidence == (if spread_ok a then 0.7 else 0.3)
                   + (if behind_target a then 0.2 else 0).
Proof.
  unfold VolumeGenerationStrategy.should_trade. intro Hrun.
  pose proof (should_trade_try_evaluated np_sin cfg market_data balance w)
    as Hev.
  destruct (VolumeGenerationStrategy.should_trade_try np_sin cfg
              market_data balance w) as [[d | msg] w1];
    simpl in Hev; [| discriminate Hrun].
  injection Hrun as -> ->.
  exact (Hev placed confidence a eq_refl).
Qed.
End Decision.

(** A spread rejection: the counters of the strategy are as before. *)
Lemma rejected_decision_frame_example :
  should_place_of
    (fst (VolumeGenerationStrategy.should_trade (fun _ => 0)
            (default_config "up") (Some (snapshot 100 100 110)) 1000
            (fresh_world quiet_script []))) = false
  /\ engine_state
       (snd (VolumeGenerationStrategy.should_trade (fun _ => 0)
               (default_config "up") (Some (snapshot 100 100 110)) 1000
               (fresh_world quiet_script [])))
     = engine_state (fresh_world quiet_script []).
Proof.
  assert (Hrejected :
            should_place_of
              (fst (VolumeGenerationStrategy.should_trade (fun _ => 0)
                      (default_config "up") (Some (snapshot 100 100 110))
                      1000 (fresh_world quiet_script []))) = false)
    by (vm_compute; reflexivity).
  split; [exact Hrejected |].
  apply (rejected_decision_frame (fun _ => 0) (default_config "up")
           (Some (snapshot 100 100 110)) 1000
           (fresh_world quiet_script []) Hrejected).
Defined.

(** C2, as stated, fails.  With the default configuration walking "up" (so
    that [np.sin] is never called), a price of 100 and a book of 100 / 110,
    the spread 0.1 is above the threshold 0.05: the call returns
    [should_place = false], and yet [last_order_side], unset before the
    call, is set after it. *)
Lemma spread_rejection_moves_the_walk :
  should_place_of
    (fst (VolumeGenerationStrategy.should_trade (fun _ => 0)
            (default_config "up") (Some (snapshot 100 100 110)) 1000
            (fresh_world quiet_script []))) = false
  /\ last_order_side (fresh_world quiet_script []) = None
  /\ last_order_side
       (snd (VolumeGenerationStrategy.should_trade (fun _ => 0)
               (default_config "up") (Some (snapshot 100 100 110)) 1000
               (fresh_world quiet_script []))) = Some buy.
Proof. repeat split; vm_compute; reflexivity. Qed.

(** A ticker whose last price is [None]: the [TypeError] of the comparison
    comes back as the error of a decision. *)
Lemma should_trade_never_raises_example :
  exists w',
    VolumeGenerationStrategy.should_trade_try (fun _ => 0)
      (default_config "up") (Some snapshot_without_price) 1000
      (fresh_world quiet_script [])
    = (Raise Py.none_compare_error, w')
    /\ VolumeGenerationStrategy.should_trade (fun _ => 0)
         (default_config "up") (Some snapshot_without_price) 1000
         (fresh_world quiet_script [])
       = ((false, 0, Error Py.none_compare_error), w').
Proof.
  destruct (VolumeGenerationStrategy.should_trade_try (fun _ => 0)
              (default_config "up") (Some snapshot_without_price) 1000
              (fresh_world quiet_script [])) as [r w'] eqn:Htry.
  assert (Hr : r = Raise Py.none_compare_error).
  { change r with (fst (r, w')). rewrite <- Htry. vm_compute. reflexivity. }
  subst r. exists w'. split; [reflexivity |].
  apply (should_trade_never_raises (fun _ => 0) (default_config "up")
           (Some snapshot_without_price) 1000
           (fresh_world quiet_script [])).
  exact Htry.
Defined.

(** A book of 100 / 101 at a price of 100: the decision is evaluated. *)
Lemma placement_follows_spread_only_example :
  exists placed confidence a w',
    VolumeGenerationStrategy.should_trade (fun _ => 0)
      (default_config "up") (Some (snapshot 100 100 101)) 1000
      (fresh_world quiet_script [])
    = ((placed, confidence, Analysed a), w')
    /\ placed = spread_ok a
    /\ spread_ok a
       = Qle_bool (spread a) (max_spread_threshold (default_config "up"))
    /\ confidence == (if spread_ok a then 0.7 else 0.3)
                     + (if behind_target a then 0.2 else 0).
Proof.
  assert (Hd : exists a,
            diagnostics_of
              (fst (VolumeGenerationStrategy.should_trade (fun _ => 0)
                      (default_config "up") (Some (snapshot 100 100 101))
                      1000 (fresh_world quiet_script []))) = Analysed a).
  { vm_compute. eexists. reflexivity. }
  destruct (VolumeGenerationStrategy.should_trade (fun _ => 0)
              (default_config "up") (Some (snapshot 100 100 101)) 1000
              (fresh_world quiet_script []))
    as [[[placed confidence] d] w'] eqn:Hrun.
  destruct Hd as [a Hd]. cbn in Hd. subst d.
  exists placed, confidence, a, w'. split; [reflexivity |].
  exact (placement_follows_spread_only (fun _ => 0) (default_config "up")
           (Some (snapshot 100 100 101)) 1000 (fresh_world quiet_script [])
           w' placed confidence a Hrun).
Defined.

(** ** The tracker of open orders *)

Lemma mem_true_iff (x : string) (xs : list string) :
  Py.mem x xs = true <-> In x xs.
Proof.
  unfold Py.mem. rewrite existsb_exists. split.
  - intros (y & Hin & Heq). apply String.eqb_eq in Heq. now subst.
  - intro Hin. exists x. split; [exact Hin | apply String.eqb_refl].
Qed.

(** Forgetting ids that do not include [x] leaves [x] in front. *)
Lemma forget_fold_cons (x : string) (removed tracked : list string) :
  ~ In x removed ->
  fold_left
    (fun tracked order_id =>
       if Py.mem order_id tracked
       then Py.remove_first order_id tracked else tracked)
    removed (x :: tracked)
  = x :: fold_left
           (fun tracked order_id =>
              if Py.mem order_id tracked
              then Py.remove_first order_id tracked else tracked)
           removed tracked.
Proof.
  revert tracked. induction removed as [| y rest IH]; intros tracked Hnotin.
  - reflexivity.
  - assert (Hyx : String.eqb y x = false).
    { apply String.eqb_neq. intros ->. apply Hnotin. now left. }
    simpl. unfold Py.mem at 1. simpl. rewrite Hyx. simpl.
    fold (Py.mem y tracked).
    destruct (Py.mem y tracked); apply IH; intro Hin; apply Hnotin;
      now right.
Qed.

Lemma ids_where_incl {R} (test : R -> bool) (replies : list (string * R)) :
  forall x, In x (ids_where test replies) -> In x (map fst replies).
Proof.
  intros x Hin. unfold ids_where in Hin.
  apply in_map_iff in Hin as (p & <- & Hp).
  apply filter_In in Hp as [Hp _]. now apply in_map.
Qed.

(** Forgetting the ids that pass a test leaves, in order, those that fail
    it, when no id is tracked twice. *)
Lemma forget_fold_ids {R} (test : R -> bool) (replies : list (string * R)) :
  NoDup (map fst replies) ->
  fold_left
    (fun tracked order_id =>
       if Py.mem order_id tracked
       then Py.remove_first order_id tracked else tracked)
    (ids_where test replies) (map fst replies)
  = ids_where (fun r => negb (test r)) replies.
Proof.
  induction replies as [| [x r] rest IH]; intro Hnodup.
  - reflexivity.
  - simpl in Hnodup. inversion Hnodup as [| ? ? Hnotin Hrest]; subst.
    unfold ids_where in *. simpl.
    destruct (test r); simpl.
    + unfold Py.mem at 1. simpl. rewrite String.eqb_refl. simpl.
      now apply IH.
    + rewrite forget_fold_cons.
      * f_equal. now apply IH.
      * intro Hin. apply Hnotin.
        now apply (ids_where_incl test rest).
Qed.

Section Tracker.
Context {E : Type} {client : ExchangeClient E}.
Variable cfg : Config.

Lemma cancel_replies_ids (ids : list string) (ex : E) :
  map fst (cancel_replies (symbol cfg) ids ex) = ids.
Proof.
  revert ex. induction ids as [| x rest IH]; intro ex; simpl.
  - reflexivity.
  - destruct (cancel_order x (symbol cfg) ex) as [reply ex'].
    simpl. now rewrite IH.
Qed.

Lemma fetch_replies_ids (ids : list string) (ex : E) :
  map fst (fetch_replies (symbol cfg) ids ex) = ids.
Proof.
  revert ex. induction ids as [| x rest IH]; intro ex; simpl.
  - reflexivity.
  - destruct (fetch_order x (symbol cfg) ex) as [reply ex'].
    simpl. now rewrite IH.
Qed.

(** The loop of [cancel_open_orders]: the count grows by the cancellations
    that went through, the list to remove by the ids to forget, and the
    tracker is not touched yet. *)
Lemma cancel_each_run (ids : list string) :
  forall (acc : Z * list string) (w : World E),
  exists w',
    OrderManager.cancel_each cfg ids acc w
    = (Ok ((fst acc
            + count_where cancelled
                (cancel_replies (symbol cfg) ids (exchange w)))%Z,
           snd acc
           ++ ids_where forgotten_on_cancel
                (cancel_replies (symbol cfg) ids (exchange w))), w')
    /\ open_orders w' = open_orders w.
Proof.
  induction ids as [| x rest IH]; intros [count removed] w.
  - exists w. simpl. unfold ret, count_where. simpl.
    rewrite Z.add_0_r, app_nil_r. now split.
  - simpl. unfold bind, OrderManager.cancel_one, try_except, bind,
      exchange_cancel_order.
    destruct (cancel_order x (symbol cfg) (exchange w))
      as [[[] | msg] ex'] eqn:Hreply; simpl.
    + destruct (IH ((count + 1)%Z, removed ++ [x])
                  (set_exchange ex' (requests w ++ [ReqCancel x (symbol cfg)])
                     w)) as (w' & Hrun & Hopen).
      exists w'. rewrite Hrun. simpl. split; [| exact Hopen].
      unfold count_where, ids_where. simpl.
      rewrite <- app_assoc. simpl. do 3 f_equal. lia.
    + destruct (OrderManager.already_gone msg) eqn:Hgone; simpl.
      * destruct (IH (count, removed ++ [x])
                    (set_exchange ex'
                       (requests w ++ [ReqCancel x (symbol cfg)]) w))
          as (w' & Hrun & Hopen).
        exists w'. rewrite Hrun. simpl. split; [| exact Hopen].
        unfold count_where, ids_where. simpl. rewrite Hgone. simpl.
        rewrite <- app_assoc. reflexivity.
      * destruct (IH (count, removed)
                    (set_exchange ex'
                       (requests w ++ [ReqCancel x (symbol cfg)]) w))
          as (w' & Hrun & Hopen).
        exists w'. rewrite Hrun. simpl. split; [| exact Hopen].
        unfold count_where, ids_where. simpl. rewrite Hgone. reflexivity.
Qed.

(** C4, as amended.  When no id is tracked twice, [cancel_open_orders]
    stops tracking exactly the ids whose cancellation went through or
    failed with a message that contains, in any letter case, "not found" or
    "already"; it keeps tracking, in order, the ids whose cancellation
    failed with any other message; and it returns the number of
    cancellations that went through, not the number of ids it stopped
    tracking.  On an empty tracker it returns 0 and the tracker stays
    empty. *)
Theorem cancel_open_orders_forgets_gone (w : World E) :
  NoDup (open_orders w) ->
  exists w',
    OrderManager.cancel_open_orders cfg w
    = (Ok (count_where cancelled
             (cancel_replies (symbol cfg) (open_orders w) (exchange w))),
       w')
    /\ open_orders w'
       = ids_where (fun reply => negb (forgotten_on_cancel reply))
           (cancel_replies (symbol cfg) (open_orders w) (exchange w))
    /\ (open_orders w = [] -> w' = w).
Proof.
  intro Hnodup. unfold OrderManager.cancel_open_orders, bind, gets.
  destruct (open_orders w) as [| x rest] eqn:Htracked.
  - exists w. repeat split. exact Htracked.
  - remember (cancel_replies (symbol cfg) (x :: rest) (exchange w))
      as replies eqn:Hreplies.
    destruct (cancel_each_run (x :: rest) (0%Z, []) w)
      as (w' & Hrun & Hopen).
    rewrite <- Hreplies in Hrun. rewrite Hrun.
    unfold OrderManager.forget, modify, ret. cbn [fst snd app].
    eexists. split; [reflexivity |].
    split; [| discriminate].
    cbn [open_orders set_open_orders]. rewrite Hopen, Htracked.
    assert (Hids : map fst replies = x :: rest)
      by (subst replies; apply cancel_replies_ids).
    rewrite <- Hids. apply forget_fold_ids. now rewrite Hids.
Qed.

(** The loop of [cleanup_completed_orders]. *)
Lemma cleanup_each_run (ids : list string) :
  forall (acc : Z * list string) (w : World E),
  exists w',
    OrderManager.cleanup_each cfg ids acc w
    = (Ok ((fst acc
            + count_where completed
                (fetch_replies (symbol cfg) ids (exchange w)))%Z,
           snd acc
           ++ ids_where completed
                (fetch_replies (symbol cfg) ids (exchange w))), w')
    /\ open_orders w' = open_orders w.
Proof.
  induction ids as [| x rest IH]; intros [count removed] w.
  - exists w. simpl. unfold ret, count_where. simpl.
    rewrite Z.add_0_r, app_nil_r. now split.
  - simpl. unfold bind, OrderManager.cleanup_one, try_except, bind,
      exchange_fetch_order.
    destruct (fetch_order x (symbol cfg) (exchange w))
      as [reply ex'] eqn:Hreply.
    destruct (completed reply) eqn:Hdone.
    + destruct (IH ((count + 1)%Z, removed ++ [x])
                  (set_exchange ex' (requests w ++ [ReqFetch x (symbol cfg)])
                     w)) as (w' & Hrun & Hopen).
      exists w'. split; [| exact Hopen].
      unfold count_where, ids_where in *. simpl. rewrite Hdone.
      destruct reply as [[order_id [status |]] | msg]; simpl in *;
        try discriminate; rewrite Hdone; simpl; rewrite Hrun; simpl;
        rewrite <- app_assoc; simpl; do 3 f_equal; lia.
    + destruct (IH (count, removed)
                  (set_exchange ex' (requests w ++ [ReqFetch x (symbol cfg)])
                     w)) as (w' & Hrun & Hopen).
      exists w'. split; [| exact Hopen].
      unfold count_where, ids_where in *. simpl. rewrite Hdone.
      destruct reply as [[order_id [status |]] | msg]; simpl in *;
        try rewrite Hdone; simpl; rewrite Hrun; reflexivity.
Qed.

(** C8.  When no id is tracked twice, [cleanup_completed_orders] stops
    tracking exactly the ids whose status query reports a completed status
    ("closed", "filled" or "canceled") or fails with a message that reads
    "not found"; it returns the number of ids it stopped tracking; and it
    keeps tracking, in order, every other id, those whose query failed for
    another reason included. *)
Theorem cleanup_forgets_completed (w : World E) :
  NoDup (open_orders w) ->
  exists w',
    OrderManager.cleanup_completed_orders cfg w
    = (Ok (count_where completed
             (fetch_replies (symbol cfg) (open_orders w) (exchange w))),
       w')
    /\ open_orders w'
       = ids_where (fun reply => negb (completed reply))
           (fetch_replies (symbol cfg) (open_orders w) (exchange w)).
Proof.
  intro Hnodup. unfold OrderManager.cleanup_completed_orders, bind, gets.
  destruct (open_orders w) as [| x rest] eqn:Htracked.
  - exists w. repeat split. exact Htracked.
  - remember (fetch_replies (symbol cfg) (x :: rest) (exchange w))
      as replies eqn:Hreplies.
    destruct (cleanup_each_run (x :: rest) (0%Z, []) w)
      as (w' & Hrun & Hopen).
    rewrite <- Hreplies in Hrun. rewrite Hrun.
    unfold OrderManager.forget, modify, ret. cbn [fst snd app].
    eexists. split; [reflexivity |].
    cbn [open_orders set_open_orders]. rewrite Hopen, Htracked.
    assert (Hids : map fst replies = x :: rest)
      by (subst replies; apply fetch_replies_ids).
    rewrite <- Hids. apply forget_fold_ids. now rewrite Hids.
Qed.
End Tracker.

(** Tracked ids "a" and "b": cancelling "a" succeeds, cancelling "b" fails
    with "order not found"; one cancellation is counted and the tracker
    ends empty. *)
Lemma cancel_open_orders_forgets_gone_example :
  NoDup (open_orders (fresh_world tracker_script ["a"; "b"]%string))
  /\ (exists w',
        OrderManager.cancel_open_orders (default_config "up")
          (fresh_world tracker_script ["a"; "b"]%string) = (Ok 1%Z, w')
        /\ open_orders w' = []).
Proof.
  assert (Hnodup :
            NoDup (open_orders (fresh_world tracker_script
                                  ["a"; "b"]%string))).
  { repeat constructor; simpl; intuition discriminate. }
  split; [exact Hnodup |].
  destruct (cancel_open_orders_forgets_gone (default_config "up")
              (fresh_world tracker_script ["a"; "b"]%string) Hnodup)
    as (w' & Hrun & Hopen & _).
  exists w'. split.
  - rewrite Hrun. do 2 f_equal.
  - rewrite Hopen. reflexivity.
Defined.

(** C4, as stated, fails.  With "x" tracked and an exchange that refuses
    the cancellation with "Too many requests: rate limit already exceeded",
    a failure that is neither "not found" nor "already completed",
    [cancel_open_orders] cancels nothing (it returns 0) and yet stops
    tracking "x". *)
Lemma rate_limit_refusal_is_forgotten :
  described_as_gone rate_limited = false
  /\ fst (cancel_order "x" (symbol (default_config "up"))
            rate_limited_script) = Raise rate_limited
  /\ open_orders (fresh_world rate_limited_script ["x"%string])
     = ["x"%string]
  /\ fst (OrderManager.cancel_open_orders (default_config "up")
            (fresh_world rate_limited_script ["x"%string])) = Ok 0%Z
  /\ open_orders
       (snd (OrderManager.cancel_open_orders (default_config "up")
               (fresh_world rate_limited_script ["x"%string]))) = [].
Proof. repeat split; vm_compute; reflexivity. Qed.

(** Tracked ids "f" (closed), "o" (open), "n" (not found) and "t" (timed
    out): two are dropped, "o" and "t" stay. *)
Lemma cleanup_forgets_completed_example :
  NoDup (open_orders
           (fresh_world tracker_script ["f"; "o"; "n"; "t"]%string))
  /\ (exists w',
        OrderManager.cleanup_completed_orders (default_config "up")
          (fresh_world tracker_script ["f"; "o"; "n"; "t"]%string)
        = (Ok 2%Z, w')
        /\ open_orders w' = ["o"; "t"]%string).
Proof.
  assert (Hnodup :
            NoDup (open_orders (fresh_world tracker_script
                                  ["f"; "o"; "n"; "t"]%string))).
  { repeat constructor; simpl; intuition discriminate. }
  split; [exact Hnodup |].
  destruct (cleanup_forgets_completed (default_config "up")
              (fresh_world tracker_script ["f"; "o"; "n"; "t"]%string)
              Hnodup) as (w' & Hrun & Hopen).
  exists w'. split.
  - rewrite Hrun. do 2 f_equal.
  - rewrite Hopen. reflexivity.
Defined.

(** ** The text of a timestamp determines the timestamp *)

Lemma uint_text_dotless (d : Decimal.uint) :
  dotless (NilEmpty.string_of_uint d).
Proof. induction d; simpl; (split; [discriminate | assumption]) || exact I. Qed.

Lemma int_text_dotless (z : Z) :
  dotless (NilZero.string_of_int (Z.to_int z)).
Proof.
  destruct (Z.to_int z) as [d | d]; simpl.
  - destruct d; try apply (uint_text_dotless (_ _)). simpl. now split.
  - split; [discriminate |].
    destruct d; try apply (uint_text_dotless (_ _)). simpl. now split.
Qed.

Lemma split_at_dot (a a' b b' : string) :
  dotless a -> dotless a' ->
  (a ++ String "." b)%string = (a' ++ String "." b')%string ->
  a = a' /\ b = b'.
Proof.
  revert a'. induction a as [| c a IH]; intros [| c' a'] Ha Ha' Heq;
    simpl in *.
  - injection Heq as ->. now split.
  - injection Heq as <- _. now destruct Ha'.
  - injection Heq as -> _. now destruct Ha.
  - injection Heq as -> Heq. destruct Ha as [_ Ha], Ha' as [_ Ha'].
    destruct (IH a' Ha Ha' Heq) as [-> ->]. now split.
Qed.

Lemma int_text_inj (z z' : Z) :
  NilZero.string_of_int (Z.to_int z) = NilZero.string_of_int (Z.to_int z') ->
  z = z'.
Proof.
  intro Heq. apply DecimalZ.to_int_inj.
  assert (Hnonnil : forall x, Z.to_int x <> Decimal.Pos Decimal.Nil
                              /\ Z.to_int x <> Decimal.Neg Decimal.Nil).
  { intros [| p | p]; simpl; split; try discriminate;
      intro H; injection H as H;
      now apply DecimalPos.Unsigned.to_uint_nonnil in H. }
  pose proof (NilZero.isi (Z.to_int z) (proj1 (Hnonnil z))
                (proj2 (Hnonnil z))) as H1.
  pose proof (NilZero.isi (Z.to_int z') (proj1 (Hnonnil z'))
                (proj2 (Hnonnil z'))) as H2.
  rewrite Heq in H1. congruence.
Qed.

Lemma fixed_digits_length (width : nat) (n : Z) :
  String.length (Py.fixed_digits width n) = width.
Proof.
  revert n. induction width as [| k IH]; intro n; simpl; [| rewrite IH];
    reflexivity.
Qed.

Lemma digit_char_inj (d d' : Z) :
  (0 <= d < 10)%Z -> (0 <= d' < 10)%Z ->
  Py.digit_char d = Py.digit_char d' -> d = d'.
Proof.
  intros Hd Hd' Heq. unfold Py.digit_char in Heq.
  apply (f_equal nat_of_ascii) in Heq.
  rewrite !nat_ascii_embedding in Heq by lia. lia.
Qed.

Lemma fixed_digits_inj (width : nat) :
  forall n n' : Z,
    (0 <= n < 10 ^ Z.of_nat width)%Z -> (0 <= n' < 10 ^ Z.of_nat width)%Z ->
    Py.fixed_digits width n = Py.fixed_digits width n' -> n = n'.
Proof.
  induction width as [| k IH]; intros n n' Hn Hn' Heq.
  - simpl in Hn, Hn'. lia.
  - simpl in Heq. injection Heq as Hhead Htail.
    assert (Hpow : (0 < 10 ^ Z.of_nat k)%Z) by (apply Z.pow_pos_nonneg; lia).
    assert (Hstep : (10 ^ Z.of_nat (S k) = 10 * 10 ^ Z.of_nat k)%Z).
    { rewrite Nat2Z.inj_succ, Z.pow_succ_r by lia. reflexivity. }
    rewrite Hstep in Hn, Hn'.
    apply digit_char_inj in Hhead.
    + apply IH in Htail; try (apply Z.mod_pos_bound; lia).
      rewrite (Z.div_mod n (10 ^ Z.of_nat k)) by lia.
      rewrite (Z.div_mod n' (10 ^ Z.of_nat k)) by lia.
      now rewrite Hhead, Htail.
    + split; [apply Z.div_pos; lia | apply Z.div_lt_upper_bound; lia].
    + split; [apply Z.div_pos; lia | apply Z.div_lt_upper_bound; lia].
Qed.

(** What stripping the trailing zeros keeps: the digits, and how many of
    the [fuel] strippable places they still cover. *)
Lemma strip_zeros_spec (fuel : nat) :
  forall m : Z,
    (0 <= m < 10 ^ Z.of_nat (S fuel))%Z ->
    (m = fst (Py.strip_zeros fuel m)
         * 10 ^ Z.of_nat (fuel - snd (Py.strip_zeros fuel m)))%Z
    /\ (0 <= fst (Py.strip_zeros fuel m)
        < 10 ^ Z.of_nat (S (snd (Py.strip_zeros fuel m))))%Z
    /\ (snd (Py.strip_zeros fuel m) <= fuel)%nat.
Proof.
  induction fuel as [| k IH]; intros m Hm.
  - simpl. repeat split; try lia.
  - cbn [Py.strip_zeros].
    destruct (m mod 10 =? 0)%Z eqn:Hzero.
    + apply Z.eqb_eq in Hzero.
      assert (Hstep : (10 ^ Z.of_nat (S (S k))
                       = 10 * 10 ^ Z.of_nat (S k))%Z).
      { rewrite (Nat2Z.inj_succ (S k)), Z.pow_succ_r by lia. reflexivity. }
      assert (Hdiv : (0 <= m / 10 < 10 ^ Z.of_nat (S k))%Z).
      { split; [apply Z.div_pos; lia | apply Z.div_lt_upper_bound; lia]. }
      destruct (IH (m / 10)%Z Hdiv) as (Heq & Hbound & Hle).
      repeat split; try lia.
      replace (S k - snd (Py.strip_zeros k (m / 10)))%nat
        with (S (k - snd (Py.strip_zeros k (m / 10))))%nat by lia.
      rewrite Nat2Z.inj_succ, Z.pow_succ_r by lia.
      rewrite (Z.div_mod m 10) at 1 by lia. rewrite Hzero.
      rewrite Heq at 1. ring.
    + cbn [fst snd]. rewrite Nat.sub_diag. simpl Z.of_nat at 1.
      repeat split; try lia.
Qed.

Lemma timestamp_str_inj (t t' : Z) :
  Py.timestamp_str t = Py.timestamp_str t' -> t = t'.
Proof.
  unfold Py.timestamp_str. intro Heq.
  assert (Hm : forall x, (0 <= x mod 1000000 < 10 ^ Z.of_nat 6)%Z)
    by (intro x; apply Z.mod_pos_bound; reflexivity).
  pose proof (strip_zeros_spec 5 (t mod 1000000) (Hm t))
    as (Hval & Hbound & Hle).
  pose proof (strip_zeros_spec 5 (t' mod 1000000) (Hm t'))
    as (Hval' & Hbound' & Hle').
  destruct (Py.strip_zeros 5 (t mod 1000000)) as [d w].
  destruct (Py.strip_zeros 5 (t' mod 1000000)) as [d' w'].
  cbn [fst snd] in *.
  apply split_at_dot in Heq; try apply int_text_dotless.
  destruct Heq as [Hsec Hfrac].
  apply int_text_inj in Hsec.
  assert (Hw : w = w').
  { apply (f_equal String.length) in Hfrac.
    rewrite !fixed_digits_length in Hfrac. lia. }
  subst w'.
  apply fixed_digits_inj in Hfrac; [| assumption | assumption].
  subst d'.
  rewrite (Z.div_mod t 1000000), (Z.div_mod t' 1000000) by lia.
  rewrite Hsec, Hval, Hval'. reflexivity.
Qed.

(** ** Dry-run placement *)

Section DryRun.
Context {E : Type} {client : ExchangeClient E}.
Variable cfg : Config.

Lemma dry_run_place_order_run
  (side : Side) (amount price : Q) (w : World E) :
  OrderManager.place_order cfg side amount (Some price) true w
  = (Ok (Simulated
           (mkDryRunOrder ("dry_run_" ++ Py.timestamp_str (clock w 0%nat))
              (symbol cfg) side amount (Some price)
              (if OrderManager.truthy (Some price) then amount * price
               else 0)
              "closed" true)),
     set_clock (fun n => clock w (S n)) w).
Proof. reflexivity. Qed.

(** With no price given, formatting the log line raises, and the dry run
    returns the error dict instead of an order. *)
Lemma dry_run_without_price_fails (side : Side) (amount : Q) (w : World E) :
  OrderManager.place_order cfg side amount None true w
  = (Ok (Failed Py.none_format_error), w).
Proof. reflexivity. Qed.

(** C9, as amended.  No call of [place_order] with [dry_run = True] sends
    anything to the exchange, whatever the price argument, [None]
    included: the call returns, and the exchange, the list of requests and
    the tracker are as before.  With a price, it returns an order of status
    "closed", marked as a dry run, whose id is "dry_run_" followed by the
    text of the clock reading.  The ids of two such calls in a row are
    equal exactly when their two clock readings are equal (for readings
    from 1 s to below 2^33 s after the epoch, where the timestamp separates
    microseconds): they are distinct when the clock moved between the
    calls, and the same when it did not. *)
Theorem dry_run_places_nothing
  (side1 side2 : Side) (amount1 amount2 price1 price2 : Q) (w : World E) :
  (forall (side : Side) (amount : Q) (price : option Q) (w0 : World E),
     exists result w',
       OrderManager.place_order cfg side amount price true w0
       = (Ok result, w')
       /\ exchange_state w' = exchange_state w0)
  /\ exists order1 order2 w1 w2,
       OrderManager.place_order cfg side1 amount1 (Some price1) true w
       = (Ok (Simulated order1), w1)
       /\ OrderManager.place_order cfg side2 amount2 (Some price2) true w1
          = (Ok (Simulated order2), w2)
       /\ exchange_state w1 = exchange_state w
       /\ exchange_state w2 = exchange_state w
       /\ dr_status order1 = "closed"%string /\ dr_dry_run order1 = true
       /\ dr_status order2 = "closed"%string /\ dr_dry_run order2 = true
       /\ dr_id order1
          = ("dry_run_" ++ Py.timestamp_str (clock w 0%nat))%string
       /\ dr_id order2
          = ("dry_run_" ++ Py.timestamp_str (clock w 1%nat))%string
       /\ (timestamp_exact (clock w 0%nat) ->
           timestamp_exact (clock w 1%nat) ->
           (dr_id order1 = dr_id order2 <-> clock w 0%nat = clock w 1%nat)).
Proof.
  split.
  - intros side amount [price |] w0.
    + do 2 eexists. split; [apply dry_run_place_order_run | reflexivity].
    + do 2 eexists. split; [apply dry_run_without_price_fails | reflexivity].
  - do 4 eexists.
    split; [apply dry_run_place_order_run |].
    split; [apply dry_run_place_order_run |].
    repeat (split; [reflexivity |]).
    cbn [dr_id clock set_clock]. intros _ _. split.
    + intro Hid. apply timestamp_str_inj. now injection Hid.
    + intros ->. reflexivity.
Qed.
End DryRun.

(** Two dry-run calls one second apart, on 4 November 2024: the ids
    differ. *)
Lemma dry_run_places_nothing_example :
  (timestamp_exact (clock (fresh_world quiet_script []) 0%nat)
   /\ timestamp_exact (clock (fresh_world quiet_script []) 1%nat))
  /\ exists order1 order2 w1 w2,
       OrderManager.place_order (default_config "up") buy 1 (Some 100) true
         (fresh_world quiet_script [])
       = (Ok (Simulated order1), w1)
       /\ OrderManager.place_order (default_config "up") sell 2 (Some 101)
            true w1
          = (Ok (Simulated order2), w2)
       /\ exchange_state w2 = exchange_state (fresh_world quiet_script [])
       /\ dr_id order1 <> dr_id order2.
Proof.
  assert (H0 : timestamp_exact (clock (fresh_world quiet_script []) 0%nat))
    by (split; [intro H; discriminate H | reflexivity]).
  assert (H1 : timestamp_exact (clock (fresh_world quiet_script []) 1%nat))
    by (split; [intro H; discriminate H | reflexivity]).
  split; [split; assumption |].
  destruct (dry_run_places_nothing (default_config "up") buy sell 1 2 100
              101 (fresh_world quiet_script []))
    as (_ & order1 & order2 & w1 & w2 & Hrun1 & Hrun2 & _ & Hx2 & _ & _ & _
        & _ & _ & _ & Hids).
  exists order1, order2, w1, w2.
  split; [exact Hrun1 |]. split; [exact Hrun2 |]. split; [exact Hx2 |].
  intro Hsame. apply (Hids H0 H1) in Hsame. discriminate Hsame.
Defined.

(** C9, as stated, fails.  When the clock returns the same reading to two
    dry-run calls in a row, the two orders carry the same id. *)
Lemma stalled_clock_repeats_the_id :
  simulated_id
    (fst (OrderManager.place_order (default_config "up") buy 1 (Some 100)
            true stalled_world))
  = Some "dry_run_1730712345.123456"%string
  /\ simulated_id
       (fst (OrderManager.place_order (default_config "up") sell 2
               (Some 101) true
               (snd (OrderManager.place_order (default_config "up") buy 1
                       (Some 100) true stalled_world))))
     = Some "dry_run_1730712345.123456"%string.
Proof. split; vm_compute; reflexivity. Qed.

(** ** The phase of the sideways walk *)

(** In "sideways" mode every computation of a target advances the phase by
    the step drawn from [uniform(0.1, 0.3)], whatever [np.sin] returns and
    whatever the decision that follows. *)
Lemma sideways_target_advances_phase {E : Type}
  (np_sin : Q -> Q) (cfg : Config) (price : Q) (w : World E) :
  price_walk_direction cfg = "sideways"%string ->
  price_walk_step
    (snd (PriceStrategy.calculate_next_price_target np_sin cfg price w))
  = price_walk_step w + (0.1 + (0.3 - 0.1) * rng w 1%nat).
Proof.
  intro Hdir.
  unfold PriceStrategy.calculate_next_price_target,
    PriceStrategy.price_target_try.
  rewrite Hdir. reflexivity.
Qed.

(** * Further properties of the code *)

(** ** Running a method step by step *)

Section Runs.
Context {E : Type}.

Lemma bind_ok_inv {A B} (m : M E A) (k : A -> M E B) w b w2 :
  bind m k w = (Ok b, w2) ->
  exists a w1, m w = (Ok a, w1) /\ k a w1 = (Ok b, w2).
Proof.
  unfold bind. destruct (m w) as [[a | msg] w1]; intro H.
  - now exists a, w1.
  - discriminate H.
Qed.

Lemma keeps_run {X A} (f : World E -> X) (m : M E A) w r w1 :
  keeps f m -> m w = (r, w1) -> f w1 = f w.
Proof. intros Hk Hrun. specialize (Hk w). now rewrite Hrun in Hk. Qed.

Lemma ret_inv {A} (a b : A) (w w' : World E) :
  ret a w = (Ok b, w') -> a = b /\ w = w'.
Proof. unfold ret. intro H. injection H as -> ->. now split. Qed.
End Runs.

(** ** Bounds of the draws *)

Lemma max_least (a b c : Q) : a <= c -> b <= c -> Py.max a b <= c.
Proof.
  intros Ha Hb. unfold Py.max. destruct (Py.Qlt_bool a b); assumption.
Qed.

Lemma uniform_bounds (low high u : Q) :
  low <= high -> 0 <= u -> u < 1 ->
  low <= low + (high - low) * u /\ low + (high - low) * u <= high.
Proof.
  intros Hle Hu0 Hu1.
  assert (0 <= (high - low) * u) by (apply Qmult_le_0_compat; lra).
  assert (0 <= (high - low) * (1 - u)) by (apply Qmult_le_0_compat; lra).
  split; lra.
Qed.

Section PriceWalkMore.
Context {E : Type}.
Variable np_sin : Q -> Q.
Variable cfg : Config.

(** The target before the clamp, per direction, from the draws. *)
Lemma price_target_run (price : Q) (w : World E) :
  exists raw w',
    PriceStrategy.calculate_next_price_target np_sin cfg price w
    = (Ok (Py.np_clip raw (price * (1 - max_price_deviation cfg))
                          (price * (1 + max_price_deviation cfg))), w')
    /\ let base := price * BASE_PRICE_STEP_RATIO in
       let noise := (- (0.5) + (0.5 - - (0.5)) * rng w 0%nat) * base in
       (price_walk_direction cfg = "up"%string ->
        raw = price + (base * (1 + (0 + (1 - 0) * rng w 1%nat)) + noise))
       /\ (price_walk_direction cfg = "down"%string ->
           raw = price - (base * (1 + (0 + (1 - 0) * rng w 1%nat)) + noise))
       /\ (price_walk_direction cfg = "sideways"%string ->
           raw = price
                 + (base * 2
                    * np_sin (price_walk_step w
                              + (0.1 + (0.3 - 0.1) * rng w 1%nat))
                    + noise))
       /\ (price_walk_direction cfg <> "up"%string ->
           price_walk_direction cfg <> "down"%string ->
           price_walk_direction cfg <> "sideways"%string ->
           raw = price
                 + (base * (0.5 + (2.0 - 0.5) * rng w 2%nat)
                    * (if Py.Qlt_bool (rng w 1%nat) (1 # 2)
                       then - (1) else 1)
                    + noise)).
Proof.
  unfold PriceStrategy.calculate_next_price_target,
    PriceStrategy.price_target_try, try_except.
  destruct (String.eqb_spec (price_walk_direction cfg) "up") as [Hup | Hup];
    [| destruct (String.eqb_spec (price_walk_direction cfg) "down")
         as [Hdown | Hdown];
       [| destruct (String.eqb_spec (price_walk_direction cfg) "sideways")
            as [Hside | Hside]]];
    cbv [bind ret np_random_uniform np_random_random np_random_choice
         modify gets];
    cbn [rng set_rng price_walk_step set_price_walk_step];
    eexists; eexists; (split; [reflexivity |]); cbv zeta;
    repeat split; intros; try congruence; try reflexivity.
Qed.
End PriceWalkMore.

Lemma np_clip_lower (x lo hi a : Q) :
  a <= x -> a <= hi -> a <= Py.np_clip x lo hi.
Proof.
  intros Hx Hhi. unfold Py.np_clip. apply min_greatest; [| assumption].
  pose proof (max_lower_bounds x lo) as [Hm _]. lra.
Qed.

Lemma np_clip_upper (x lo hi c : Q) :
  x <= c -> lo <= c -> Py.np_clip x lo hi <= c.
Proof.
  intros Hx Hlo. unfold Py.np_clip.
  pose proof (min_upper_bounds (Py.max x lo) hi) as [Hm _].
  assert (Py.max x lo <= c) by (apply max_least; assumption). lra.
Qed.

Section PriceWalkBounds.
Context {E : Type}.
Variable np_sin : Q -> Q.
Variable cfg : Config.

(** X1.  An "up" walk never targets below the current price and a "down"
    walk never above it: the step, [base_step * (1 + uniform(0, 1))] plus
    a noise of at most half a base step, is positive, and the clamp keeps
    the side. *)
Theorem walk_direction_respected (price : Q) (w : World E) :
  unit_draws w -> 0 < price -> 0 <= max_price_deviation cfg ->
  exists target w',
    PriceStrategy.calculate_next_price_target np_sin cfg price w
    = (Ok target, w')
    /\ (price_walk_direction cfg = "up"%string -> price <= target)
    /\ (price_walk_direction cfg = "down"%string -> target <= price).
Proof.
  intros Hdraws Hp Hd.
  destruct (price_target_run np_sin cfg price w)
    as (raw & w' & Hrun & Hup & Hdown & _).
  cbv zeta in Hup, Hdown.
  pose proof (Hdraws 0%nat) as [Hu0 _].
  pose proof (Hdraws 1%nat) as [Hu1 _].
  unfold BASE_PRICE_STEP_RATIO in *.
  assert (Hb0 : 0 <= price * rng w 0%nat)
    by (apply Qmult_le_0_compat; lra).
  assert (Hb1 : 0 <= price * rng w 1%nat)
    by (apply Qmult_le_0_compat; lra).
  assert (Hpd : 0 <= price * max_price_deviation cfg)
    by (apply Qmult_le_0_compat; lra).
  eexists; eexists. split; [exact Hrun |]. split; intro Hdir.
  - apply np_clip_lower; [rewrite (Hup Hdir) |]; lra.
  - apply np_clip_upper; [rewrite (Hdown Hdir) |]; lra.
Qed.

(** X2.  Whatever the direction and whatever [max_price_deviation], the
    target is within 0.25% of the current price: the step is at most two
    base steps (0.1% each) and the noise at most half of one, so a maximum
    deviation above 0.0025 never binds.  [np.sin] is only asked to stay in
    [[-1, 1]]. *)
Theorem price_target_step_bounded (price : Q) (w : World E) :
  unit_draws w -> 0 < price -> 0 <= max_price_deviation cfg ->
  (forall x, - (1) <= np_sin x <= 1) ->
  exists target w',
    PriceStrategy.calculate_next_price_target np_sin cfg price w
    = (Ok target, w')
    /\ price * (1 - 0.0025) <= target <= price * (1 + 0.0025).
Proof.
  intros Hdraws Hp Hd Hsin.
  destruct (price_target_run np_sin cfg price w)
    as (raw & w' & Hrun & Hup & Hdown & Hside & Hrandom).
  cbv zeta in Hup, Hdown, Hside, Hrandom.
  pose proof (Hdraws 0%nat) as [Hu0 Hv0].
  pose proof (Hdraws 1%nat) as [Hu1 Hv1].
  pose proof (Hdraws 2%nat) as [Hu2 Hv2].
  unfold BASE_PRICE_STEP_RATIO in *.
  assert (Hb0 : 0 <= price * rng w 0%nat)
    by (apply Qmult_le_0_compat; lra).
  assert (Hc0 : 0 <= price * (1 - rng w 0%nat))
    by (apply Qmult_le_0_compat; lra).
  assert (Hb1 : 0 <= price * rng w 1%nat)
    by (apply Qmult_le_0_compat; lra).
  assert (Hc1 : 0 <= price * (1 - rng w 1%nat))
    by (apply Qmult_le_0_compat; lra).
  assert (Hb2 : 0 <= price * rng w 2%nat)
    by (apply Qmult_le_0_compat; lra).
  assert (Hc2 : 0 <= price * (1 - rng w 2%nat))
    by (apply Qmult_le_0_compat; lra).
  assert (Hpd : 0 <= price * max_price_deviation cfg)
    by (apply Qmult_le_0_compat; lra).
  eexists; eexists. split; [exact Hrun |].
  assert (Hraw : price * (1 - 0.0025) <= raw <= price * (1 + 0.0025)).
  { destruct (String.eqb_spec (price_walk_direction cfg) "up") as [H1 | H1];
      [rewrite (Hup H1); split; lra |].
    destruct (String.eqb_spec (price_walk_direction cfg) "down")
      as [H2 | H2]; [rewrite (Hdown H2); split; lra |].
    destruct (String.eqb_spec (price_walk_direction cfg) "sideways")
      as [H3 | H3].
    - rewrite (Hside H3).
      pose proof (Hsin (price_walk_step w
                        + (0.1 + (0.3 - 0.1) * rng w 1%nat))) as [Hs0 Hs1].
      set (s := np_sin _) in *.
      assert (0 <= price * (1 - s)) by (apply Qmult_le_0_compat; lra).
      assert (0 <= price * (1 + s)) by (apply Qmult_le_0_compat; lra).
      split; lra.
    - rewrite (Hrandom H1 H2 H3).
      destruct (Py.Qlt_bool (rng w 1%nat) (1 # 2)); split; lra. }
  split.
  - apply np_clip_lower; lra.
  - apply np_clip_upper; lra.
Qed.

(** X3.  The phase of the walk never goes back: in "sideways" mode each
    target advances it by at least 0.1 and less than 0.3; in every other
    mode a target leaves it alone. *)
Theorem walk_phase_advances (price : Q) (w : World E) :
  unit_draws w ->
  (price_walk_direction cfg = "sideways"%string ->
   price_walk_step w + 0.1
   <= price_walk_step
        (snd (PriceStrategy.calculate_next_price_target np_sin cfg price w))
   < price_walk_step w + 0.3)
  /\ (price_walk_direction cfg <> "sideways"%string ->
      price_walk_step
        (snd (PriceStrategy.calculate_next_price_target np_sin cfg price w))
      = price_walk_step w).
Proof.
  intro Hdraws. pose proof (Hdraws 1%nat) as [Hu1 Hv1]. split.
  - intro Hdir.
    rewrite (sideways_target_advances_phase np_sin cfg price w Hdir).
    split; lra.
  - intro Hdir.
    unfold PriceStrategy.calculate_next_price_target,
      PriceStrategy.price_target_try.
    destruct (String.eqb_spec (price_walk_direction cfg) "up");
      [reflexivity |].
    destruct (String.eqb_spec (price_walk_direction cfg) "down");
      [reflexivity |].
    destruct (String.eqb_spec (price_walk_direction cfg) "sideways");
      [contradiction | reflexivity].
Qed.
End PriceWalkBounds.

Lemma fresh_world_unit_draws (script : Script) (tracked : list string) :
  unit_draws (fresh_world script tracked).
Proof. intro i. split; vm_compute; easy. Qed.

(** A walk "up" from 100. *)
Lemma walk_direction_respected_example :
  (unit_draws (fresh_world quiet_script [])
   /\ 0 < 100 /\ 0 <= max_price_deviation (default_config "up"))
  /\ (exists target w',
        PriceStrategy.calculate_next_price_target (fun _ => 0)
          (default_config "up") 100 (fresh_world quiet_script [])
        = (Ok target, w')
        /\ (price_walk_direction (default_config "up") = "up"%string ->
            100 <= target)
        /\ (price_walk_direction (default_config "up") = "down"%string ->
            target <= 100)).
Proof.
  assert (H0 : 0 < 100) by reflexivity.
  assert (H1 : 0 <= max_price_deviation (default_config "up"))
    by (vm_compute; easy).
  split; [repeat split; try assumption; apply fresh_world_unit_draws |].
  exact (walk_direction_respected (fun _ => 0) (default_config "up") 100
           (fresh_world quiet_script [])
           (fresh_world_unit_draws quiet_script []) H0 H1).
Defined.

(** A "sideways" walk around 100, with a stand-in for [np.sin] that stays
    in [[-1, 1]]. *)
Lemma price_target_step_bounded_example :
  (unit_draws (fresh_world quiet_script [])
   /\ 0 < 100 /\ 0 <= max_price_deviation (default_config "sideways")
   /\ (forall x : Q, - (1) <= (fun _ : Q => 0) x <= 1))
  /\ (exists target w',
        PriceStrategy.calculate_next_price_target (fun _ => 0)
          (default_config "sideways") 100 (fresh_world quiet_script [])
        = (Ok target, w')
        /\ 100 * (1 - 0.0025) <= target <= 100 * (1 + 0.0025)).
Proof.
  assert (H0 : 0 < 100) by reflexivity.
  assert (H1 : 0 <= max_price_deviation (default_config "sideways"))
    by (vm_compute; easy).
  assert (H2 : forall x : Q, - (1) <= (fun _ : Q => 0) x <= 1)
    by (intro x; split; vm_compute; easy).
  split; [repeat split; try assumption; try apply fresh_world_unit_draws;
          apply H2 |].
  exact (price_target_step_bounded (fun _ => 0) (default_config "sideways")
           100 (fresh_world quiet_script [])
           (fresh_world_unit_draws quiet_script []) H0 H1 H2).
Defined.

(** The phase of a "sideways" walk after one target. *)
Lemma walk_phase_advances_example :
  unit_draws (fresh_world quiet_script [])
  /\ ((price_walk_direction (default_config "sideways") = "sideways"%string
       -> price_walk_step (fresh_world quiet_script []) + 0.1
          <= price_walk_step
               (snd (PriceStrategy.calculate_next_price_target (fun _ => 0)
                       (default_config "sideways") 100
                       (fresh_world quiet_script [])))
          < price_walk_step (fresh_world quiet_script []) + 0.3)
      /\ (price_walk_direction (default_config "sideways")
          <> "sideways"%string ->
          price_walk_step
            (snd (PriceStrategy.calculate_next_price_target (fun _ => 0)
                    (default_config "sideways") 100
                    (fresh_world quiet_script [])))
          = price_walk_step (fresh_world quiet_script []))).
Proof.
  split; [apply fresh_world_unit_draws |].
  exact (walk_phase_advances (fun _ => 0) (default_config "sideways") 100
           (fresh_world quiet_script [])
           (fresh_world_unit_draws quiet_script [])).
Defined.

(** ** The timing check is bounded *)

Section TimingBounds.
Context {E : Type}.
Variable cfg : Config.

(** X4.  Whatever the regime drawn, the timing check waits at least
    [0.3 * (1 - timing_randomization)] and at most
    [3 * (1 + timing_randomization)] times [order_frequency]: below the
    first bound it answers false, from the second on it answers true. *)
Theorem timing_check_bounded (w : World E) (t : Z) :
  unit_draws w ->
  0 <= order_frequency cfg ->
  0 <= timing_randomization cfg <= 1 ->
  last_order_time w = Some t ->
  exists due w',
    VolumeGenerationStrategy.should_place_order cfg w = (Ok due, w')
    /\ (Py.total_seconds (clock w 0%nat - t)
        < order_frequency cfg * (1 - timing_randomization cfg) * 0.3 ->
        due = false)
    /\ (order_frequency cfg * (1 + timing_randomization cfg) * 3
        <= Py.total_seconds (clock w 0%nat - t) ->
        due = true).
Proof.
  intros Hdraws Hbase [Htr0 Htr1] Hlast.
  unfold VolumeGenerationStrategy.should_place_order.
  cbv [bind ret gets datetime_now]. rewrite Hlast.
  destruct (randomized_interval_run cfg
              (set_clock (fun n => clock w (S n)) w)) as (w' & Hrun & _).
  rewrite Hrun. cbn [rng set_clock]. cbv zeta.
  pose proof (Hdraws 0%nat) as [Hu0 Hv0].
  set (base := order_frequency cfg) in *.
  set (tr := timing_randomization cfg) in *.
  set (u := rng w 0%nat) in *.
  assert (H1 : 0 <= base * tr) by (apply Qmult_le_0_compat; lra).
  assert (H2 : 0 <= base * tr * u) by (apply Qmult_le_0_compat; lra).
  assert (H3 : 0 <= base * tr * (1 - u)) by (apply Qmult_le_0_compat; lra).
  assert (H4 : 0 <= base * (1 - tr)) by (apply Qmult_le_0_compat; lra).
  unfold BURST_MODE_INTERVAL_MULTIPLIER, QUIET_MODE_INTERVAL_MULTIPLIER.
  eexists; eexists. split; [reflexivity |].
  destruct (Py.Qlt_bool (rng w 1%nat) (burst_probability cfg));
    [| destruct (Py.Qlt_bool (rng w 2%nat) (quiet_probability cfg))];
    (split; intro Hel;
     [apply Qle_bool_false | apply Qle_bool_iff]; lra).
Qed.
End TimingBounds.

(** With the default settings (60 seconds, randomization 0.5) an order
    270 = 3 * 1.5 * 60 seconds old is always due. *)
Lemma timing_check_bounded_example :
  (unit_draws (world_after_order quiet_script 270)
   /\ 0 <= order_frequency (default_config "up")
   /\ 0 <= timing_randomization (default_config "up") <= 1
   /\ last_order_time (world_after_order quiet_script 270)
      = Some (1730712345123456 - 1000000 * 270)%Z)
  /\ (exists due w',
        VolumeGenerationStrategy.should_place_order (default_config "up")
          (world_after_order quiet_script 270) = (Ok due, w')
        /\ due = true).
Proof.
  assert (Hd : unit_draws (world_after_order quiet_script 270))
    by (intro i; split; vm_compute; easy).
  assert (H0 : 0 <= order_frequency (default_config "up"))
    by (vm_compute; easy).
  assert (H1 : 0 <= timing_randomization (default_config "up") <= 1)
    by (split; vm_compute; easy).
  split; [repeat split; try assumption; apply H1 |].
  destruct (timing_check_bounded (default_config "up")
              (world_after_order quiet_script 270)
              (1730712345123456 - 1000000 * 270)%Z Hd H0 H1 eq_refl)
    as (due & w' & Hrun & _ & Hdue).
  exists due, w'. split; [exact Hrun |].
  apply Hdue. vm_compute. intro Hgt. discriminate Hgt.
Defined.

(** ** Spread and liquidity *)





(** X6.  A book with a side that is missing or empty, or with a best bid
    that is not positive, degrades to zero: the spread is 0 (so its test
    passes for every non-negative threshold), and with a missing or empty
    side both liquidities are 0; nothing is raised. *)
Theorem degenerate_book_reads_zero (book : OrderBook) :
  (MarketDataProvider.falsy (bids book) = true
   \/ MarketDataProvider.falsy (asks book) = true ->
   MarketDataProvider.calculate_spread book = Ok 0
   /\ MarketDataProvider.get_available_liquidity book = Ok (0, 0))
  /\ (forall bid bid_level more_bids ask ask_level more_asks,
        bids book = Some ((bid :: bid_level) :: more_bids) ->
        asks book = Some ((ask :: ask_level) :: more_asks) ->
        bid <= 0 ->
        MarketDataProvider.calculate_spread book = Ok 0).
Proof.
  split.
  - intro H. unfold MarketDataProvider.calculate_spread,
      MarketDataProvider.get_available_liquidity.
    assert (Hor : MarketDataProvider.falsy (bids book)
                  || MarketDataProvider.falsy (asks book) = true)
      by (apply orb_true_iff; exact H).
    rewrite Hor. now split.
  - intros bid bid_level more_bids ask ask_level more_asks Hb Ha Hle.
    unfold MarketDataProvider.calculate_spread. rewrite Hb, Ha. simpl.
    apply Qlt_bool_false in Hle. now rewrite Hle.
Qed.

(** ** Bounds of the order size *)

Lemma max_is_either (a b : Q) : Py.max a b = a \/ Py.max a b = b.
Proof. unfold Py.max. destruct (Py.Qlt_bool a b); auto. Qed.

Section SizingBounds.
Context {E : Type}.
Variable cfg : Config.

(** The size before the floor: the ratio draw, the randomization and the
    liquidity cap. *)
Lemma order_size_run
  (balance : Q) (market_data : MarketData) (price : option Q)
  (volumes : Q * Q) (w : World E) :
  MarketDataProvider.get_available_liquidity
    (MarketDataProvider.orderbook_of market_data) = Ok volumes ->
  exists w',
    VolumeGenerationStrategy.calculate_order_size cfg balance market_data
      price w
    = (Ok (let raw :=
             balance
             * (min_order_ratio cfg
                + (max_order_ratio cfg - min_order_ratio cfg) * rng w 0%nat)
             * (1 + (- size_randomization cfg
                     + (size_randomization cfg - - size_randomization cfg)
                       * rng w 1%nat)) in
           let cap :=
             Py.min (fst volumes) (snd volumes) * LIQUIDITY_USAGE_RATIO in
           let capped :=
             if Py.Qlt_bool 0 cap then Py.min raw cap else raw in
           match price with
           | Some p =>
               if negb (Qeq_bool p 0) && Py.Qlt_bool 0 p
               then Py.max capped (min_order_value_usdt cfg / p)
               else Py.max capped 1
           | None => Py.max capped 1
           end), w').
Proof.
  intro Hliq. unfold VolumeGenerationStrategy.calculate_order_size.
  cbv [bind ret lift np_random_uniform np_random_random].
  rewrite Hliq. cbn [rng set_rng]. cbv zeta.
  destruct price as [p |];
    [destruct (negb (Qeq_bool p 0) && Py.Qlt_bool 0 p) |];
    eexists; reflexivity.
Qed.

(** X7.  Above the floor, the size stays inside the ratio band and under
    the liquidity cap: for a non-negative balance, ratios with
    [0 <= min_order_ratio <= max_order_ratio] and a size randomization in
    [[0, 1]], the returned size is either exactly the floor
    [min_order_value_usdt / price], or it is at most
    [balance * max_order_ratio * (1 + size_randomization)] and, when the
    top of the book shows liquidity on both sides, at most half of the
    smaller top-of-book size. *)
Theorem order_size_bounded_above
  (balance : Q) (market_data : MarketData) (price : Q)
  (bid_volume ask_volume : Q) (w : World E) :
  unit_draws w -> 0 < price -> 0 <= balance ->
  0 <= min_order_ratio cfg <= max_order_ratio cfg ->
  0 <= size_randomization cfg <= 1 ->
  MarketDataProvider.get_available_liquidity
    (MarketDataProvider.orderbook_of market_data)
  = Ok (bid_volume, ask_volume) ->
  exists size w',
    VolumeGenerationStrategy.calculate_order_size cfg balance market_data
      (Some price) w = (Ok size, w')
    /\ (size = min_order_value_usdt cfg / price
        \/ (size
            <= balance * max_order_ratio cfg * (1 + size_randomization cfg)
            /\ (0 < Py.min bid_volume ask_volume * LIQUIDITY_USAGE_RATIO ->
                size
                <= Py.min bid_volume ask_volume * LIQUIDITY_USAGE_RATIO))).
Proof.
  intros Hdraws Hp Hbal [Hmin0 Hminmax] [Hsr0 Hsr1] Hliq.
  destruct (order_size_run balance market_data (Some price) _ w Hliq)
    as (w' & Hrun).
  rewrite positive_price_test in Hrun by assumption.
  cbv zeta in Hrun. cbn [fst snd] in Hrun.
  eexists; eexists. split; [exact Hrun |].
  match goal with
  | |- Py.max ?c ?f = _ \/ _ => destruct (max_is_either c f) as [-> | ->]
  end; [right | now left].
  pose proof (Hdraws 0%nat) as [Hu0 Hv0].
  pose proof (Hdraws 1%nat) as [Hu1 Hv1].
  set (u0 := rng w 0%nat) in *. set (u1 := rng w 1%nat) in *.
  set (lo := min_order_ratio cfg) in *.
  set (hi := max_order_ratio cfg) in *.
  set (sr := size_randomization cfg) in *.
  set (cap := Py.min bid_volume ask_volume * LIQUIDITY_USAGE_RATIO) in *.
  assert (Hratio : 0 <= lo + (hi - lo) * u0 <= hi).
  { destruct (uniform_bounds lo hi u0 Hminmax Hu0 Hv0). split; lra. }
  assert (Hfactor : 0 <= 1 + (- sr + (sr - - sr) * u1) <= 1 + sr).
  { assert (- sr <= sr) by lra.
    destruct (uniform_bounds (- sr) sr u1 H Hu1 Hv1). split; lra. }
  set (ratio := lo + (hi - lo) * u0) in *.
  set (factor := 1 + (- sr + (sr - - sr) * u1)) in *.
  assert (Hraw : balance * ratio * factor <= balance * hi * (1 + sr)).
  { assert (0 <= balance * ratio) by (apply Qmult_le_0_compat; lra).
    assert (balance * ratio <= balance * hi).
    { rewrite !(Qmult_comm balance). apply Qmult_le_compat_r; lra. }
    assert (balance * ratio * factor <= balance * ratio * (1 + sr)).
    { rewrite !(Qmult_comm (balance * ratio)).
      apply Qmult_le_compat_r; lra. }
    assert (balance * ratio * (1 + sr) <= balance * hi * (1 + sr)).
    { apply Qmult_le_compat_r; lra. }
    lra. }
  destruct (Py.Qlt_bool 0 cap) eqn:Hcap.
  - pose proof (min_upper_bounds (balance * ratio * factor) cap) as [H1 H2].
    split; [lra | intros _; exact H2].
  - apply Qlt_bool_false in Hcap. split; [exact Hraw | intro; lra].
Qed.

(** X8.  Without a usable price ([None], zero or negative) the size falls
    back to a floor of one unit: on a book whose levels are well formed the
    method returns a size, and the size is at least 1. *)
Theorem order_size_falls_back_to_one_unit
  (balance : Q) (market_data : MarketData) (price : option Q)
  (w : World E) :
  well_formed_book market_data ->
  (forall p, price = Some p -> p <= 0) ->
  exists size w',
    VolumeGenerationStrategy.calculate_order_size cfg balance market_data
      price w = (Ok size, w')
    /\ 1 <= size.
Proof.
  intros Hbook Hprice.
  destruct (liquidity_of_well_formed_book market_data Hbook)
    as [volumes Hliq].
  destruct (order_size_run balance market_data price volumes w Hliq)
    as (w1 & Hrun).
  eexists; eexists. split; [exact Hrun |]. cbv zeta.
  destruct price as [p |]; [| apply max_lower_bounds].
  assert (Htest : negb (Qeq_bool p 0) && Py.Qlt_bool 0 p = false).
  { apply andb_false_iff. right. apply Qlt_bool_false. now apply Hprice. }
  rewrite Htest. apply max_lower_bounds.
Qed.
End SizingBounds.

(** The default ratios on a balance of 1000 at a price of 100: the size is
    the 0.05 floor, or at most [1000 * 0.005 * 1.3] and at most half of the
    smaller top-of-book size. *)
Lemma order_size_bounded_above_example :
  (unit_draws (fresh_world quiet_script [])
   /\ 0 < 100 /\ 0 <= 1000
   /\ 0 <= min_order_ratio (default_config "up")
      <= max_order_ratio (default_config "up")
   /\ 0 <= size_randomization (default_config "up") <= 1
   /\ MarketDataProvider.get_available_liquidity
        (MarketDataProvider.orderbook_of (snapshot 100 100 101))
      = Ok (2, 3))
  /\ (exists size w',
        VolumeGenerationStrategy.calculate_order_size (default_config "up")
          1000 (snapshot 100 100 101) (Some 100)
          (fresh_world quiet_script []) = (Ok size, w')
        /\ (size = min_order_value_usdt (default_config "up") / 100
            \/ (size
                <= 1000 * max_order_ratio (default_config "up")
                   * (1 + size_randomization (default_config "up"))
                /\ (0 < Py.min 2 3 * LIQUIDITY_USAGE_RATIO ->
                    size <= Py.min 2 3 * LIQUIDITY_USAGE_RATIO)))).
Proof.
  assert (H0 : 0 < 100) by reflexivity.
  assert (H1 : 0 <= 1000) by (vm_compute; intro H; discriminate H).
  assert (H2 : 0 <= min_order_ratio (default_config "up")
               <= max_order_ratio (default_config "up"))
    by (split; vm_compute; intro H; discriminate H).
  assert (H3 : 0 <= size_randomization (default_config "up") <= 1)
    by (split; vm_compute; intro H; discriminate H).
  assert (H4 : MarketDataProvider.get_available_liquidity
                 (MarketDataProvider.orderbook_of (snapshot 100 100 101))
               = Ok (2, 3)) by reflexivity.
  split.
  - split; [apply fresh_world_unit_draws |].
    repeat split; try assumption; try apply H2; try apply H3.
  - exact (order_size_bounded_above (default_config "up") 1000
             (snapshot 100 100 101) 100 2 3 (fresh_world quiet_script [])
             (fresh_world_unit_draws quiet_script []) H0 H1 H2 H3 H4).
Defined.

(** A ticker without a usable price: the size is at least one unit. *)
Lemma order_size_falls_back_to_one_unit_example :
  well_formed_book (snapshot 100 100 101)
  /\ exists size w',
       VolumeGenerationStrategy.calculate_order_size (default_config "up")
         1 (snapshot 100 100 101) None (fresh_world quiet_script [])
       = (Ok size, w')
       /\ 1 <= size.
Proof.
  assert (Hbook : well_formed_book (snapshot 100 100 101)).
  { split; cbn; repeat constructor. }
  split; [exact Hbook |].
  apply (order_size_falls_back_to_one_unit (default_config "up") 1
           (snapshot 100 100 101) None (fresh_world quiet_script []) Hbook).
  discriminate.
Defined.

(** ** What the tracker sends, and what it keeps *)

Lemma remove_first_incl (x : string) (tracked : list string) :
  (forall y, In y (Py.remove_first x tracked) -> In y tracked)
  /\ (List.length (Py.remove_first x tracked) <= List.length tracked)%nat.
Proof.
  induction tracked as [| z rest [IHin IHlen]]; simpl.
  - split; [tauto | lia].
  - destruct (String.eqb x z); simpl; split; try lia.
    + intros y Hy. now right.
    + intros y [-> | Hy]; [now left | right; now apply IHin].
Qed.

(** Forgetting never adds an id. *)
Lemma forget_fold_incl (removed tracked : list string) :
  (forall y,
     In y (fold_left
             (fun tracked order_id =>
                if Py.mem order_id tracked
                then Py.remove_first order_id tracked else tracked)
             removed tracked) -> In y tracked)
  /\ (List.length
        (fold_left
           (fun tracked order_id =>
              if Py.mem order_id tracked
              then Py.remove_first order_id tracked else tracked)
           removed tracked) <= List.length tracked)%nat.
Proof.
  revert tracked. induction removed as [| x rest IH]; intro tracked; simpl.
  - split; [tauto | lia].
  - destruct (Py.mem x tracked).
    + destruct (IH (Py.remove_first x tracked)) as [Hin Hlen].
      destruct (remove_first_incl x tracked) as [Hin' Hlen'].
      split; [intros y Hy; apply Hin', Hin, Hy | lia].
    + apply IH.
Qed.

(** Forgetting every tracked id, in tracking order, empties the tracker,
    duplicates included. *)
Lemma forget_fold_all (tracked : list string) :
  fold_left
    (fun tracked order_id =>
       if Py.mem order_id tracked
       then Py.remove_first order_id tracked else tracked)
    tracked tracked = [].
Proof.
  induction tracked as [| x rest IH]; simpl; [reflexivity |].
  unfold Py.mem at 1. simpl. rewrite String.eqb_refl. simpl. exact IH.
Qed.

Lemma ids_where_length {R} (test : R -> bool) (replies : list (string * R)) :
  (List.length (ids_where test replies) <= List.length replies)%nat.
Proof.
  unfold ids_where. rewrite length_map. apply filter_length_le.
Qed.

Lemma ids_where_all {R} (test : R -> bool) (replies : list (string * R)) :
  forallb (fun p => test (snd p)) replies = true ->
  ids_where test replies = map fst replies.
Proof.
  intro Hall. unfold ids_where. f_equal.
  induction replies as [| p rest IH]; simpl in *; [reflexivity |].
  apply andb_true_iff in Hall as [Hp Hrest]. rewrite Hp. f_equal.
  now apply IH.
Qed.

Section TrackerTrace.
Context {E : Type} {client : ExchangeClient E}.
Variable cfg : Config.

Lemma cancel_replies_length (ids : list string) (ex : E) :
  List.length (cancel_replies (symbol cfg) ids ex) = List.length ids.
Proof. rewrite <- (cancel_replies_ids cfg ids ex) at 2. now rewrite length_map. Qed.

Lemma fetch_replies_length (ids : list string) (ex : E) :
  List.length (fetch_replies (symbol cfg) ids ex) = List.length ids.
Proof. rewrite <- (fetch_replies_ids cfg ids ex) at 2. now rewrite length_map. Qed.

(** The loop of [cancel_open_orders] sends one cancellation per id, in
    order, and touches nothing but the exchange. *)
Lemma cancel_each_requests (ids : list string) :
  forall (acc : Z * list string) (w : World E),
    requests (snd (OrderManager.cancel_each cfg ids acc w))
    = requests w ++ map (fun id => ReqCancel id (symbol cfg)) ids.
Proof.
  induction ids as [| x rest IH]; intros acc w; simpl.
  - now rewrite app_nil_r.
  - unfold bind, OrderManager.cancel_one, try_except, bind,
      exchange_cancel_order.
    destruct (cancel_order x (symbol cfg) (exchange w))
      as [[[] | msg] ex']; simpl;
      [| destruct (OrderManager.already_gone msg); simpl];
      rewrite IH; simpl; now rewrite <- app_assoc.
Qed.

Lemma cleanup_each_requests (ids : list string) :
  forall (acc : Z * list string) (w : World E),
    requests (snd (OrderManager.cleanup_each cfg ids acc w))
    = requests w ++ map (fun id => ReqFetch id (symbol cfg)) ids.
Proof.
  induction ids as [| x rest IH]; intros acc w; simpl.
  - now rewrite app_nil_r.
  - unfold bind, OrderManager.cleanup_one, try_except, bind,
      exchange_fetch_order.
    destruct (fetch_order x (symbol cfg) (exchange w))
      as [[[order_id [status |]] | msg] ex']; cbv beta iota zeta;
      cbn [eo_status];
      repeat match goal with
             | |- context [if ?b then _ else _] => destruct b
             end;
      unfold ret; rewrite IH; cbn [requests set_exchange];
      now rewrite <- app_assoc.
Qed.

(** What one run of [cancel_open_orders] sends and keeps. *)
Lemma cancel_open_orders_run (w : World E) :
  exists count w',
    OrderManager.cancel_open_orders cfg w = (Ok count, w')
    /\ requests w'
       = requests w
         ++ map (fun id => ReqCancel id (symbol cfg)) (open_orders w)
    /\ (forall id, In id (open_orders w') -> In id (open_orders w)).
Proof.
  unfold OrderManager.cancel_open_orders, bind, gets.
  destruct (open_orders w) as [| x rest] eqn:Htracked.
  - exists 0%Z, w. rewrite Htracked. simpl. rewrite app_nil_r.
    repeat split; tauto.
  - pose proof (cancel_each_requests (x :: rest) (0%Z, []) w) as Hreq.
    destruct (cancel_each_run cfg (x :: rest) (0%Z, []) w)
      as (w1 & Hrun & Hopen).
    rewrite Hrun in Hreq |- *. cbn [snd] in Hreq.
    unfold OrderManager.forget, modify, ret. cbn [fst snd].
    eexists; eexists. split; [reflexivity |].
    cbn [requests open_orders set_open_orders].
    rewrite Hopen, Htracked.
    split; [exact Hreq | apply forget_fold_incl].
Qed.

(** X9.  [cancel_open_orders] sends exactly one cancellation per tracked
    id, in tracking order, and nothing else; it never starts tracking an
    id (the tracker can only shrink); and the count it returns lies
    between 0 and the number of ids that were tracked.  This holds with
    duplicate ids too. *)
Theorem cancel_open_orders_trace (w : World E) :
  exists count w',
    OrderManager.cancel_open_orders cfg w = (Ok count, w')
    /\ requests w'
       = requests w
         ++ map (fun id => ReqCancel id (symbol cfg)) (open_orders w)
    /\ (0 <= count <= Z.of_nat (List.length (open_orders w)))%Z
    /\ (forall id, In id (open_orders w') -> In id (open_orders w))
    /\ (List.length (open_orders w') <= List.length (open_orders w))%nat.
Proof.
  unfold OrderManager.cancel_open_orders, bind, gets.
  destruct (open_orders w) as [| x rest] eqn:Htracked.
  - exists 0%Z, w. rewrite Htracked. simpl. rewrite app_nil_r.
    repeat split; try lia; try tauto.
  - pose proof (cancel_each_requests (x :: rest) (0%Z, []) w) as Hreq.
    destruct (cancel_each_run cfg (x :: rest) (0%Z, []) w)
      as (w1 & Hrun & Hopen).
    rewrite Hrun in Hreq |- *. cbn [snd] in Hreq.
    unfold OrderManager.forget, modify, ret. cbn [fst snd].
    eexists; eexists. split; [reflexivity |].
    cbn [requests open_orders set_open_orders].
    rewrite Hopen, Htracked.
    split; [exact Hreq |]. split; [| apply forget_fold_incl].
    unfold count_where.
    pose proof (ids_where_length cancelled
                  (cancel_replies (symbol cfg) (x :: rest) (exchange w))).
    rewrite cancel_replies_length in H. lia.
Qed.

(** X10.  [cleanup_completed_orders] only queries: it sends exactly one
    status query per tracked id, in tracking order, and never a
    cancellation or an order; the tracker can only shrink, and the count
    lies between 0 and the number of ids that were tracked. *)
Theorem cleanup_trace (w : World E) :
  exists count w',
    OrderManager.cleanup_completed_orders cfg w = (Ok count, w')
    /\ requests w'
       = requests w
         ++ map (fun id => ReqFetch id (symbol cfg)) (open_orders w)
    /\ (0 <= count <= Z.of_nat (List.length (open_orders w)))%Z
    /\ (forall id, In id (open_orders w') -> In id (open_orders w))
    /\ (List.length (open_orders w') <= List.length (open_orders w))%nat.
Proof.
  unfold OrderManager.cleanup_completed_orders, bind, gets.
  destruct (open_orders w) as [| x rest] eqn:Htracked.
  - exists 0%Z, w. rewrite Htracked. simpl. rewrite app_nil_r.
    repeat split; try lia; try tauto.
  - pose proof (cleanup_each_requests (x :: rest) (0%Z, []) w) as Hreq.
    destruct (cleanup_each_run cfg (x :: rest) (0%Z, []) w)
      as (w1 & Hrun & Hopen).
    rewrite Hrun in Hreq |- *. cbn [snd] in Hreq.
    unfold OrderManager.forget, modify, ret. cbn [fst snd].
    eexists; eexists. split; [reflexivity |].
    cbn [requests open_orders set_open_orders].
    rewrite Hopen, Htracked.
    split; [exact Hreq |]. split; [| apply forget_fold_incl].
    unfold count_where.
    pose proof (ids_where_length completed
                  (fetch_replies (symbol cfg) (x :: rest) (exchange w))).
    rewrite fetch_replies_length in H. lia.
Qed.

(** The final cleanup of the run loop is [cancel_open_orders] behind a
    test of the count, which changes nothing. *)
Lemma final_cleanup_is_cancel (w : World E) :
  StandaloneVolumeBot.final_cleanup cfg w
  = OrderManager.cancel_open_orders cfg w.
Proof.
  unfold StandaloneVolumeBot.final_cleanup,
    OrderManager.get_open_order_count,
    VolumeGenerationStrategy.cancel_open_orders,
    OrderManager.cancel_open_orders, bind, gets, ret.
  destruct (open_orders w) as [| x rest] eqn:Htracked; simpl;
    try rewrite Htracked; reflexivity.
Qed.

(** X11.  When every cancellation goes through or fails with a message
    that reads "not found" or "already", the final cleanup of the run loop
    (and [cancel_open_orders], which it calls) leaves the tracker empty,
    even when an id is tracked more than once. *)
Theorem final_cleanup_empties_tracker (w : World E) :
  forallb (fun p => forgotten_on_cancel (snd p))
    (cancel_replies (symbol cfg) (open_orders w) (exchange w)) = true ->
  open_orders (snd (StandaloneVolumeBot.final_cleanup cfg w)) = []
  /\ open_orders (snd (OrderManager.cancel_open_orders cfg w)) = [].
Proof.
  intro Hall. rewrite final_cleanup_is_cancel.
  assert (Hempty :
            open_orders (snd (OrderManager.cancel_open_orders cfg w)) = []).
  { unfold OrderManager.cancel_open_orders, bind, gets.
    destruct (open_orders w) as [| x rest] eqn:Htracked.
    + simpl. exact Htracked.
    + destruct (cancel_each_run cfg (x :: rest) (0%Z, []) w)
        as (w1 & Hrun & Hopen).
      rewrite Hrun. unfold OrderManager.forget, modify, ret.
      cbn [fst snd app open_orders set_open_orders].
      rewrite Hopen, Htracked, (ids_where_all _ _ Hall).
      rewrite cancel_replies_ids. apply forget_fold_all. }
  now split.
Qed.
End TrackerTrace.

(** Ids "a", "b" and "a" again: every cancellation succeeds or reports
    the order gone, and the tracker ends empty. *)
Lemma final_cleanup_empties_tracker_example :
  forallb (fun p => forgotten_on_cancel (snd p))
    (cancel_replies (symbol (default_config "up"))
       (open_orders (fresh_world tracker_script ["a"; "b"; "a"]%string))
       (exchange (fresh_world tracker_script ["a"; "b"; "a"]%string)))
  = true
  /\ open_orders
       (snd (StandaloneVolumeBot.final_cleanup (default_config "up")
               (fresh_world tracker_script ["a"; "b"; "a"]%string))) = []
  /\ open_orders
       (snd (OrderManager.cancel_open_orders (default_config "up")
               (fresh_world tracker_script ["a"; "b"; "a"]%string))) = [].
Proof.
  assert (Hall :
            forallb (fun p => forgotten_on_cancel (snd p))
              (cancel_replies (symbol (default_config "up"))
                 (open_orders
                    (fresh_world tracker_script ["a"; "b"; "a"]%string))
                 (exchange
                    (fresh_world tracker_script ["a"; "b"; "a"]%string)))
            = true) by (vm_compute; reflexivity).
  split; [exact Hall |].
  exact (final_cleanup_empties_tracker (default_config "up")
           (fresh_world tracker_script ["a"; "b"; "a"]%string) Hall).
Defined.

(** ** Live placement *)

Section LivePlacement.
Context {E : Type} {client : ExchangeClient E}.
Variable cfg : Config.

(** What a live [place_order] at a non-zero price does. *)
Lemma live_limit_order_run
  (side : Side) (amount price : Q) (w : World E) :
  Qeq_bool price 0 = false ->
  exists result w',
    OrderManager.place_order cfg side amount (Some price) false w
    = (Ok result, w')
    /\ requests w'
       = requests w ++ [ReqLimitOrder (symbol cfg) side amount price]
    /\ match fst (create_limit_order (symbol cfg) side amount price
                    (exchange w)) with
       | Ok order =>
           result = Submitted order
           /\ open_orders w'
              = open_orders w
                ++ match OrderManager.tracked_id order with
                   | Some id => [id]
                   | None => []
                   end
       | Raise msg => result = Failed msg /\ open_orders w' = open_orders w
       end.
Proof.
  intro Hprice.
  unfold OrderManager.place_order, OrderManager.place_order_try,
    OrderManager.truthy, try_except, bind, exchange_create_limit_order.
  rewrite Hprice. cbn [negb].
  destruct (create_limit_order (symbol cfg) side amount price (exchange w))
    as [[order | msg] ex']; cbn [fst snd].
  - destruct (OrderManager.tracked_id order) as [id |];
      eexists; eexists; (split; [reflexivity |]);
      cbn [requests open_orders set_exchange set_open_orders];
      rewrite ?app_nil_r; repeat split.
  - eexists; eexists. split; [reflexivity |].
    cbn [requests open_orders set_exchange]. repeat split.
Qed.

(** X12.  A live [place_order] with a non-zero price sends one limit order
    and nothing else.  When the exchange accepts it, the method returns
    the exchange's order and starts tracking its id (if it has a non-empty
    one), after the ids already tracked; when the exchange refuses, the
    method returns the error dict with the exchange's message and the
    tracker is as before. *)
Theorem live_limit_order_is_tracked
  (side : Side) (amount price : Q) (w : World E) :
  Qeq_bool price 0 = false ->
  exists result w',
    OrderManager.place_order cfg side amount (Some price) false w
    = (Ok result, w')
    /\ requests w'
       = requests w ++ [ReqLimitOrder (symbol cfg) side amount price]
    /\ exchange w'
       = snd (create_limit_order (symbol cfg) side amount price
                (exchange w))
    /\ match fst (create_limit_order (symbol cfg) side amount price
                    (exchange w)) with
       | Ok order =>
           result = Submitted order
           /\ open_orders w'
              = open_orders w
                ++ match OrderManager.tracked_id order with
                   | Some id => [id]
                   | None => []
                   end
       | Raise msg => result = Failed msg /\ open_orders w' = open_orders w
       end.
Proof.
  intro Hprice.
  unfold OrderManager.place_order, OrderManager.place_order_try,
    OrderManager.truthy, try_except, bind, exchange_create_limit_order.
  rewrite Hprice. cbn [negb].
  destruct (create_limit_order (symbol cfg) side amount price (exchange w))
    as [[order | msg] ex']; cbn [fst snd].
  - destruct (OrderManager.tracked_id order) as [id |];
      eexists; eexists; (split; [reflexivity |]);
      cbn [requests exchange open_orders set_exchange set_open_orders];
      rewrite ?app_nil_r; repeat split.
  - eexists; eexists. split; [reflexivity |].
    cbn [requests exchange open_orders set_exchange]. repeat split.
Qed.

(** X13.  A live [place_order] without a price ([None], the default) sends
    one market order.  When the exchange accepts it, the order is on the
    exchange and its id is tracked, and yet the method returns the error
    dict: formatting the price in the log line raises before the order is
    returned.  With a price of zero the market order is sent, tracked and
    returned. *)
Theorem live_market_order_without_price (side : Side) (amount : Q)
  (w : World E) :
  (exists result w',
     OrderManager.place_order cfg side amount None false w = (Ok result, w')
     /\ requests w' = requests w ++ [ReqMarketOrder (symbol cfg) side amount]
     /\ match fst (create_market_order (symbol cfg) side amount
                     (exchange w)) with
        | Ok order =>
            result = Failed Py.none_format_error
            /\ open_orders w'
               = open_orders w
                 ++ match OrderManager.tracked_id order with
                    | Some id => [id]
                    | None => []
                    end
        | Raise msg => result = Failed msg /\ open_orders w' = open_orders w
        end)
  /\ (exists result w',
        OrderManager.place_order cfg side amount (Some 0) false w
        = (Ok result, w')
        /\ requests w'
           = requests w ++ [ReqMarketOrder (symbol cfg) side amount]
        /\ match fst (create_market_order (symbol cfg) side amount
                        (exchange w)) with
           | Ok order =>
               result = Submitted order
               /\ open_orders w'
                  = open_orders w
                    ++ match OrderManager.tracked_id order with
                       | Some id => [id]
                       | None => []
                       end
           | Raise msg =>
               result = Failed msg /\ open_orders w' = open_orders w
           end).
Proof.
  split;
    unfold OrderManager.place_order, OrderManager.place_order_try,
      OrderManager.truthy, OrderManager.format_price, try_except, bind,
      raise, exchange_create_market_order;
    try change (negb (Qeq_bool 0 0)) with false; cbv beta iota;
    (destruct (create_market_order (symbol cfg) side amount (exchange w))
       as [[order | msg] ex']; cbn [fst snd];
     [ destruct (OrderManager.tracked_id order) as [id |];
       eexists; eexists; (split; [reflexivity |]);
       cbn [requests exchange open_orders set_exchange set_open_orders];
       rewrite ?app_nil_r; repeat split
     | eexists; eexists; (split; [reflexivity |]);
       cbn [requests exchange open_orders set_exchange]; repeat split ]).
Qed.
End LivePlacement.

(** A limit order at 100 on the scripted exchange: the id "limit-1" is
    tracked after the ids already there. *)
Lemma live_limit_order_is_tracked_example :
  Qeq_bool 100 0 = false
  /\ (exists w',
        OrderManager.place_order (default_config "up") buy 1 (Some 100)
          false (fresh_world quiet_script ["a"%string])
        = (Ok (Submitted
                 (mkExchangeOrder (Some "limit-1"%string)
                    (Some "open"%string))), w')
        /\ open_orders w' = ["a"; "limit-1"]%string
        /\ requests w' = [ReqLimitOrder "ETH/USDT" buy 1 100]).
Proof.
  split; [reflexivity |].
  destruct (live_limit_order_is_tracked (default_config "up") buy 1 100
              (fresh_world quiet_script ["a"%string]) eq_refl)
    as (result & w' & Hrun & Hreq & _ & Hresult).
  cbn in Hresult. destruct Hresult as [-> Hopen].
  exists w'. split; [exact Hrun |]. split; [exact Hopen | exact Hreq].
Defined.

(** ** What a decision reports, and what it changes *)

Section DecisionRuns.
Context {E : Type} {client : ExchangeClient E}.
Variable np_sin : Q -> Q.
Variable cfg : Config.

Lemma determine_order_side_run (price target : Q) (w : World E) :
  exists side w',
    PriceStrategy.determine_order_side price target w = (Ok side, w')
    /\ last_order_side w' = Some side.
Proof.
  unfold PriceStrategy.determine_order_side.
  cbv [bind ret gets modify np_random_choice np_random_random].
  destruct (last_order_side w) as [prev |]; cbv beta iota;
    repeat match goal with
           | |- context [if ?b then _ else _] =>
               destruct b eqn:?; cbv beta iota
           end;
    eexists; eexists; split; reflexivity.
Qed.

Lemma price_target_in_band (price : Q) (w : World E) target w' :
  0 < price -> 0 <= max_price_deviation cfg ->
  PriceStrategy.calculate_next_price_target np_sin cfg price w
  = (Ok target, w') ->
  within_deviation cfg price target.
Proof.
  intros Hp Hd Hrun.
  destruct (price_target_try_clipped np_sin cfg price w)
    as (raw & w1 & Htry).
  unfold PriceStrategy.calculate_next_price_target, try_except in Hrun.
  rewrite Htry in Hrun. injection Hrun as <- _.
  apply np_clip_bounds.
  assert (0 <= price * max_price_deviation cfg)
    by (apply Qmult_le_0_compat; lra).
  lra.
Qed.

Lemma order_size_floor
  (balance : Q) (market_data : MarketData) (price : Q) (w : World E)
  size w' :
  0 < price ->
  VolumeGenerationStrategy.calculate_order_size cfg balance market_data
    (Some price) w = (Ok size, w') ->
  min_order_value_usdt cfg / price <= size.
Proof.
  intros Hp.
  unfold VolumeGenerationStrategy.calculate_order_size.
  cbv [bind ret lift np_random_uniform np_random_random].
  rewrite (positive_price_test price Hp).
  destruct (MarketDataProvider.get_available_liquidity
              (MarketDataProvider.orderbook_of market_data))
    as [volumes | msg]; [| discriminate].
  intro Hrun. injection Hrun as <- _. apply max_lower_bounds.
Qed.

(** One run of the analysis below the test of the price: what it reports
    and what it leaves in the world. *)
Lemma evaluate_trade_run
  (market_data : MarketData) (balance price : Q) (w : World E) d w' :
  VolumeGenerationStrategy.evaluate_trade np_sin cfg market_data balance
    price w = (Ok d, w') ->
  exists a confidence,
    d = (spread_ok a, confidence, Analysed a)
    /\ current_price a = price
    /\ order_value_usdt a = order_size a * price
    /\ (0 < price -> min_order_value_usdt cfg / price <= order_size a)
    /\ (0 < price -> 0 <= max_price_deviation cfg ->
        within_deviation cfg price (target_price a))
    /\ last_order_side w' = Some (order_side a)
    /\ exchange_state w' = exchange_state w
    /\ (spread_ok a = false -> engine_state w' = engine_state w)
    /\ (spread_ok a = true ->
        exists t,
          engine_state w'
          = (Some t, volume_generated_today_usdt w + order_value_usdt a,
             (order_count w + 1)%Z)).
Proof.
  unfold VolumeGenerationStrategy.evaluate_trade. intro H.
  apply bind_ok_inv in H as (target & w1 & Htarget & H).
  apply bind_ok_inv in H as (side & w2 & Hside & H).
  apply bind_ok_inv in H as (size & w3 & Hsize & H).
  apply bind_ok_inv in H as (spread_now & w4 & Hspread & H).
  apply bind_ok_inv in H as (volume & w5 & Hvolume & H).
  apply bind_ok_inv in H as (now & w6 & Hnow & H).
  apply bind_ok_inv in H as (u & w7 & Hupdate & H).
  apply ret_inv in H as [<- <-].
  unfold lift in Hspread. injection Hspread as Hspread <-.
  unfold gets in Hvolume. injection Hvolume as <- <-.
  unfold datetime_now in Hnow. injection Hnow as <- <-.
  destruct (determine_order_side_run price target w1)
    as (side' & w2' & Hside' & Hlast).
  unfold VolumeGenerationStrategy.determine_order_side in Hside.
  rewrite Hside' in Hside. injection Hside as <- <-.
  assert (He1 : engine_state w1 = engine_state w)
    by (eapply keeps_run; [apply price_target_keeps_engine | exact Htarget]).
  assert (He2 : engine_state w2' = engine_state w1).
  { eapply (keeps_run (@engine_state E)
              (VolumeGenerationStrategy.determine_order_side price target));
      [apply order_side_keeps_engine | exact Hside']. }
  assert (He3 : engine_state w3 = engine_state w2')
    by (eapply keeps_run; [apply order_size_keeps_engine | exact Hsize]).
  assert (Hx1 : exchange_state w1 = exchange_state w).
  { eapply (keeps_run (@exchange_state E)); [| exact Htarget].
    unfold VolumeGenerationStrategy.calculate_next_price_target.
    keeps_auto. }
  assert (Hx2 : exchange_state w2' = exchange_state w1).
  { eapply (keeps_run (@exchange_state E)); [| exact Hside']. keeps_auto. }
  assert (Hx3 : exchange_state w3 = exchange_state w2').
  { eapply (keeps_run (@exchange_state E)); [| exact Hsize]. keeps_auto. }
  assert (Hl3 : last_order_side w3 = last_order_side w2').
  { eapply (keeps_run (@last_order_side E)); [| exact Hsize]. keeps_auto. }
  unfold engine_state, exchange_state in *.
  destruct (Qle_bool spread_now (max_spread_threshold cfg)) eqn:Hok;
    cbn in Hupdate; injection Hupdate as _ <-;
    (eexists (mkAnalysis _ _ _ _ _ _ _ _ _), _; split; [reflexivity |]);
    cbn [current_price order_value_usdt order_size target_price order_side
         spread_ok];
    (split; [reflexivity |]); (split; [reflexivity |]);
    (split; [intro Hp; eapply order_size_floor; eassumption |]);
    (split; [intros Hp Hd; eapply price_target_in_band; eassumption |]);
    cbn [last_order_side exchange requests open_orders last_order_time
         volume_generated_today_usdt order_count
         set_volume_generated_today_usdt set_order_count
         set_last_order_time set_clock];
    (split; [congruence |]); (split; [congruence |]).
  - split; [discriminate |]. intros _. eexists.
    injection He1 as _ Hv1 Hc1. injection He2 as _ Hv2 Hc2.
    injection He3 as _ Hv3 Hc3.
    rewrite Hv3, Hv2, Hv1, Hc3, Hc2, Hc1. reflexivity.
  - split; [intros _; congruence | discriminate].
Qed.
End DecisionRuns.

Section DecisionFacts.
Context {E : Type} {client : ExchangeClient E}.
Variable np_sin : Q -> Q.
Variable cfg : Config.

Lemma evaluate_trade_keeps_exchange
  (market_data : MarketData) (balance price : Q) :
  keeps (@exchange_state E)
    (VolumeGenerationStrategy.evaluate_trade np_sin cfg market_data balance
       price).
Proof.
  unfold VolumeGenerationStrategy.evaluate_trade. keeps_auto.
Qed.

(** The runs of [should_trade] that come back with a decision other than
    the three early rejections went through the analysis. *)
Lemma should_trade_try_inv
  (market_data : option MarketData) (balance : Q) (w : World E) d w' :
  VolumeGenerationStrategy.should_trade_try np_sin cfg market_data balance w
  = (Ok d, w') ->
  should_place_of d = true \/ (exists a, diagnostics_of d = Analysed a) ->
  exists data w1 w2 price,
    market_data = Some data
    /\ VolumeGenerationStrategy.should_place_order cfg w = (Ok true, w1)
    /\ engine_state w2 = engine_state w
    /\ MarketDataProvider.last_price_of data = PyFloat price
    /\ 0 < price
    /\ VolumeGenerationStrategy.evaluate_trade np_sin cfg data balance
         price w2 = (Ok d, w').
Proof.
  intros Hrun Hshape.
  assert (Hno : forall msg,
            d <> (false, 0, Error msg) /\ d <> (false, 0, WaitingForTiming)).
  { intro msg. split; intros ->; destruct Hshape as [H | [a H]];
      discriminate H. }
  destruct market_data as [data |]; simpl in Hrun.
  - apply bind_ok_inv in Hrun as (due & w1 & Hdue & Hrun).
    destruct due; simpl in Hrun.
    + apply bind_ok_inv in Hrun as (u & w2 & Hcancel & Hrun).
      apply bind_ok_inv in Hrun as (price & w3 & Hprice & Hrun).
      unfold VolumeGenerationStrategy.compared_price in Hprice.
      destruct (MarketDataProvider.last_price_of data) as [| p] eqn:Hlast;
        [discriminate Hprice |].
      apply ret_inv in Hprice as [<- <-].
      destruct (Qle_bool p 0) eqn:Hle.
      * apply ret_inv in Hrun as [<- _]. now destruct (Hno "Invalid current price"%string).
      * exists data, w1, w2, p. repeat split; try assumption.
        -- transitivity (engine_state w1).
           ++ eapply keeps_run; [| exact Hcancel].
              apply cancel_step_keeps; reflexivity.
           ++ eapply keeps_run;
                [apply should_place_order_keeps_engine | exact Hdue].
        -- now apply Qle_bool_false.
    + apply ret_inv in Hrun as [<- _]. now destruct (Hno ""%string).
  - apply ret_inv in Hrun as [<- _]. now destruct (Hno "No market data"%string).
Qed.

(** X14.  What an evaluated decision reports is consistent: the current
    price is the ticker's last price and is positive; the target lies in
    the band of [max_price_deviation] around it; the size is at least the
    floor [min_order_value_usdt / current_price]; the order value is the
    size times the price; and the side it reports is the one now stored as
    [last_order_side].  (That the order value reaches
    [min_order_value_usdt] is not part of this: on binary64 the product
    can round below it, see [order_value_rounds_below_minimum].) *)
Theorem evaluated_decision_is_consistent
  (market_data : option MarketData) (balance : Q) (w w' : World E)
  (placed : bool) (confidence : Q) (a : Analysis) :
  0 <= max_price_deviation cfg ->
  VolumeGenerationStrategy.should_trade np_sin cfg market_data balance w
  = ((placed, confidence, Analysed a), w') ->
  (exists data,
     market_data = Some data
     /\ MarketDataProvider.last_price_of data = PyFloat (current_price a))
  /\ 0 < current_price a
  /\ within_deviation cfg (current_price a) (target_price a)
  /\ min_order_value_usdt cfg / current_price a <= order_size a
  /\ order_value_usdt a = order_size a * current_price a
  /\ last_order_side w' = Some (order_side a).
Proof.
  intros Hd Hrun. unfold VolumeGenerationStrategy.should_trade in Hrun.
  destruct (VolumeGenerationStrategy.should_trade_try np_sin cfg
              market_data balance w) as [[d | msg] w1] eqn:Htry;
    [| discriminate Hrun].
  injection Hrun as -> ->.
  apply should_trade_try_inv in Htry; [| right; now exists a].
  destruct Htry as (data & w1 & w2 & price & -> & _ & _ & Hlast & Hp & Hev).
  apply evaluate_trade_run in Hev
    as (a' & c' & Heq & Hprice & Hvalue & Hfloor & Hband & Hside & _).
  injection Heq as _ _ <-. subst price.
  split; [now exists data |]. split; [exact Hp |].
  split; [now apply Hband |]. split; [now apply Hfloor |].
  split; [exact Hvalue | exact Hside].
Qed.

(** X15.  A decision to place is booked once: [order_count] grows by one,
    [volume_generated_today_usdt] grows by the order value the decision
    reports, and [last_order_time] is set. *)
Theorem placed_decision_is_booked
  (market_data : option MarketData) (balance : Q) (w : World E) :
  should_place_of
    (fst (VolumeGenerationStrategy.should_trade np_sin cfg market_data
            balance w)) = true ->
  exists a t,
    diagnostics_of
      (fst (VolumeGenerationStrategy.should_trade np_sin cfg market_data
              balance w)) = Analysed a
    /\ engine_state
         (snd (VolumeGenerationStrategy.should_trade np_sin cfg market_data
                 balance w))
       = (Some t, volume_generated_today_usdt w + order_value_usdt a,
          (order_count w + 1)%Z).
Proof.
  unfold VolumeGenerationStrategy.should_trade.
  destruct (VolumeGenerationStrategy.should_trade_try np_sin cfg
              market_data balance w) as [[d | msg] w1] eqn:Htry;
    cbn [fst snd]; [| discriminate].
  intro Hplaced.
  apply should_trade_try_inv in Htry; [| now left].
  destruct Htry as (data & w0 & w2 & price & _ & _ & Hengine & _ & _ & Hev).
  apply evaluate_trade_run in Hev
    as (a & c & -> & _ & _ & _ & _ & _ & _ & _ & Hbooked).
  cbn in Hplaced. destruct (Hbooked Hplaced) as [t Ht].
  exists a, t. split; [reflexivity |].
  rewrite Ht. unfold engine_state in Hengine.
  injection Hengine as _ -> ->. reflexivity.
Qed.

(** Where a run of the body of [should_trade] leaves the exchange. *)
Lemma should_trade_try_exchange
  (market_data : option MarketData) (balance : Q) (w : World E) r w' :
  VolumeGenerationStrategy.should_trade_try np_sin cfg market_data balance w
  = (r, w') ->
  (exchange_state w' = exchange_state w
   \/ requests w'
      = requests w
        ++ map (fun id => ReqCancel id (symbol cfg)) (open_orders w))
  /\ (cancel_previous_orders cfg = false
      \/ market_data = None
      \/ (exists d, r = Ok d /\ diagnostics_of d = WaitingForTiming)
      \/ open_orders w = [] ->
      exchange_state w' = exchange_state w)
  /\ (forall id, In id (open_orders w') -> In id (open_orders w)).
Proof.
  unfold VolumeGenerationStrategy.should_trade_try.
  destruct market_data as [data |];
    [| intro Hrun; injection Hrun as <- <-; repeat split; auto].
  unfold bind at 1.
  destruct (VolumeGenerationStrategy.should_place_order cfg w)
    as [[due | msg] w1] eqn:Hdue;
    assert (Hx1 : exchange_state w1 = exchange_state w)
      by (eapply (keeps_run (@exchange_state E));
          [| exact Hdue];
          unfold VolumeGenerationStrategy.should_place_order; keeps_auto);
    assert (Ho1 : open_orders w1 = open_orders w)
      by (unfold exchange_state in Hx1; congruence);
    assert (Hr1 : requests w1 = requests w)
      by (unfold exchange_state in Hx1; congruence);
    [| intro Hrun; injection Hrun as <- <-; rewrite Ho1;
       repeat split; auto].
  destruct due; cbn [negb];
    [| intro Hrun; injection Hrun as <- <-; rewrite Ho1;
       repeat split; auto].
  (* below the cancel step the exchange stays as it is found *)
  assert (Htail : forall (w2 : World E) r2 (w3 : World E),
            (price <- VolumeGenerationStrategy.compared_price
                        (MarketDataProvider.last_price_of data) ;;
             if Qle_bool price 0
             then ret (false, 0, Error "Invalid current price")
             else VolumeGenerationStrategy.evaluate_trade np_sin cfg
                    data balance price) w2 = (r2, w3) ->
            exchange_state w3 = exchange_state w2
            /\ (forall d, r2 = Ok d ->
                          diagnostics_of d <> WaitingForTiming)).
  { intros w2 r2 w3 Hrun. split.
    - eapply (keeps_run (@exchange_state E)); [| exact Hrun].
      apply keeps_bind.
      + unfold VolumeGenerationStrategy.compared_price. keeps_auto.
      + intro price. destruct (Qle_bool price 0);
          [apply keeps_ret | apply evaluate_trade_keeps_exchange].
    - intros d ->.
      apply bind_ok_inv in Hrun as (price & w4 & _ & Hrun).
      destruct (Qle_bool price 0).
      + apply ret_inv in Hrun as [<- _]. discriminate.
      + apply evaluate_trade_run in Hrun as (a & c & -> & _). discriminate. }
  destruct (cancel_previous_orders cfg) eqn:Hcancel.
  - unfold bind at 1. unfold bind at 1.
    unfold VolumeGenerationStrategy.cancel_open_orders.
    destruct (cancel_open_orders_run cfg w1)
      as (count & w2 & Hrun & Hreq & Hin).
    assert (Hidle : open_orders w = [] ->
                    exchange_state w2 = exchange_state w1).
    { intro Hnone. rewrite <- Ho1 in Hnone.
      unfold OrderManager.cancel_open_orders, bind, gets, ret in Hrun.
      rewrite Hnone in Hrun. now injection Hrun as _ <-. }
    rewrite Hrun. cbv beta iota. unfold ret at 1. cbv beta iota.
    intro Hrest. apply Htail in Hrest as [Hx2 Hnowait].
    assert (Ho2 : open_orders w' = open_orders w2)
      by (unfold exchange_state in Hx2; congruence).
    assert (Hr2 : requests w' = requests w2)
      by (unfold exchange_state in Hx2; congruence).
    split; [right; rewrite Hr2, Hreq, Hr1, Ho1; reflexivity |].
    split.
    + intros [Hoff | [Hnone | [(d & Hd & Hwait) | Hempty]]];
        [discriminate Hoff | discriminate Hnone | |].
      * exfalso. exact (Hnowait d Hd Hwait).
      * rewrite Hx2, (Hidle Hempty). exact Hx1.
    + intros id Hid. rewrite <- Ho1. apply Hin. rewrite <- Ho2. exact Hid.
  - unfold bind at 1. unfold ret at 1. cbv beta iota.
    intro Hrest. apply Htail in Hrest as [Hx2 _].
    assert (Hx3 : exchange_state w' = exchange_state w) by congruence.
    split; [left; exact Hx3 |]. split; [intros _; exact Hx3 |].
    intros id Hid. unfold exchange_state in Hx3.
    replace (open_orders w) with (open_orders w') by congruence.
    exact Hid.
Qed.

(** X16.  [should_trade] never creates an order, and it talks to the
    exchange only to cancel: after a call, either the exchange, the
    requests sent and the tracker are as before, or the requests grew by
    one cancellation per tracked id, in order.  They are as before when
    [cancel_previous_orders] is off, when there is no market data and when
    the call waits for its timing; and the tracker never gains an id. *)
Theorem should_trade_only_cancels
  (market_data : option MarketData) (balance : Q) (w : World E) :
  (exchange_state
     (snd (VolumeGenerationStrategy.should_trade np_sin cfg market_data
             balance w)) = exchange_state w
   \/ requests
        (snd (VolumeGenerationStrategy.should_trade np_sin cfg market_data
                balance w))
      = requests w
        ++ map (fun id => ReqCancel id (symbol cfg)) (open_orders w))
  /\ (cancel_previous_orders cfg = false
      \/ market_data = None
      \/ diagnostics_of
           (fst (VolumeGenerationStrategy.should_trade np_sin cfg
                   market_data balance w)) = WaitingForTiming ->
      exchange_state
        (snd (VolumeGenerationStrategy.should_trade np_sin cfg market_data
                balance w)) = exchange_state w)
  /\ (forall id,
        In id (open_orders
                 (snd (VolumeGenerationStrategy.should_trade np_sin cfg
                         market_data balance w))) ->
        In id (open_orders w)).
Proof.
  unfold VolumeGenerationStrategy.should_trade.
  destruct (VolumeGenerationStrategy.should_trade_try np_sin cfg
              market_data balance w) as [r w'] eqn:Htry.
  apply should_trade_try_exchange in Htry as (Hreq & Hsame & Hin).
  destruct r as [d | msg]; cbn [fst snd];
    (split; [exact Hreq |]); (split; [| exact Hin]);
    intros [Hoff | [Hnone | Hwait]]; apply Hsame; auto.
  - right. right. left. now exists d.
  - discriminate Hwait.
Qed.
End DecisionFacts.

(** A book of 100 / 101 at a price of 100, first call of a fresh
    strategy. *)
Lemma evaluated_decision_is_consistent_example :
  exists placed confidence a w',
    VolumeGenerationStrategy.should_trade (fun _ => 0)
      (default_config "up") (Some (snapshot 100 100 101)) 1000
      (fresh_world quiet_script [])
    = ((placed, confidence, Analysed a), w')
    /\ 0 < current_price a
    /\ within_deviation (default_config "up") (current_price a)
         (target_price a)
    /\ min_order_value_usdt (default_config "up") / current_price a
       <= order_size a
    /\ order_value_usdt a = order_size a * current_price a
    /\ last_order_side w' = Some (order_side a).
Proof.
  assert (Hd : exists a,
            diagnostics_of
              (fst (VolumeGenerationStrategy.should_trade (fun _ => 0)
                      (default_config "up") (Some (snapshot 100 100 101))
                      1000 (fresh_world quiet_script []))) = Analysed a).
  { vm_compute. eexists. reflexivity. }
  destruct (VolumeGenerationStrategy.should_trade (fun _ => 0)
              (default_config "up") (Some (snapshot 100 100 101)) 1000
              (fresh_world quiet_script []))
    as [[[placed confidence] d] w'] eqn:Hrun.
  destruct Hd as [a Hd]. cbn in Hd. subst d.
  exists placed, confidence, a, w'. split; [reflexivity |].
  assert (Hdev : 0 <= max_price_deviation (default_config "up")).
  { vm_compute. intro H. discriminate H. }
  exact (proj2 (evaluated_decision_is_consistent (fun _ => 0)
                  (default_config "up") (Some (snapshot 100 100 101)) 1000
                  (fresh_world quiet_script []) w' placed confidence a
                  Hdev Hrun)).
Defined.

Lemma placed_decision_is_booked_example :
  exists a t,
    diagnostics_of
      (fst (VolumeGenerationStrategy.should_trade (fun _ => 0)
              (default_config "up") (Some (snapshot 100 100 101)) 1000
              (fresh_world quiet_script []))) = Analysed a
    /\ engine_state
         (snd (VolumeGenerationStrategy.should_trade (fun _ => 0)
                 (default_config "up") (Some (snapshot 100 100 101)) 1000
                 (fresh_world quiet_script [])))
       = (Some t,
          volume_generated_today_usdt (fresh_world quiet_script [])
          + order_value_usdt a,
          (order_count (fresh_world quiet_script []) + 1)%Z).
Proof.
  apply (placed_decision_is_booked (fun _ => 0) (default_config "up")
           (Some (snapshot 100 100 101)) 1000 (fresh_world quiet_script [])).
  vm_compute. reflexivity.
Defined.

(** ** Validation of the configuration *)

Section Validation.

Lemma finite_some (x : Number) (q : Q) : finite x = Some q -> x = Finite q.
Proof. destruct x; intro H; now inversion H. Qed.

Lemma outside_open_false (x : Number) (hi : Q) :
  ConfigValidator.outside_open x hi = false
  <-> exists q, x = Finite q /\ 0 < q /\ q <= hi.
Proof.
  unfold ConfigValidator.outside_open. rewrite negb_false_iff, andb_true_iff.
  destruct x as [q | | |]; cbn.
  - rewrite Qlt_bool_true, Qle_bool_iff. split.
    + intros [H0 H1]. now exists q.
    + intros (q' & [= <-] & H0 & H1). now split.
  - split; [intros [H _]; discriminate H | intros (q & H & _); discriminate H].
  - split; [intros [_ H]; discriminate H | intros (q & H & _); discriminate H].
  - split; [intros [H _]; discriminate H | intros (q & H & _); discriminate H].
Qed.

Lemma outside_closed_false (x : Number) (hi : Q) :
  ConfigValidator.outside_closed x hi = false
  <-> exists q, x = Finite q /\ 0 <= q /\ q <= hi.
Proof.
  unfold ConfigValidator.outside_closed.
  rewrite negb_false_iff, andb_true_iff.
  destruct x as [q | | |]; cbn.
  - rewrite !Qle_bool_iff. split.
    + intros [H0 H1]. now exists q.
    + intros (q' & [= <-] & H0 & H1). now split.
  - split; [intros [H _]; discriminate H | intros (q & H & _); discriminate H].
  - split; [intros [_ H]; discriminate H | intros (q & H & _); discriminate H].
  - split; [intros [H _]; discriminate H | intros (q & H & _); discriminate H].
Qed.

Lemma reject_if_ok {A} (bad : bool) (msg : string)
  (k : unit -> Result A) (v : A) :
  ConfigValidator.and_then (ConfigValidator.reject_if bad msg) k = Ok v
  <-> bad = false /\ k tt = Ok v.
Proof.
  destruct bad; cbn; split.
  - intro H; discriminate H.
  - intros [H _]; discriminate H.
  - intro H; now split.
  - now intros [_ H].
Qed.

Lemma int_then_ok {A} (x : Number) (k : Z -> Result A) (v : A) :
  ConfigValidator.and_then (ConfigValidator.int x) k = Ok v
  <-> exists q, x = Finite q /\ k (ConfigValidator.trunc q) = Ok v.
Proof.
  destruct x as [q | | |]; cbn; split;
    try (intro H; discriminate H);
    try (intros (q' & H & _); discriminate H).
  - intro H. now exists q.
  - now intros (q' & [= <-] & H).
Qed.

(** [int] truncates: on a number that is at least 1 the result is still at
    least 1, is not above the number and is less than 1 below it. *)
Lemma trunc_bounds (x : Q) :
  1 <= x ->
  1 <= inject_Z (ConfigValidator.trunc x)
  /\ inject_Z (ConfigValidator.trunc x) <= x
  /\ x < inject_Z (ConfigValidator.trunc x) + 1.
Proof.
  destruct x as [n d]. unfold ConfigValidator.trunc, Qle, Qlt, Qplus.
  cbn [Qnum Qden inject_Z]. intro H.
  assert (Hn : (0 <= n)%Z) by lia.
  rewrite Z.quot_div_nonneg by lia.
  pose proof (Z.mul_div_le n (Z.pos d) ltac:(lia)) as Hle.
  pose proof (Z.mul_succ_div_gt n (Z.pos d) ltac:(lia)) as Hgt.
  assert (Hq : (1 <= n / Z.pos d)%Z) by (apply Z.div_le_lower_bound; lia).
  change (Z.pos (1 * 1)) with 1%Z.
  generalize dependent (n / Z.pos d)%Z. intros q Hle Hgt Hq.
  repeat split; lia.
Qed.

Lemma trunc_of_integer (z : Z) : ConfigValidator.trunc (inject_Z z) = z.
Proof. unfold ConfigValidator.trunc. cbn. apply Z.quot_1_r. Qed.

(** The checks a dict passes when it is accepted, and the dict that is
    returned for it. *)
Lemma validate_strategy_config_ok (config v : StrategyDict) :
  ConfigValidator.validate_strategy_config config = Ok v
  <-> let target_volume :=
        ConfigValidator.get (d_target_volume_usdt_per_hour config)
          (Finite DEFAULT_TARGET_VOLUME_USDT_PER_HOUR) in
      let direction :=
        ConfigValidator.get (d_price_walk_direction config)
          DEFAULT_PRICE_WALK_DIRECTION in
      let max_deviation :=
        ConfigValidator.get (d_max_price_deviation config)
          (Finite DEFAULT_MAX_PRICE_DEVIATION) in
      let frequency :=
        ConfigValidator.get (d_order_frequency config)
          (Finite DEFAULT_ORDER_FREQUENCY_SECONDS) in
      let min_ratio :=
        ConfigValidator.get (d_min_order_ratio config)
          (Finite DEFAULT_MIN_ORDER_RATIO) in
      let max_ratio :=
        ConfigValidator.get (d_max_order_ratio config)
          (Finite DEFAULT_MAX_ORDER_RATIO) in
      let size_rand :=
        ConfigValidator.get (d_size_randomization config)
          (Finite DEFAULT_SIZE_RANDOMIZATION) in
      let timing_rand :=
        ConfigValidator.get (d_timing_randomization config)
          (Finite DEFAULT_TIMING_RANDOMIZATION) in
      let burst_prob :=
        ConfigValidator.get (d_burst_probability config)
          (Finite DEFAULT_BURST_PROBABILITY) in
      let quiet_prob :=
        ConfigValidator.get (d_quiet_probability config)
          (Finite DEFAULT_QUIET_PROBABILITY) in
      let min_value :=
        ConfigValidator.get (d_min_order_value_usdt config)
          (Finite DEFAULT_MIN_ORDER_VALUE_USDT) in
      let spread_threshold :=
        ConfigValidator.get (d_max_spread_threshold config)
          (Finite DEFAULT_MAX_SPREAD_THRESHOLD) in
      Number_le target_volume (Finite 0) = false
      /\ In direction PRICE_WALK_DIRECTIONS
      /\ ConfigValidator.outside_open max_deviation 0.1 = false
      /\ (exists q,
            frequency = Finite q /\ 1 <= q
            /\ v = mkStrategyDict
                     (Some target_volume) (Some direction)
                     (Some max_deviation)
                     (Some (Finite (inject_Z (ConfigValidator.trunc q))))
                     (Some min_ratio) (Some max_ratio) (Some size_rand)
                     (Some timing_rand) (Some burst_prob) (Some quiet_prob)
                     (Some min_value) (Some spread_threshold)
                     (Some (ConfigValidator.get
                              (d_cancel_previous_orders config) true)))
      /\ ConfigValidator.outside_open min_ratio 1 = false
      /\ ConfigValidator.outside_open max_ratio 1 = false
      /\ Number_le max_ratio min_ratio = false
      /\ ConfigValidator.outside_closed size_rand 1 = false
      /\ ConfigValidator.outside_closed timing_rand 1 = false
      /\ ConfigValidator.outside_closed burst_prob 1 = false
      /\ ConfigValidator.outside_closed quiet_prob 1 = false
      /\ Number_le min_value (Finite 0) = false
      /\ ConfigValidator.outside_open spread_threshold 1 = false.
Proof.
  unfold ConfigValidator.validate_strategy_config. cbv zeta. split.
  - intro H.
    apply reject_if_ok in H as [H1 H].
    apply reject_if_ok in H as [H2 H].
    apply reject_if_ok in H as [H3 H].
    apply reject_if_ok in H as [H4 H].
    apply int_then_ok in H as (q & Hq & H).
    apply reject_if_ok in H as [H5 H].
    apply reject_if_ok in H as [H6 H].
    apply reject_if_ok in H as [H7 H].
    apply reject_if_ok in H as [H8 H].
    apply reject_if_ok in H as [H9 H].
    apply reject_if_ok in H as [H10 H].
    apply reject_if_ok in H as [H11 H].
    apply reject_if_ok in H as [H12 H].
    apply reject_if_ok in H as [H13 H].
    injection H as <-.
    apply negb_false_iff, mem_true_iff in H2.
    rewrite Hq in H4. cbn in H4. apply Qlt_bool_false in H4.
    repeat split; try assumption.
    exists q. repeat split; assumption.
  - intros (H1 & H2 & H3 & (q & Hq & H4 & ->) & H5 & H6 & H7 & H8 & H9 & H10
            & H11 & H12 & H13).
    apply reject_if_ok; split; [exact H1 |].
    apply reject_if_ok; split;
      [now apply negb_false_iff, mem_true_iff |].
    apply reject_if_ok; split; [exact H3 |].
    apply reject_if_ok; split;
      [rewrite Hq; cbn; now apply Qlt_bool_false |].
    apply int_then_ok. exists q. split; [exact Hq |].
    apply reject_if_ok; split; [exact H5 |].
    apply reject_if_ok; split; [exact H6 |].
    apply reject_if_ok; split; [exact H7 |].
    apply reject_if_ok; split; [exact H8 |].
    apply reject_if_ok; split; [exact H9 |].
    apply reject_if_ok; split; [exact H10 |].
    apply reject_if_ok; split; [exact H11 |].
    apply reject_if_ok; split; [exact H12 |].
    apply reject_if_ok; split; [exact H13 |].
    reflexivity.
Qed.

(** On a dict of finite numbers the checks read as [in_range] of the
    attributes. *)
Lemma validate_finite_config_ok
  (sym : string) (config v : StrategyDict) (c : Config) :
  strategy_attributes sym config = Some c ->
  ConfigValidator.validate_strategy_config config = Ok v
  <-> in_range c
      /\ v = mkStrategyDict
               (Some (Finite (target_volume_usdt_per_hour c)))
               (Some (price_walk_direction c))
               (Some (Finite (max_price_deviation c)))
               (Some (Finite (inject_Z
                                (ConfigValidator.trunc (order_frequency c)))))
               (Some (Finite (min_order_ratio c)))
               (Some (Finite (max_order_ratio c)))
               (Some (Finite (size_randomization c)))
               (Some (Finite (timing_randomization c)))
               (Some (Finite (burst_probability c)))
               (Some (Finite (quiet_probability c)))
               (Some (Finite (min_order_value_usdt c)))
               (Some (Finite (max_spread_threshold c)))
               (Some (cancel_previous_orders c)).
Proof.
  intro Hc. rewrite validate_strategy_config_ok. cbv zeta.
  unfold strategy_attributes, and_also in Hc.
  repeat match type of Hc with
         | match finite ?x with _ => _ end = _ =>
             let q := fresh "q" in
             let Hq := fresh "Hq" in
             destruct (finite x) as [q |] eqn:Hq;
             [apply finite_some in Hq; rewrite Hq | discriminate Hc]
         end.
  injection Hc as <-.
  unfold in_range.
  cbn [target_volume_usdt_per_hour price_walk_direction max_price_deviation
       order_frequency min_order_ratio max_order_ratio size_randomization
       timing_randomization burst_probability quiet_probability
       min_order_value_usdt max_spread_threshold cancel_previous_orders].
  rewrite !outside_open_false, !outside_closed_false.
  cbn [Number_le]. rewrite !Qle_bool_false.
  split.
  - intros (G1 & G2 & (x3 & E3 & G3) & (x4 & E4 & G4 & ->)
            & (x5 & E5 & G5) & (x6 & E6 & G6) & G7
            & (x8 & E8 & G8) & (x9 & E9 & G9)
            & (x10 & E10 & G10) & (x11 & E11 & G11) & G12
            & (x13 & E13 & G13)).
    injection E3 as <-. injection E4 as <-. injection E5 as <-.
    injection E6 as <-. injection E8 as <-. injection E9 as <-.
    injection E10 as <-. injection E11 as <-. injection E13 as <-.
    split; [| reflexivity]. intuition lra.
  - intros [Hr ->].
    repeat match goal with
           | |- _ /\ _ => split
           | |- exists q, Finite ?x = Finite q /\ _ =>
               exists x; split; [reflexivity |]
           end;
      try reflexivity; intuition lra.
Qed.
End Validation.

(** X17.  For a dict whose numbers are finite (no NaN, no infinity),
    [validate_strategy_config] accepts the dict exactly when the attributes
    a strategy would read from it (each key with its default) are in
    range: a positive target volume, one of the four walk directions, a
    deviation in (0, 0.1], a frequency of at least 1, ratios with
    0 < min < max <= 1, the four randomisation and probability knobs in
    [0, 1], a positive minimum order value and a spread threshold in
    (0, 1].  Any other dict of finite numbers raises. *)
Theorem strategy_config_accepted_iff_in_range
  (sym : string) (config : StrategyDict) (attributes : Config) :
  strategy_attributes sym config = Some attributes ->
  (exists validated,
     ConfigValidator.validate_strategy_config config = Ok validated)
  <-> in_range attributes.
Proof.
  intro Hfinite. split.
  - intros [v Hv].
    now apply (validate_finite_config_ok sym config v attributes Hfinite)
      in Hv.
  - intro Hr. eexists.
    apply (validate_finite_config_ok sym config _ attributes Hfinite).
    split; [exact Hr | reflexivity].
Qed.

(** A dict that sets only a frequency of 90.5 seconds. *)
Lemma strategy_config_accepted_iff_in_range_example :
  exists attributes,
    strategy_attributes "ETH/USDT"
      (mkStrategyDict None None None (Some (Finite 90.5)) None None None
         None None None None None None) = Some attributes
    /\ ((exists validated,
           ConfigValidator.validate_strategy_config
             (mkStrategyDict None None None (Some (Finite 90.5)) None None
                None None None None None None None) = Ok validated)
        <-> in_range attributes).
Proof.
  eexists. split; [reflexivity |].
  apply (strategy_config_accepted_iff_in_range "ETH/USDT"). reflexivity.
Defined.

(** X18.  Validation is idempotent: validating the dict that
    [validate_strategy_config] returned returns it unchanged (also when it
    holds a NaN or an infinity that was accepted).  When the numbers of the
    given dict are finite, the returned dict gives a strategy the
    attributes of the given one, except that [order_frequency] is
    truncated to a whole number of seconds, which is still at least 1, not
    above the given value and less than one second below it; and these
    attributes are in range. *)
Theorem validated_config_is_normal
  (sym : string) (config validated : StrategyDict) :
  ConfigValidator.validate_strategy_config config = Ok validated ->
  ConfigValidator.validate_strategy_config validated = Ok validated
  /\ forall given,
       strategy_attributes sym config = Some given ->
       exists read,
         strategy_attributes sym validated = Some read
         /\ read
            = mkConfig sym
                (target_volume_usdt_per_hour given)
                (price_walk_direction given) (max_price_deviation given)
                (inject_Z (ConfigValidator.trunc (order_frequency given)))
                (min_order_ratio given) (max_order_ratio given)
                (size_randomization given) (timing_randomization given)
                (burst_probability given) (quiet_probability given)
                (min_order_value_usdt given) (max_spread_threshold given)
                (cancel_previous_orders given)
         /\ 1 <= order_frequency read
         /\ order_frequency read <= order_frequency given
         /\ order_frequency given < order_frequency read + 1
         /\ in_range read.
Proof.
  intro Hv. split.
  - apply validate_strategy_config_ok in Hv. cbv zeta in Hv.
    destruct Hv as (H1 & H2 & H3 & (q & Hq & H4 & ->) & H5 & H6 & H7 & H8
                    & H9 & H10 & H11 & H12 & H13).
    apply validate_strategy_config_ok. cbv zeta.
    cbn [ConfigValidator.get d_target_volume_usdt_per_hour
         d_price_walk_direction d_max_price_deviation d_order_frequency
         d_min_order_ratio d_max_order_ratio d_size_randomization
         d_timing_randomization d_burst_probability d_quiet_probability
         d_min_order_value_usdt d_max_spread_threshold
         d_cancel_previous_orders].
    repeat (split; [assumption |]).
    split; [| repeat split; assumption].
    exists (inject_Z (ConfigValidator.trunc q)).
    split; [reflexivity |].
    split; [apply (trunc_bounds q H4) |].
    now rewrite trunc_of_integer.
  - intros given Hgiven.
    destruct (proj1 (validate_finite_config_ok sym config validated given
                       Hgiven) Hv) as [Hr Heq].
    subst validated.
    assert (Hfreq : 1 <= order_frequency given)
      by (unfold in_range in Hr; tauto).
    destruct (trunc_bounds _ Hfreq) as (Hlo & Hhi & Hnear).
    eexists. split; [reflexivity |]. split; [reflexivity |].
    cbn [order_frequency].
    split; [exact Hlo |]. split; [exact Hhi |]. split; [exact Hnear |].
    unfold in_range in Hr |- *.
    cbn [target_volume_usdt_per_hour price_walk_direction max_price_deviation
         order_frequency min_order_ratio max_order_ratio size_randomization
         timing_randomization burst_probability quiet_probability
         min_order_value_usdt max_spread_threshold].
    tauto.
Qed.

(** A dict that sets only a frequency of 90.5 seconds: the strategy reads
    90. *)
Lemma validated_config_is_normal_example :
  exists validated read,
    ConfigValidator.validate_strategy_config
      (mkStrategyDict None None None (Some (Finite 90.5)) None None None
         None None None None None None) = Ok validated
    /\ ConfigValidator.validate_strategy_config validated = Ok validated
    /\ strategy_attributes "ETH/USDT" validated = Some read
    /\ order_frequency read = 90.
Proof.
  destruct (ConfigValidator.validate_strategy_config
              (mkStrategyDict None None None (Some (Finite 90.5)) None None
                 None None None None None None None))
    as [validated | msg] eqn:Hv;
    [| vm_compute in Hv; discriminate Hv].
  destruct (validated_config_is_normal "ETH/USDT" _ _ Hv)
    as (Hagain & Hread).
  destruct (Hread _ eq_refl) as (read & Hattributes & -> & _).
  exists validated. eexists.
  split; [reflexivity |]. split; [exact Hagain |].
  split; [exact Hattributes |]. vm_compute. reflexivity.
Defined.

(** X26.  Which numbers that are not finite get through
    [validate_strategy_config].  In a dict it returns, the deviation, the
    frequency, the two ratios, the two randomisations, the two
    probabilities and the spread threshold are finite numbers; the target
    volume and the minimum order value are positive, or NaN or
    +infinity, because their check is [x <= 0], which is false of NaN.  So
    the dict that sets both to NaN and nothing else is accepted and
    returned with both NaN; and a frequency of +infinity passes its check
    [frequency < 1] and then makes [int] raise, which is not a
    [ConfigValidationError]. *)
Theorem non_finite_numbers_in_strategy_config :
  (forall config validated,
     ConfigValidator.validate_strategy_config config = Ok validated ->
     (exists x,
        d_target_volume_usdt_per_hour validated = Some x
        /\ passes_positive_check x)
     /\ (exists x,
           d_min_order_value_usdt validated = Some x
           /\ passes_positive_check x)
     /\ (exists q, d_max_price_deviation validated = Some (Finite q))
     /\ (exists q, d_order_frequency validated = Some (Finite q))
     /\ (exists q, d_min_order_ratio validated = Some (Finite q))
     /\ (exists q, d_max_order_ratio validated = Some (Finite q))
     /\ (exists q, d_size_randomization validated = Some (Finite q))
     /\ (exists q, d_timing_randomization validated = Some (Finite q))
     /\ (exists q, d_burst_probability validated = Some (Finite q))
     /\ (exists q, d_quiet_probability validated = Some (Finite q))
     /\ (exists q, d_max_spread_threshold validated = Some (Finite q)))
  /\ ConfigValidator.validate_strategy_config
       (mkStrategyDict (Some NaN) None None None None None None None None
          None (Some NaN) None None)
     = Ok (mkStrategyDict (Some NaN) (Some DEFAULT_PRICE_WALK_DIRECTION)
             (Some (Finite DEFAULT_MAX_PRICE_DEVIATION))
             (Some (Finite DEFAULT_ORDER_FREQUENCY_SECONDS))
             (Some (Finite DEFAULT_MIN_ORDER_RATIO))
             (Some (Finite DEFAULT_MAX_ORDER_RATIO))
             (Some (Finite DEFAULT_SIZE_RANDOMIZATION))
             (Some (Finite DEFAULT_TIMING_RANDOMIZATION))
             (Some (Finite DEFAULT_BURST_PROBABILITY))
             (Some (Finite DEFAULT_QUIET_PROBABILITY))
             (Some NaN) (Some (Finite DEFAULT_MAX_SPREAD_THRESHOLD))
             (Some true))
  /\ ConfigValidator.validate_strategy_config
       (mkStrategyDict None None None (Some PosInf) None None None None
          None None None None None)
     = Raise "cannot convert float infinity to integer".
Proof.
  split; [| split; reflexivity].
  intros config validated Hv.
  apply validate_strategy_config_ok in Hv. cbv zeta in Hv.
  destruct Hv as (H1 & H2 & H3 & (q & Hq & H4 & ->) & H5 & H6 & H7 & H8
                  & H9 & H10 & H11 & H12 & H13).
  assert (Hpositive : forall x,
            Number_le x (Finite 0) = false -> passes_positive_check x).
  { intros [x | | |] H; cbn in *; try exact I; try discriminate H.
    now apply Qle_bool_false. }
  apply outside_open_false in H3 as (q3 & -> & _).
  apply outside_open_false in H5 as (q5 & E5 & _).
  apply outside_open_false in H6 as (q6 & E6 & _).
  apply outside_closed_false in H8 as (q8 & -> & _).
  apply outside_closed_false in H9 as (q9 & -> & _).
  apply outside_closed_false in H10 as (q10 & -> & _).
  apply outside_closed_false in H11 as (q11 & -> & _).
  apply outside_open_false in H13 as (q13 & -> & _).
  rewrite E5, E6.
  cbn [d_target_volume_usdt_per_hour d_min_order_value_usdt
       d_max_price_deviation d_order_frequency d_min_order_ratio
       d_max_order_ratio d_size_randomization d_timing_randomization
       d_burst_probability d_quiet_probability d_max_spread_threshold].
  split; [eexists; split; [reflexivity | now apply Hpositive] |].
  split; [eexists; split; [reflexivity | now apply Hpositive] |].
  repeat split; eexists; reflexivity.
Qed.

(** X19.  [validate_exchange_config] accepts a dict exactly when the
    exchange name, compared in lower case, is "binance" or "gate" and the
    API key, the secret and the trading pair are set and not empty; it
    returns the dict it was given, the exchange name as written. *)
Theorem exchange_config_accepted_iff (config returned : ExchangeDict) :
  ConfigValidator.validate_exchange_config config = Ok returned
  <-> returned = config
      /\ (exists name,
            d_exchange config = Some name
            /\ (Py.lower name = "binance"%string
                \/ Py.lower name = "gate"%string))
      /\ (exists key, d_api_key config = Some key /\ key <> ""%string)
      /\ (exists secret, d_secret config = Some secret /\ secret <> ""%string)
      /\ (exists pair,
            d_trading_pair config = Some pair /\ pair <> ""%string).
Proof.
  assert (Hblank : forall value,
            ConfigValidator.blank value = false
            <-> exists s, value = Some s /\ s <> ""%string).
  { intros [s |]; cbn.
    - rewrite String.eqb_neq. split.
      + intro H. now exists s.
      + now intros (s' & [= <-] & H).
    - split; [discriminate | now intros (s & H & _)]. }
  unfold ConfigValidator.validate_exchange_config. cbv zeta.
  rewrite !reject_if_ok, !Hblank, negb_false_iff, mem_true_iff,
    String.eqb_neq.
  unfold SUPPORTED_EXCHANGES. cbn [In].
  split.
  - intros (Hne & Hin & Hk & Hs & Hp & [= <-]).
    repeat split; try assumption.
    destruct (d_exchange config) as [name |]; cbn in *.
    + exists name. split; [reflexivity |].
      destruct Hin as [H | [H | []]]; auto.
    + now destruct Hne.
  - intros (-> & (name & Hname & Hin) & Hk & Hs & Hp).
    rewrite Hname. cbn [ConfigValidator.get].
    repeat split; try assumption.
    + destruct Hin as [-> | ->]; discriminate.
    + destruct Hin as [H | H]; auto.
Qed.

(** X20.  [validate_environment_variables] returns no warning exactly
    when API_KEY and API_SECRET are both set and not empty and neither
    contains its placeholder text. *)
Theorem environment_without_warnings (getenv : string -> option string) :
  ConfigValidator.validate_environment_variables getenv = []
  <-> (exists key,
         getenv "API_KEY"%string = Some key /\ key <> ""%string
         /\ Py.contains "your_api_key_here" key = false)
      /\ (exists secret,
            getenv "API_SECRET"%string = Some secret /\ secret <> ""%string
            /\ Py.contains "your_api_secret_here" secret = false).
Proof.
  unfold ConfigValidator.validate_environment_variables. cbv zeta.
  cbn [fold_left].
  destruct (getenv "API_KEY"%string) as [key |];
    destruct (getenv "API_SECRET"%string) as [secret |];
    cbn [ConfigValidator.blank ConfigValidator.get].
  - destruct (String.eqb_spec key ""); destruct (String.eqb_spec secret "");
      destruct (Py.contains "your_api_key_here" key) eqn:Hk;
      destruct (Py.contains "your_api_secret_here" secret) eqn:Hs;
      cbn [app]; split;
      try (intro H; discriminate H);
      try (intros [(k & [= <-] & Hne & Hc) (s & [= <-] & Hne' & Hc')];
           congruence).
    intros _. split; eexists; repeat split; eauto.
  - destruct (String.eqb key ""); destruct (Py.contains "your_api_key_here" key);
      cbn; split;
      try (intro H; discriminate H);
      intros [_ (s & H & _)]; discriminate H.
  - destruct (String.eqb secret "");
      destruct (Py.contains "your_api_secret_here" secret);
      cbn; split;
      try (intro H; discriminate H);
      intros [(s & H & _) _]; discriminate H.
  - cbn. split; [intro H; discriminate H |].
    intros [(s & H & _) _]; discriminate H.
Qed.

(** ** One pass of the run loop *)

Section LoopPass.
Context {E : Type} {client : ExchangeClient E}.
Variable np_sin : Q -> Q.
Variable cfg : Config.
Variable vc : VolumeConfig.

Lemma place_order_keeps_engine
  (side : Side) (amount : Q) (price : option Q) (dry_run : bool) :
  keeps (@engine_state E)
    (OrderManager.place_order cfg side amount price dry_run).
Proof.
  intro w.
  unfold OrderManager.place_order, OrderManager.place_order_try,
    OrderManager.format_price, try_except, bind, datetime_now, modify, ret,
    raise, exchange_create_limit_order, exchange_create_market_order.
  destruct dry_run; destruct price as [p |]; cbn [OrderManager.truthy];
    try reflexivity;
    try destruct (negb (Qeq_bool p 0));
    repeat match goal with
      | |- context [create_limit_order ?s ?d ?x ?y ?e] =>
          destruct (create_limit_order s d x y e) as [[order | msg] ex']
      | |- context [create_market_order ?s ?d ?x ?e] =>
          destruct (create_market_order s d x e) as [[order | msg] ex']
      end;
    try reflexivity;
    destruct (OrderManager.tracked_id order); reflexivity.
Qed.

(** [place_order] returns a result whatever the exchange answers. *)
Lemma place_order_returns
  (side : Side) (amount : Q) (price : option Q) (dry_run : bool)
  (w : World E) :
  exists result w',
    OrderManager.place_order cfg side amount price dry_run w
    = (Ok result, w').
Proof.
  unfold OrderManager.place_order, try_except.
  destruct (OrderManager.place_order_try cfg side amount price dry_run w)
    as [[result | msg] w']; eexists; eexists; reflexivity.
Qed.

(** Once the balance allows the minimum viable size, the size sent lies
    between that size and the share of the balance. *)
Lemma sent_size_bounds (balance : Q) (a : Analysis) :
  MIN_ORDER_VALUE_USDT vc / current_price a
  <= balance * MAX_BALANCE_USAGE_RATIO ->
  MIN_ORDER_VALUE_USDT vc / current_price a <= sent_size vc balance a
  /\ sent_size vc balance a <= balance * MAX_BALANCE_USAGE_RATIO.
Proof.
  intro Hbalance. unfold sent_size.
  split; [| apply min_upper_bounds].
  apply min_greatest; [apply max_lower_bounds | exact Hbalance].
Qed.

(** A pass that found market data and a balance starts with the
    decision. *)
Lemma trade_step_run
  (data : MarketData) (balance : Q) (bot : Bot) (w w1 : World E)
  (placed : bool) (confidence : Q) (diagnostics : Diagnostics) :
  0 < balance ->
  VolumeGenerationStrategy.should_trade np_sin cfg (Some data) balance w
  = ((placed, confidence, diagnostics), w1) ->
  StandaloneVolumeBot.trade_step np_sin cfg vc (Some data) balance bot w
  = (if placed then
       match diagnostics with
       | Analysed a =>
           if Py.Qlt_bool (balance * MAX_BALANCE_USAGE_RATIO)
                (MIN_ORDER_VALUE_USDT vc / current_price a)
           then ret (bot, Some BALANCE_WARNING_WAIT)
           else if Py.Qlt_bool (sent_size vc balance a * current_price a)
                     (MIN_ORDER_VALUE_USDT vc)
           then ret (bot, Some ERROR_RETRY_WAIT)
           else
             result <- StandaloneVolumeBot.execute_order cfg vc
                         (order_side a) (sent_size vc balance a)
                         (Some (current_price a)) ;;
             match result with
             | Failed _ => ret (bot, None)
             | _ =>
                 now <- datetime_now ;;
                 ret (mkBot (total_orders bot + 1)%Z
                        (total_volume_usdt bot
                         + sent_size vc balance a * current_price a)
                        (Some now) (last_cleanup bot), None)
             end
       | _ => ret (bot, Some ERROR_RETRY_WAIT)
       end
     else ret (bot, None)) w1.
Proof.
  intros Hbalance Hrun. unfold StandaloneVolumeBot.trade_step.
  apply Qle_bool_false in Hbalance. rewrite Hbalance.
  unfold bind at 1. rewrite Hrun. cbn [should_place_of diagnostics_of fst snd].
  reflexivity.
Qed.

(** X21.  A pass of the loop never raises, and it counts at most one
    order.  When it counts one, the pass does not sleep early, the order
    was decided by [should_trade], its size is at most
    [MAX_BALANCE_USAGE_RATIO] of the balance, and the volume added to the
    statistics is the size times the price and is at least
    [MIN_ORDER_VALUE_USDT]. *)
Theorem loop_pass_counts_at_most_one_order
  (market_data : option MarketData) (balance : Q) (bot : Bot)
  (w : World E) :
  exists bot' slept w',
    StandaloneVolumeBot.trade_step np_sin cfg vc market_data balance bot w
    = (Ok (bot', slept), w')
    /\ (bot' = bot
        \/ exists a size t,
             slept = None
             /\ should_place_of
                  (fst (VolumeGenerationStrategy.should_trade np_sin cfg
                          market_data balance w)) = true
             /\ diagnostics_of
                  (fst (VolumeGenerationStrategy.should_trade np_sin cfg
                          market_data balance w)) = Analysed a
             /\ size <= balance * MAX_BALANCE_USAGE_RATIO
             /\ MIN_ORDER_VALUE_USDT vc <= size * current_price a
             /\ bot' = mkBot (total_orders bot + 1)%Z
                         (total_volume_usdt bot + size * current_price a)
                         (Some t) (last_cleanup bot)).
Proof.
  destruct market_data as [data |];
    [| do 3 eexists; split; [reflexivity | now left]].
  destruct (Qle_bool balance 0) eqn:Hbalance.
  - unfold StandaloneVolumeBot.trade_step. rewrite Hbalance.
    do 3 eexists; split; [reflexivity | now left].
  - apply Qle_bool_false in Hbalance.
    destruct (VolumeGenerationStrategy.should_trade np_sin cfg (Some data)
                balance w) as [[[placed confidence] diagnostics] w1] eqn:Hrun.
    rewrite (trade_step_run data balance bot w w1 placed confidence
               diagnostics Hbalance Hrun).
    cbn [fst should_place_of diagnostics_of].
    destruct placed; [| do 3 eexists; split; [reflexivity | now left]].
    destruct diagnostics as [msg | | a];
      try (do 3 eexists; split; [reflexivity | now left]).
    destruct (Py.Qlt_bool (balance * MAX_BALANCE_USAGE_RATIO)
                (MIN_ORDER_VALUE_USDT vc / current_price a));
      [do 3 eexists; split; [reflexivity | now left] |].
    destruct (Py.Qlt_bool (sent_size vc balance a * current_price a)
                (MIN_ORDER_VALUE_USDT vc)) eqn:Hvalue;
      [do 3 eexists; split; [reflexivity | now left] |].
    apply Qlt_bool_false in Hvalue.
    unfold bind at 1, StandaloneVolumeBot.execute_order.
    destruct (place_order_returns (order_side a) (sent_size vc balance a)
                (Some (current_price a)) (DRY_RUN vc) w1)
      as (result & w2 & ->).
    destruct result as [order | order | msg];
      try (unfold bind, datetime_now, ret; do 3 eexists;
           split; [reflexivity |]; right;
           exists a, (sent_size vc balance a), (clock w2 0%nat);
           repeat split; try assumption;
           unfold sent_size; apply min_upper_bounds).
    do 3 eexists; split; [reflexivity | now left].
Qed.

(** X22.  A live pass whose decision is to place, on a balance that
    allows the minimum viable size and with a size that passes the final
    verification of the loop ([size * price] not below
    [MIN_ORDER_VALUE_USDT]), sends exactly one limit order: at the
    decision's price and side, for the requested size raised to the
    minimum viable size and capped at [MAX_BALANCE_USAGE_RATIO] of the
    balance.  The order is counted when the exchange accepts it and not
    when it refuses; the strategy's own counters are as [should_trade] left
    them either way.  (The final verification is a hypothesis of its own:
    on binary64 it can fail where the balance allows the minimum viable
    size, see [final_verification_can_fail].) *)
Theorem live_pass_sends_one_limit_order
  (data : MarketData) (balance : Q) (bot : Bot) (w w1 : World E)
  (confidence : Q) (a : Analysis) :
  DRY_RUN vc = false ->
  0 < balance ->
  VolumeGenerationStrategy.should_trade np_sin cfg (Some data) balance w
  = ((true, confidence, Analysed a), w1) ->
  MIN_ORDER_VALUE_USDT vc / current_price a
  <= balance * MAX_BALANCE_USAGE_RATIO ->
  MIN_ORDER_VALUE_USDT vc <= sent_size vc balance a * current_price a ->
  exists bot' w',
    StandaloneVolumeBot.trade_step np_sin cfg vc (Some data) balance bot w
    = (Ok (bot', None), w')
    /\ requests w'
       = requests w1
         ++ [ReqLimitOrder (symbol cfg) (order_side a)
               (sent_size vc balance a) (current_price a)]
    /\ MIN_ORDER_VALUE_USDT vc / current_price a <= sent_size vc balance a
    /\ sent_size vc balance a <= balance * MAX_BALANCE_USAGE_RATIO
    /\ engine_state w' = engine_state w1
    /\ match fst (create_limit_order (symbol cfg) (order_side a)
                    (sent_size vc balance a) (current_price a)
                    (exchange w1)) with
       | Ok order =>
           (exists t,
              bot' = mkBot (total_orders bot + 1)%Z
                       (total_volume_usdt bot
                        + sent_size vc balance a * current_price a)
                       (Some t) (last_cleanup bot))
           /\ open_orders w'
              = open_orders w1
                ++ match OrderManager.tracked_id order with
                   | Some id => [id]
                   | None => []
                   end
       | Raise _ => bot' = bot /\ open_orders w' = open_orders w1
       end.
Proof.
  intros Hlive Hbalance Hrun Hallows Hverified.
  assert (Hprice : 0 < current_price a).
  { unfold VolumeGenerationStrategy.should_trade in Hrun.
    destruct (VolumeGenerationStrategy.should_trade_try np_sin cfg
                (Some data) balance w) as [[d | msg] w2] eqn:Htry;
      [| discriminate Hrun].
    injection Hrun as -> ->.
    apply should_trade_try_inv in Htry; [| now left].
    destruct Htry as (data' & w0 & w2 & price & _ & _ & _ & _ & Hp & Hev).
    apply evaluate_trade_run in Hev as (a' & c' & Heq & Hpr & _).
    injection Heq as _ _ <-. now rewrite Hpr. }
  destruct (sent_size_bounds balance a Hallows) as (Hfloor & Hcap).
  rewrite (trade_step_run data balance bot w w1 true confidence
             (Analysed a) Hbalance Hrun).
  apply Qlt_bool_false in Hallows. rewrite Hallows.
  apply Qlt_bool_false in Hverified. rewrite Hverified.
  unfold bind at 1, StandaloneVolumeBot.execute_order. rewrite Hlive.
  assert (Hnonzero : Qeq_bool (current_price a) 0 = false).
  { destruct (Qeq_bool (current_price a) 0) eqn:Hz; [| reflexivity].
    apply Qeq_bool_iff in Hz. rewrite Hz in Hprice. discriminate Hprice. }
  destruct (live_limit_order_run cfg (order_side a) (sent_size vc balance a)
              (current_price a) w1 Hnonzero)
    as (result & w2 & Hplace & Hreq & Hresult).
  assert (Hengine : engine_state w2 = engine_state w1)
    by (eapply keeps_run; [apply place_order_keeps_engine | exact Hplace]).
  rewrite Hplace.
  destruct (fst (create_limit_order (symbol cfg) (order_side a)
                   (sent_size vc balance a) (current_price a) (exchange w1)))
    as [order | msg]; destruct Hresult as [-> Hopen].
  - unfold bind, datetime_now, ret. do 2 eexists.
    split; [reflexivity |].
    cbn [requests open_orders set_clock engine_state last_order_time
         volume_generated_today_usdt order_count].
    repeat split; try assumption. now exists (clock w2 0%nat).
  - unfold ret. do 2 eexists. split; [reflexivity |].
    repeat split; assumption.
Qed.

(** X23.  When the decision is to place but [MAX_BALANCE_USAGE_RATIO] of
    the balance is below the minimum viable size, the pass sends no
    order, leaves the statistics as they are and sleeps
    [BALANCE_WARNING_WAIT] seconds; the strategy has nevertheless booked
    the order: its [order_count] is one higher and its volume is higher
    by the order value of the decision. *)
Theorem skipped_order_is_still_booked
  (data : MarketData) (balance : Q) (bot : Bot) (w w1 : World E)
  (confidence : Q) (a : Analysis) :
  0 < balance ->
  VolumeGenerationStrategy.should_trade np_sin cfg (Some data) balance w
  = ((true, confidence, Analysed a), w1) ->
  balance * MAX_BALANCE_USAGE_RATIO
  < MIN_ORDER_VALUE_USDT vc / current_price a ->
  StandaloneVolumeBot.trade_step np_sin cfg vc (Some data) balance bot w
  = (Ok (bot, Some BALANCE_WARNING_WAIT), w1)
  /\ (exists t,
        engine_state w1
        = (Some t, volume_generated_today_usdt w + order_value_usdt a,
           (order_count w + 1)%Z))
  /\ (requests w1 = requests w
      \/ requests w1
         = requests w
           ++ map (fun id => ReqCancel id (symbol cfg)) (open_orders w)).
Proof.
  intros Hbalance Hrun Hlow.
  rewrite (trade_step_run data balance bot w w1 true confidence
             (Analysed a) Hbalance Hrun).
  apply Qlt_bool_true in Hlow. rewrite Hlow.
  split; [reflexivity |].
  unfold VolumeGenerationStrategy.should_trade in Hrun.
  destruct (VolumeGenerationStrategy.should_trade_try np_sin cfg
              (Some data) balance w) as [[d | msg] w2] eqn:Htry;
    [| discriminate Hrun].
  injection Hrun as -> ->.
  split.
  - apply should_trade_try_inv in Htry; [| now left].
    destruct Htry as (data' & w0 & w2 & price & _ & _ & Hengine & _ & _
                      & Hev).
    apply evaluate_trade_run in Hev
      as (a' & c' & Heq & _ & _ & _ & _ & _ & _ & _ & Hbooked).
    injection Heq as Hplaced _ <-.
    destruct (Hbooked (eq_sym Hplaced)) as [t Ht]. exists t.
    rewrite Ht. unfold engine_state in Hengine.
    injection Hengine as _ -> ->. reflexivity.
  - apply should_trade_try_exchange in Htry as ([Hsame | Hreq] & _).
    + left. unfold exchange_state in Hsame. congruence.
    + right. exact Hreq.
Qed.

Lemma cleanup_idle (w : World E) :
  open_orders w = [] ->
  VolumeGenerationStrategy.cleanup_completed_orders cfg w = (Ok 0%Z, w).
Proof.
  intro Hnone.
  unfold VolumeGenerationStrategy.cleanup_completed_orders,
    OrderManager.cleanup_completed_orders, bind, gets, ret.
  now rewrite Hnone.
Qed.

(** X24.  In dry-run mode a pass of the loop, taken from the market data
    and the balance it has fetched and started with nothing tracked, never
    raises, sends no order request (no order, no cancellation, no status
    query) and tracks nothing: the order side of the exchange, the order
    requests sent and the (empty) tracker are as before, whatever the
    market data, the balance and the decision.  So a dry run that starts
    with an empty tracker places, cancels and queries no order, pass after
    pass.  (The two fetches that open a pass, [get_market_data] and
    [get_balance], do call the exchange in dry-run mode too; they come
    before the part of the pass embedded as [run_iteration].) *)
Theorem dry_run_pass_is_silent
  (market_data : option MarketData) (balance : Q) (bot : Bot)
  (w : World E) :
  DRY_RUN vc = true ->
  open_orders w = [] ->
  exists bot' seconds w',
    StandaloneVolumeBot.run_iteration np_sin cfg vc market_data balance
      bot w = (Ok (bot', seconds), w')
    /\ exchange_state w' = exchange_state w
    /\ open_orders w' = [].
Proof.
  intros Hdry Hnone.
  assert (Hstep : exists step w1,
            StandaloneVolumeBot.trade_step np_sin cfg vc market_data
              balance bot w = (Ok step, w1)
            /\ exchange_state w1 = exchange_state w).
  { destruct market_data as [data |];
      [| do 2 eexists; split; reflexivity].
    destruct (Qle_bool balance 0) eqn:Hbalance.
    - unfold StandaloneVolumeBot.trade_step. rewrite Hbalance.
      do 2 eexists; split; reflexivity.
    - apply Qle_bool_false in Hbalance.
      destruct (VolumeGenerationStrategy.should_trade np_sin cfg
                  (Some data) balance w)
        as [[[placed confidence] diagnostics] w1] eqn:Hrun.
      rewrite (trade_step_run data balance bot w w1 placed confidence
                 diagnostics Hbalance Hrun).
      assert (Hx1 : exchange_state w1 = exchange_state w).
      { unfold VolumeGenerationStrategy.should_trade in Hrun.
        destruct (VolumeGenerationStrategy.should_trade_try np_sin cfg
                    (Some data) balance w) as [r w2] eqn:Htry.
        apply should_trade_try_exchange in Htry as (_ & Hsame & _).
        assert (Hw : w2 = w1) by (destruct r; congruence).
        subst w2. apply Hsame. tauto. }
      destruct placed; [| do 2 eexists; split; [reflexivity | exact Hx1]].
      destruct diagnostics as [msg | | a];
        try (do 2 eexists; split; [reflexivity | exact Hx1]).
      destruct (Py.Qlt_bool (balance * MAX_BALANCE_USAGE_RATIO)
                  (MIN_ORDER_VALUE_USDT vc / current_price a));
        [do 2 eexists; split; [reflexivity | exact Hx1] |].
      destruct (Py.Qlt_bool (sent_size vc balance a * current_price a)
                  (MIN_ORDER_VALUE_USDT vc));
        [do 2 eexists; split; [reflexivity | exact Hx1] |].
      unfold bind at 1, StandaloneVolumeBot.execute_order.
      rewrite Hdry, dry_run_place_order_run.
      unfold bind, datetime_now, ret. do 2 eexists.
      split; [reflexivity | exact Hx1]. }
  destruct Hstep as ([bot1 slept] & w1 & Hstep & Hx1).
  unfold StandaloneVolumeBot.run_iteration, bind at 1. rewrite Hstep.
  cbn [fst snd].
  assert (Ho1 : open_orders w1 = [])
    by (unfold exchange_state in Hx1; congruence).
  destruct slept as [seconds |].
  - do 3 eexists. split; [reflexivity |]. split; assumption.
  - unfold StandaloneVolumeBot.periodic_cleanup, bind at 1, bind at 1,
      datetime_now.
    destruct (Py.Qlt_bool ORDER_CLEANUP_INTERVAL
                (Py.total_seconds (clock w1 0%nat - last_cleanup bot1))).
    + unfold bind at 1. rewrite cleanup_idle by exact Ho1.
      unfold bind, ret. do 3 eexists. split; [reflexivity |].
      split; assumption.
    + unfold ret. do 3 eexists. split; [reflexivity |]. split; assumption.
Qed.
End LoopPass.

(** A live pass on a book of 100 / 101 at a price of 100, with a balance
    of 1000 and a minimum order value of 5. *)
Lemma live_pass_sends_one_limit_order_example :
  exists confidence a w1 bot' w',
    VolumeGenerationStrategy.should_trade (fun _ => 0)
      (default_config "up") (Some (snapshot 100 100 101)) 1000
      (fresh_world quiet_script [])
    = ((true, confidence, Analysed a), w1)
    /\ 5 / current_price a <= 1000 * MAX_BALANCE_USAGE_RATIO
    /\ 5 <= sent_size (mkVolumeConfig false 5) 1000 a * current_price a
    /\ StandaloneVolumeBot.trade_step (fun _ => 0) (default_config "up")
         (mkVolumeConfig false 5) (Some (snapshot 100 100 101)) 1000
         (mkBot 0 0 None 0) (fresh_world quiet_script [])
       = (Ok (bot', None), w')
    /\ requests w'
       = requests w1
         ++ [ReqLimitOrder "ETH/USDT" (order_side a)
               (sent_size (mkVolumeConfig false 5) 1000 a)
               (current_price a)]
    /\ sent_size (mkVolumeConfig false 5) 1000 a
       <= 1000 * MAX_BALANCE_USAGE_RATIO.
Proof.
  assert (Hfst : exists c a,
            fst (VolumeGenerationStrategy.should_trade (fun _ => 0)
                   (default_config "up") (Some (snapshot 100 100 101)) 1000
                   (fresh_world quiet_script []))
            = (true, c, Analysed a)
            /\ Qle_bool (5 / current_price a)
                 (1000 * MAX_BALANCE_USAGE_RATIO) = true
            /\ Qle_bool 5
                 (sent_size (mkVolumeConfig false 5) 1000 a
                  * current_price a) = true).
  { vm_compute. do 2 eexists. repeat split; reflexivity. }
  destruct (VolumeGenerationStrategy.should_trade (fun _ => 0)
              (default_config "up") (Some (snapshot 100 100 101)) 1000
              (fresh_world quiet_script [])) as [d w1] eqn:Hrun.
  destruct Hfst as (c & a & Hd & Hallows & Hverified).
  cbn [fst] in Hd. subst d.
  apply Qle_bool_iff in Hallows. apply Qle_bool_iff in Hverified.
  destruct (live_pass_sends_one_limit_order (fun _ => 0)
              (default_config "up") (mkVolumeConfig false 5)
              (snapshot 100 100 101) 1000 (mkBot 0 0 None 0)
              (fresh_world quiet_script []) w1 c a
              eq_refl eq_refl Hrun Hallows Hverified)
    as (bot' & w' & Hstep & Hreq & _ & Hcap & _).
  exists c, a, w1, bot', w'.
  split; [reflexivity |]. split; [exact Hallows |].
  split; [exact Hverified |]. split; [exact Hstep |].
  split; [exact Hreq | exact Hcap].
Defined.

(** The same pass with a balance of 0.4: a tenth of it is below the 0.05
    units that 5 USDT buy at a price of 100. *)
Lemma skipped_order_is_still_booked_example :
  exists confidence a w1 t,
    VolumeGenerationStrategy.should_trade (fun _ => 0)
      (default_config "up") (Some (snapshot 100 100 101)) 0.4
      (fresh_world quiet_script [])
    = ((true, confidence, Analysed a), w1)
    /\ StandaloneVolumeBot.trade_step (fun _ => 0) (default_config "up")
         (mkVolumeConfig false 5) (Some (snapshot 100 100 101)) 0.4
         (mkBot 0 0 None 0) (fresh_world quiet_script [])
       = (Ok (mkBot 0 0 None 0, Some BALANCE_WARNING_WAIT), w1)
    /\ engine_state w1
       = (Some t,
          volume_generated_today_usdt (fresh_world quiet_script [])
          + order_value_usdt a,
          (order_count (fresh_world quiet_script []) + 1)%Z).
Proof.
  assert (Hfst : exists c a,
            fst (VolumeGenerationStrategy.should_trade (fun _ => 0)
                   (default_config "up") (Some (snapshot 100 100 101)) 0.4
                   (fresh_world quiet_script []))
            = (true, c, Analysed a)
            /\ Py.Qlt_bool (0.4 * MAX_BALANCE_USAGE_RATIO)
                 (5 / current_price a) = true).
  { vm_compute. do 2 eexists. split; reflexivity. }
  destruct (VolumeGenerationStrategy.should_trade (fun _ => 0)
              (default_config "up") (Some (snapshot 100 100 101)) 0.4
              (fresh_world quiet_script [])) as [d w1] eqn:Hrun.
  destruct Hfst as (c & a & Hd & Hlow). cbn [fst] in Hd. subst d.
  apply Qlt_bool_true in Hlow.
  destruct (skipped_order_is_still_booked (fun _ => 0)
              (default_config "up") (mkVolumeConfig false 5)
              (snapshot 100 100 101) 0.4 (mkBot 0 0 None 0)
              (fresh_world quiet_script []) w1 c a
              eq_refl Hrun Hlow)
    as (Hstep & [t Hbooked] & _).
  exists c, a, w1, t.
  split; [reflexivity |]. split; [exact Hstep | exact Hbooked].
Defined.

(** A dry-run pass of a fresh bot. *)
Lemma dry_run_pass_is_silent_example :
  exists bot' seconds w',
    StandaloneVolumeBot.run_iteration (fun _ => 0) (default_config "up")
      (mkVolumeConfig true 5) (Some (snapshot 100 100 101)) 1000
      (mkBot 0 0 None 0) (fresh_world quiet_script [])
    = (Ok (bot', seconds), w')
    /\ exchange_state w' = exchange_state (fresh_world quiet_script [])
    /\ open_orders w' = [].
Proof.
  exact (dry_run_pass_is_silent (fun _ => 0) (default_config "up")
           (mkVolumeConfig true 5) (Some (snapshot 100 100 101)) 1000
           (mkBot 0 0 None 0) (fresh_world quiet_script [])
           eq_refl eq_refl).
Defined.

(** ** What a whole pass sends *)

Section LoopTrace.
Context {E : Type} {client : ExchangeClient E}.
Variable np_sin : Q -> Q.
Variable cfg : Config.
Variable vc : VolumeConfig.

(** A decision to place is made at a positive price. *)
Lemma placed_price_positive
  (market_data : option MarketData) (balance : Q) (w w1 : World E)
  (placed : bool) (confidence : Q) (a : Analysis) :
  VolumeGenerationStrategy.should_trade np_sin cfg market_data balance w
  = ((placed, confidence, Analysed a), w1) ->
  0 < current_price a.
Proof.
  intro Hrun. unfold VolumeGenerationStrategy.should_trade in Hrun.
  destruct (VolumeGenerationStrategy.should_trade_try np_sin cfg
              market_data balance w) as [[d | msg] w2] eqn:Htry;
    [| discriminate Hrun].
  injection Hrun as -> ->.
  apply should_trade_try_inv in Htry; [| right; now exists a].
  destruct Htry as (data & w0 & w2 & price & _ & _ & _ & _ & Hp & Hev).
  apply evaluate_trade_run in Hev as (a' & c' & Heq & Hpr & _).
  injection Heq as _ _ <-. now rewrite Hpr.
Qed.

Lemma cleanup_completed_orders_run (w : World E) :
  exists count w',
    OrderManager.cleanup_completed_orders cfg w = (Ok count, w')
    /\ requests w'
       = requests w
         ++ map (fun id => ReqFetch id (symbol cfg)) (open_orders w).
Proof.
  unfold OrderManager.cleanup_completed_orders, bind, gets.
  destruct (open_orders w) as [| x rest] eqn:Htracked.
  - exists 0%Z, w. simpl. now rewrite app_nil_r.
  - pose proof (cleanup_each_requests cfg (x :: rest) (0%Z, []) w) as Hreq.
    destruct (cleanup_each_run cfg (x :: rest) (0%Z, []) w)
      as (w1 & Hrun & Hopen).
    rewrite Hrun in Hreq |- *. cbn [snd] in Hreq.
    unfold OrderManager.forget, modify, ret. cbn [fst snd].
    eexists; eexists. split; [reflexivity |].
    cbn [requests set_open_orders]. exact Hreq.
Qed.

(** What the order of a pass sends: nothing in a dry run, one limit order
    in a live run. *)
Lemma execute_order_requests
  (side : Side) (amount price : Q) (w : World E) :
  0 < price ->
  exists result w',
    StandaloneVolumeBot.execute_order cfg vc side amount (Some price) w
    = (Ok result, w')
    /\ (requests w' = requests w
        \/ requests w'
           = requests w ++ [ReqLimitOrder (symbol cfg) side amount price]).
Proof.
  intro Hprice. unfold StandaloneVolumeBot.execute_order.
  destruct (DRY_RUN vc).
  - rewrite dry_run_place_order_run. do 2 eexists.
    split; [reflexivity | now left].
  - assert (Hnonzero : Qeq_bool price 0 = false).
    { destruct (Qeq_bool price 0) eqn:Hz; [| reflexivity].
      apply Qeq_bool_iff in Hz. rewrite Hz in Hprice. discriminate Hprice. }
    destruct (live_limit_order_run cfg side amount price w Hnonzero)
      as (result & w' & Hrun & Hreq & _).
    exists result, w'. split; [exact Hrun | now right].
Qed.

Lemma trade_step_requests
  (market_data : option MarketData) (balance : Q) (bot : Bot)
  (w : World E) :
  exists step w1,
    StandaloneVolumeBot.trade_step np_sin cfg vc market_data balance bot w
    = (Ok step, w1)
    /\ exists cancels orders,
         requests w1 = requests w ++ cancels ++ orders
         /\ (cancels = []
             \/ cancels
                = map (fun id => ReqCancel id (symbol cfg)) (open_orders w))
         /\ (orders = []
             \/ exists side size price,
                  orders = [ReqLimitOrder (symbol cfg) side size price]).
Proof.
  assert (Hquiet : forall w1 : World E,
            requests w1 = requests w ->
            exists cancels orders,
              requests w1 = requests w ++ cancels ++ orders
              /\ (cancels = []
                  \/ cancels
                     = map (fun id => ReqCancel id (symbol cfg))
                         (open_orders w))
              /\ (orders = []
                  \/ exists side size price,
                       orders = [ReqLimitOrder (symbol cfg) side size price])).
  { intros w1 Hreq. exists [], []. rewrite Hreq, !app_nil_r.
    repeat split; now left. }
  destruct market_data as [data |];
    [| do 2 eexists; split; [reflexivity | apply Hquiet; reflexivity]].
  destruct (Qle_bool balance 0) eqn:Hbalance.
  - unfold StandaloneVolumeBot.trade_step. rewrite Hbalance.
    do 2 eexists; split; [reflexivity | apply Hquiet; reflexivity].
  - apply Qle_bool_false in Hbalance.
    destruct (VolumeGenerationStrategy.should_trade np_sin cfg (Some data)
                balance w) as [[[placed confidence] diagnostics] w1] eqn:Hrun.
    rewrite (trade_step_run np_sin cfg vc data balance bot w w1 placed
               confidence diagnostics Hbalance Hrun).
    assert (Hcancels : exists cancels,
              requests w1 = requests w ++ cancels
              /\ (cancels = []
                  \/ cancels
                     = map (fun id => ReqCancel id (symbol cfg))
                         (open_orders w))).
    { pose proof Hrun as Hrun'.
      unfold VolumeGenerationStrategy.should_trade in Hrun'.
      destruct (VolumeGenerationStrategy.should_trade_try np_sin cfg
                  (Some data) balance w) as [r w2] eqn:Htry.
      assert (Hw : w2 = w1) by (destruct r; congruence). subst w2.
      apply should_trade_try_exchange in Htry as ([Hsame | Hreq] & _).
      - exists []. rewrite app_nil_r. split; [| now left].
        unfold exchange_state in Hsame. congruence.
      - eexists. split; [exact Hreq | now right]. }
    destruct Hcancels as (cancels & Hreq1 & Hcancels).
    assert (Hrest : forall w2 : World E,
              requests w2 = requests w1 ->
              exists cancels orders,
                requests w2 = requests w ++ cancels ++ orders
                /\ (cancels = []
                    \/ cancels
                       = map (fun id => ReqCancel id (symbol cfg))
                           (open_orders w))
                /\ (orders = []
                    \/ exists side size price,
                         orders
                         = [ReqLimitOrder (symbol cfg) side size price])).
    { intros w2 Hreq. exists cancels, [].
      rewrite Hreq, Hreq1, app_nil_r. repeat split; [exact Hcancels |].
      now left. }
    destruct placed;
      [| do 2 eexists; split; [reflexivity | apply Hrest; reflexivity]].
    destruct diagnostics as [msg | | a];
      try (do 2 eexists; split; [reflexivity | apply Hrest; reflexivity]).
    destruct (Py.Qlt_bool (balance * MAX_BALANCE_USAGE_RATIO)
                (MIN_ORDER_VALUE_USDT vc / current_price a));
      [do 2 eexists; split; [reflexivity | apply Hrest; reflexivity] |].
    destruct (Py.Qlt_bool (sent_size vc balance a * current_price a)
                (MIN_ORDER_VALUE_USDT vc));
      [do 2 eexists; split; [reflexivity | apply Hrest; reflexivity] |].
    pose proof (placed_price_positive _ _ _ _ _ _ _ Hrun) as Hprice.
    destruct (execute_order_requests (order_side a)
                (sent_size vc balance a) (current_price a) w1 Hprice)
      as (result & w2 & Hplace & Hreq2).
    unfold bind at 1. rewrite Hplace.
    assert (Horders : exists orders,
              requests w2 = requests w ++ cancels ++ orders
              /\ (orders = []
                  \/ exists side size price,
                       orders
                       = [ReqLimitOrder (symbol cfg) side size price])).
    { destruct Hreq2 as [Hreq2 | Hreq2]; rewrite Hreq2, Hreq1.
      - exists []. rewrite app_nil_r. split; [reflexivity | now left].
      - eexists. rewrite <- app_assoc. split; [reflexivity |].
        right. now do 3 eexists. }
    destruct Horders as (orders & Hreq3 & Horders).
    destruct result as [order | order | msg];
      unfold bind, datetime_now, ret;
      do 2 eexists; (split; [reflexivity |]);
      exists cancels, orders; cbn [requests set_clock];
      (split; [exact Hreq3 |]); (split; [exact Hcancels | exact Horders]).
Qed.

(** X25.  A whole pass of the loop never raises, and what it sends is, in
    this order: nothing or one cancellation per id tracked at the start
    (from [should_trade]); then nothing or one limit order; then nothing
    or status queries (from the periodic cleanup).  In particular the loop
    never sends a market order, and never more than one order per pass. *)
Theorem loop_pass_request_trace
  (market_data : option MarketData) (balance : Q) (bot : Bot)
  (w : World E) :
  exists bot' seconds w' cancels orders fetches,
    StandaloneVolumeBot.run_iteration np_sin cfg vc market_data balance
      bot w = (Ok (bot', seconds), w')
    /\ requests w' = requests w ++ cancels ++ orders ++ fetches
    /\ (cancels = []
        \/ cancels
           = map (fun id => ReqCancel id (symbol cfg)) (open_orders w))
    /\ (orders = []
        \/ exists side size price,
             orders = [ReqLimitOrder (symbol cfg) side size price])
    /\ (fetches = []
        \/ exists tracked,
             fetches = map (fun id => ReqFetch id (symbol cfg)) tracked).
Proof.
  destruct (trade_step_requests market_data balance bot w)
    as ([bot1 slept] & w1 & Hstep & cancels & orders & Hreq & Hcancels
        & Horders).
  unfold StandaloneVolumeBot.run_iteration, bind at 1. rewrite Hstep.
  cbn [fst snd].
  destruct slept as [seconds |].
  - do 3 eexists. exists cancels, orders, [].
    split; [reflexivity |]. rewrite app_nil_r.
    repeat split; try assumption. now left.
  - unfold StandaloneVolumeBot.periodic_cleanup, bind at 1, bind at 1,
      datetime_now.
    set (w2 := set_clock (fun n => clock w1 (S n)) w1).
    assert (Hreq2 : requests w2 = requests w1) by reflexivity.
    destruct (Py.Qlt_bool ORDER_CLEANUP_INTERVAL
                (Py.total_seconds (clock w1 0%nat - last_cleanup bot1))).
    + unfold bind at 1, VolumeGenerationStrategy.cleanup_completed_orders.
      destruct (cleanup_completed_orders_run w2)
        as (count & w3 & Hclean & Hreq3).
      rewrite Hclean. unfold bind, ret.
      do 3 eexists. exists cancels, orders. eexists.
      split; [reflexivity |]. cbn [requests set_clock].
      rewrite Hreq3, Hreq2, Hreq, <- !app_assoc.
      split; [reflexivity |]. repeat split; try assumption.
      right. eexists. reflexivity.
    + unfold ret. do 3 eexists. exists cancels, orders, [].
      split; [reflexivity |]. rewrite app_nil_r, Hreq2.
      repeat split; try assumption. now left.
Qed.
End LoopTrace.
